(** * Relevance classifier, paper parser and search driver of
      [literature_search_paper_aligned.py]

    A shallow embedding of class [RestrictedPaperSearcher] and the
    properties its specification states about it.

    Modelling conventions.
    - A Python [str] is a [string]; a character is a code point in the
      Latin-1 range U+0000..U+00FF, and [lower], [isalnum] and the white
      space of [split()] are Python's on that range.
    - A decoded JSON document is a [value].  JSON numbers are integers
      here (floating point is outside the model).  A JSON object is an
      association list in insertion order with pairwise distinct keys,
      as Python's [dict] iterates in insertion order.
    - A raised Python exception is [Raise e], and [result] is the monad
      that propagates it.  Code that mutates [self] or a local
      accumulator takes the state and returns the new one.
    - The works API is a function from the number of requests sent so
      far and the query parameters to the answer received.
    - Console output ([print]) and [time.sleep] are not modelled. *)

From Stdlib Require Import ZArith NArith Ascii String List Bool Lia Sorted.
From stdpp Require Import base option list gmap strings pretty.

Local Open Scope string_scope.
Local Open Scope list_scope.
Local Open Scope Z_scope.

(** ** Strings *)

Module Str.

Definition code (c : ascii) : N := N_of_ascii c.

Definition between (lo hi n : N) : bool := ((lo <=? n) && (n <=? hi))%N.

(** [str.lower] on one code point of the Latin-1 range. *)
Definition lower_char (c : ascii) : ascii :=
  let n := code c in
  if between 65 90 n || (between 192 222 n && negb (n =? 215)%N)
  then ascii_of_N (n + 32) else c.

Fixpoint lower (s : string) : string :=
  match s with
  | EmptyString => EmptyString
  | String c r => String (lower_char c) (lower r)
  end.

(** [c.isalnum()]: letters, decimal digits and the other numeric
    characters of the Latin-1 range. *)
Definition isalnum (c : ascii) : bool :=
  let n := code c in
  between 48 57 n || between 65 90 n || between 97 122 n
  || (n =? 170)%N || (n =? 178)%N || (n =? 179)%N || (n =? 181)%N
  || (n =? 185)%N || (n =? 186)%N || between 188 190 n
  || between 192 214 n || between 216 246 n || between 248 255 n.

(** White space as [str.split()] without argument sees it. *)
Definition isspace (c : ascii) : bool :=
  let n := code c in
  between 9 13 n || between 28 32 n || (n =? 133)%N || (n =? 160)%N.

(** [s.startswith(p)]. *)
Fixpoint starts_with (p s : string) : bool :=
  match p, s with
  | EmptyString, _ => true
  | String a p', String b s' => Ascii.eqb a b && starts_with p' s'
  | String _ _, EmptyString => false
  end.

(** [needle in hay]. *)
Fixpoint contains (needle hay : string) : bool :=
  starts_with needle hay
  || match hay with
     | EmptyString => false
     | String _ r => contains needle r
     end.

Fixpoint filter (p : ascii -> bool) (s : string) : string :=
  match s with
  | EmptyString => EmptyString
  | String c r => if p c then String c (filter p r) else filter p r
  end.

(** [sep.join(l)]. *)
Fixpoint join (sep : string) (l : list string) : string :=
  match l with
  | [] => ""
  | [x] => x
  | x :: r => x +:+ sep +:+ join sep r
  end.

(** [s[:n]]. *)
Fixpoint take (n : nat) (s : string) : string :=
  match n, s with
  | S n', String c r => String c (take n' r)
  | _, _ => EmptyString
  end.

(** [s.split(sep)] for a one-character separator: never empty. *)
Fixpoint split_on (sep : ascii) (s : string) : list string :=
  match s with
  | EmptyString => [EmptyString]
  | String c r =>
      if Ascii.eqb c sep then EmptyString :: split_on sep r
      else match split_on sep r with
           | [] => [String c EmptyString]
           | w :: ws => String c w :: ws
           end
  end.

(** [s.split()]: maximal runs of non-space characters. [cur] is the
    token being read, reversed. *)
Fixpoint split_ws_aux (cur : list ascii) (s : string) : list string :=
  let flush := match cur with
               | [] => []
               | _ => [string_of_list_ascii (rev cur)]
               end in
  match s with
  | EmptyString => flush
  | String c r =>
      if isspace c then flush ++ split_ws_aux [] r
      else split_ws_aux (c :: cur) r
  end.

Definition split_ws (s : string) : list string := split_ws_aux [] s.

(** [s.replace(old, new)] for a non-empty [old]: every occurrence,
    left to right, without overlap.  [skip] counts the characters of
    the occurrence just replaced that are still to be dropped. *)
Fixpoint replace_aux (old new : string) (skip : nat) (s : string) : string :=
  match s with
  | EmptyString => EmptyString
  | String c r =>
      match skip with
      | S k => replace_aux old new k r
      | O =>
          if starts_with old s
          then new +:+ replace_aux old new (String.length old - 1)%nat r
          else String c (replace_aux old new 0 r)
      end
  end.

Definition replace (old new s : string) : string := replace_aux old new 0 s.

End Str.

(** ** Decoded JSON and Python values *)

#[local] Set Warnings "-register-all".

Inductive value : Type :=
| VNone
| VBool (b : bool)
| VInt (z : Z)
| VStr (s : string)
| VList (l : list value)
| VDict (d : list (string * value)).

(** A Python [dict] with string keys, in insertion order. *)
Definition dict : Type := list (string * value).

Inductive exn : Type :=
| AttributeError | TypeError | KeyError | IndexError | ValueError.

Inductive result (A : Type) : Type :=
| Ok (a : A)
| Raise (e : exn).
Arguments Ok {A} a.
Arguments Raise {A} e.

Definition rbind {A B} (k : A -> result B) (r : result A) : result B :=
  match r with
  | Ok a => k a
  | Raise e => Raise e
  end.

#[global] Instance result_ret : MRet result := @Ok.
#[global] Instance result_bind : MBind result := @rbind.

Module Py.

(** [bool(v)]. *)
Definition truthy (v : value) : bool :=
  match v with
  | VNone => false
  | VBool b => b
  | VInt z => negb (z =? 0)%Z
  | VStr s => negb (String.eqb s "")
  | VList l => match l with [] => false | _ => true end
  | VDict d => match d with [] => false | _ => true end
  end.

(** [a or b]. *)
Definition or_ (a b : value) : value := if truthy a then a else b.

Fixpoint lookup (k : string) (d : dict) : option value :=
  match d with
  | [] => None
  | (k', v) :: r => if String.eqb k k' then Some v else lookup k r
  end.

(** [d[k] = v]: in place when the key is present, at the end
    otherwise. *)
Fixpoint set (k : string) (v : value) (d : dict) : dict :=
  match d with
  | [] => [(k, v)]
  | (k', v') :: r =>
      if String.eqb k k' then (k', v) :: r else (k', v') :: set k v r
  end.

(** [d.get(k, dflt)] on a dict. *)
Definition get (d : dict) (k : string) (dflt : value) : value :=
  match lookup k d with
  | Some v => v
  | None => dflt
  end.

(** [v.get(k, dflt)] on any value: only a dict has the method. *)
Definition vget (v : value) (k : string) (dflt : value) : result value :=
  match v with
  | VDict d => Ok (get d k dflt)
  | _ => Raise AttributeError
  end.

(** [v.lower()]. *)
Definition vlower (v : value) : result string :=
  match v with
  | VStr s => Ok (Str.lower s)
  | _ => Raise AttributeError
  end.

(** Iterating [v] in a [for] loop or a generator: the elements of a
    list, the keys of a dict, the characters of a string. *)
Definition iter (v : value) : result (list value) :=
  match v with
  | VList l => Ok l
  | VDict d => Ok (map (fun kv => VStr (fst kv)) d)
  | VStr s => Ok (map (fun c => VStr (String c EmptyString)) (list_ascii_of_string s))
  | _ => Raise TypeError
  end.

(** An integer usable as a list index; [bool] is a subclass of [int]. *)
Definition as_index (v : value) : option Z :=
  match v with
  | VInt z => Some z
  | VBool b => Some (if b then 1 else 0)
  | _ => None
  end.

Fixpoint as_indices (l : list value) : result (list Z) :=
  match l with
  | [] => Ok []
  | v :: r =>
      match as_index v with
      | Some z => zs ← as_indices r; Ok (z :: zs)
      | None => Raise TypeError
      end
  end.

(** [max(l)] of integers: [ValueError] on an empty sequence. *)
Definition max_of (l : list Z) : result Z :=
  match l with
  | [] => Raise ValueError
  | z :: r => Ok (fold_left Z.max r z)
  end.

(** [l[i] = x] with Python's negative indices. *)
Definition assign {A} (l : list A) (i : Z) (x : A) : result (list A) :=
  let n := Z.of_nat (length l) in
  if (0 <=? i) && (i <? n) then Ok (<[Z.to_nat i := x]> l)
  else if (- n <=? i) && (i <? 0) then Ok (<[Z.to_nat (i + n) := x]> l)
  else Raise IndexError.

(** [sep.join(l)]: every item has to be a [str]. *)
Fixpoint strings (l : list value) : result (list string) :=
  match l with
  | [] => Ok []
  | VStr s :: r => ss ← strings r; Ok (s :: ss)
  | _ :: _ => Raise TypeError
  end.

Definition vjoin (sep : string) (l : list value) : result string :=
  ss ← strings l; Ok (Str.join sep ss).

(** [v.replace(old, new)]. *)
Definition vreplace (v : value) (old new : string) : result string :=
  match v with
  | VStr s => Ok (Str.replace old new s)
  | _ => Raise AttributeError
  end.

(** [v[:n]]: strings and lists can be sliced. *)
Definition vtake (n : nat) (v : value) : result value :=
  match v with
  | VStr s => Ok (VStr (Str.take n s))
  | VList l => Ok (VList (take n l))
  | _ => Raise TypeError
  end.

End Py.

(** ** The searcher object *)

Record searcher : Type := mk_searcher {
  base_url : string;
  email : option string;
  results : list dict;
  excluded : list dict;
  exclusion_stats : gmap string nat
}.

Definition with_exclusion_stats (m : gmap string nat) (self : searcher) : searcher :=
  {| base_url := base_url self; email := email self; results := results self;
     excluded := excluded self; exclusion_stats := m |}.

Definition with_excluded (l : list dict) (self : searcher) : searcher :=
  {| base_url := base_url self; email := email self; results := results self;
     excluded := l; exclusion_stats := exclusion_stats self |}.

Definition with_results (l : list dict) (self : searcher) : searcher :=
  {| base_url := base_url self; email := email self; results := l;
     excluded := excluded self; exclusion_stats := exclusion_stats self |}.

(** [RestrictedPaperSearcher(email)]. *)
Definition init (email : option string) : searcher :=
  {| base_url := "https://api.openalex.org/works"; email := email;
     results := []; excluded := []; exclusion_stats := ∅ |}.

(** ** Keyword taxonomy (class attributes) *)

Definition NDT_METHODS_CORE : list string :=
  ["ultrasonic pulse velocity"; "upv"; "impact echo"; "impact-echo";
   "phased array ultrasonic"; "paut"; "tofd";
   "ground penetrating radar"; "gpr"; "eddy current testing";
   "magnetic flux leakage"; "half-cell potential";
   "half cell potential"; "resistivity measurement"; "wenner probe";
   "sonreb"; "rebound hammer"; "schmidt hammer"; "pull-out test";
   "pullout test"; "capo test"; "lok test"; "flat-jack"; "flatjack";
   "resistance drilling"; "resistograph"; "magnetic particle testing";
   "dye penetrant"; "visual grading"; "infrared thermography";
   "non-destructive testing"; "nondestructive testing";
   "non-destructive evaluation"; "nondestructive evaluation"].

Definition STRUCTURAL_MATERIALS : list string :=
  ["reinforced concrete"; "rc structure"; "rc beam"; "rc column";
   "concrete bridge"; "concrete building"; "concrete structure";
   "prestressed concrete"; "post-tensioned concrete";
   "structural steel"; "steel structure"; "steel bridge"; "steel beam";
   "steel column"; "steel connection"; "timber structure";
   "timber beam"; "timber building"; "glulam"; "laminated timber";
   "wood structure"; "masonry structure"; "masonry wall";
   "masonry building"; "brick masonry"; "stone masonry";
   "historic masonry"; "heritage building"; "unreinforced masonry"].

Definition TASK_GEOMETRY : list string :=
  ["geometry verification"; "geometric verification";
   "dimension measurement"; "cross-section measurement";
   "reinforcement layout"; "reinforcement mapping"; "rebar detection";
   "cover depth"; "concrete cover"; "section geometry";
   "connection detail"; "structural geometry"; "thickness measurement";
   "section loss measurement"].

Definition TASK_STRENGTH : list string :=
  ["strength estimation"; "strength assessment"; "strength evaluation";
   "compressive strength"; "tensile strength"; "flexural strength";
   "characteristic strength"; "characteristic value"; "design value";
   "material strength"; "load capacity"; "residual strength";
   "in-situ strength"; "strength prediction"; "strength determination"].

Definition TASK_DETERIORATION : list string :=
  ["deterioration assessment"; "deterioration evaluation";
   "corrosion detection"; "corrosion assessment"; "corrosion rate";
   "decay assessment"; "decay detection"; "wood decay";
   "chemical attack"; "sulfate attack"; "alkali-silica reaction";
   "residual capacity"; "degradation assessment"; "carbonation depth";
   "chloride penetration"; "chloride ingress"; "service life";
   "durability assessment"].

Definition TASK_DEFECTS : list string :=
  ["defect identification"; "defect detection"; "flaw detection";
   "crack detection"; "crack mapping"; "crack characterization";
   "void detection"; "void identification"; "honeycombing";
   "delamination detection"; "delamination assessment"; "hidden damage";
   "internal damage"; "damage detection"; "fire damage";
   "impact damage"; "structural damage"].

Definition TASK_MOISTURE : list string :=
  ["moisture content"; "moisture measurement"; "moisture assessment";
   "moisture condition"; "moisture distribution"; "moisture meter";
   "resistance meter"; "moisture-related"; "moisture damage";
   "water ingress"; "drying"; "wetting"; "hygroscopic"].

Definition ALL_ASSESSMENT_TASKS : list string :=
  TASK_GEOMETRY ++ TASK_STRENGTH ++ TASK_DETERIORATION ++ TASK_DEFECTS
  ++ TASK_MOISTURE.

Definition CIRCULAR_STRICT : list string :=
  ["circular construction"; "circular economy building";
   "structural reuse"; "component reuse"; "element reuse";
   "building reuse"; "material reuse"; "deconstruction";
   "selective demolition"; "design for disassembly"; "reuse assessment";
   "reusability assessment"].

Definition EXCLUSION_STRICT : list string :=
  ["cancer"; "tumor"; "tumour"; "patient"; "clinical trial";
   "biomedical"; "medical imaging"; "cell culture"; "pharmaceutical";
   "surgery"; "hospital"; "diagnosis patient"; "therapy";
   "food quality"; "fruit quality"; "vegetable"; "meat quality";
   "agricultural"; "crop"; "grain"; "fish quality"; "poultry";
   "aerospace"; "aircraft"; "wind turbine blade"; "wind energy";
   "additive manufacturing"; "semiconductor"; "electronics"; "battery";
   "lithium"; "nuclear reactor"; "pipeline weld"; "seismic exploration";
   "oil reservoir"; "petroleum"; "mining exploration"; "geological";
   "rock formation"; "automotive"; "vehicle"; "car body";
   "engine component"; "pavement"; "asphalt"; "road surface"; "runway"].

(** ** [is_relevant] *)

(** [any(k.lower() in text for k in kws)]. *)
Definition any_in (kws : list string) (text : string) : bool :=
  existsb (fun k => Str.contains (Str.lower k) text) kws.

(** Lines 174-176: the text the classifier scans. *)
Definition paper_text (paper : dict) : result string :=
  title ← Py.vlower (Py.or_ (Py.get paper "title" VNone) (VStr ""));
  abstract ← Py.vlower (Py.or_ (Py.get paper "abstract" VNone) (VStr ""));
  Ok (title +:+ " " +:+ abstract).

(** Lines 203-213: the task names, in the order they are appended. *)
Definition tasks_found (text : string) : list string :=
  (if any_in TASK_GEOMETRY text then ["geometry"] else [])
  ++ (if any_in TASK_STRENGTH text then ["strength"] else [])
  ++ (if any_in TASK_DETERIORATION text then ["deterioration"] else [])
  ++ (if any_in TASK_DEFECTS text then ["defects"] else [])
  ++ (if any_in TASK_MOISTURE text then ["moisture"] else []).

(** [self.exclusion_stats[k] = self.exclusion_stats.get(k, 0) + 1]. *)
Definition count_exclusion (k : string) (self : searcher) : searcher :=
  with_exclusion_stats
    (<[k := (default 0%nat (exclusion_stats self !! k) + 1)%nat]>
       (exclusion_stats self)) self.

Definition is_relevant (paper : dict) (self : searcher)
  : result ((bool * string) * searcher) :=
  text ← paper_text paper;
  match find (fun exclude => Str.contains (Str.lower exclude) text)
             EXCLUSION_STRICT with
  | Some exclude =>
      Ok ((false, "Excluded: " +:+ exclude), count_exclusion exclude self)
  | None =>
      let has_ndt := any_in NDT_METHODS_CORE text in
      if negb has_ndt then Ok ((false, "No core NDT method"), self) else
      let has_material := any_in STRUCTURAL_MATERIALS text in
      if negb has_material then Ok ((false, "No structural material"), self) else
      let has_task := any_in ALL_ASSESSMENT_TASKS text in
      let has_circular := any_in CIRCULAR_STRICT text in
      if negb (has_task || has_circular)
      then Ok ((false, "No assessment task or circular context"), self) else
      let found := tasks_found text in
      Ok ((true,
           "Tasks: " +:+ match found with
                         | [] => "circular"
                         | _ => Str.join ", " found
                         end), self)
  end.

(** ** [_parse_paper] *)

(** Lines 388-392. *)
Fixpoint collect_authors (authorships : list value) : result (list value) :=
  match authorships with
  | [] => Ok []
  | authorship :: rest =>
      author ← Py.vget authorship "author" (VDict []);
      name ← Py.vget author "display_name" VNone;
      names ← collect_authors rest;
      Ok (if Py.truthy name then name :: names else names)
  end.

(** [max(indices)] for one entry of the inverted index.  A value that is
    not a list of integers ends the [try] block with an exception in
    Python too, at line 401 or 402: comparing an integer with another
    type fails, and a maximum that is not an integer cannot be added
    to 1.  Which exception it is (mostly [TypeError]; [ValueError] for an
    empty string or object) plays no role: line 421 catches them all. *)
Definition max_index (indices : value) : result Z :=
  match indices with
  | VList l => zs ← Py.as_indices l; Py.max_of zs
  | _ => Raise TypeError
  end.

Fixpoint max_indices (entries : list (string * value)) : result (list Z) :=
  match entries with
  | [] => Ok []
  | (_, indices) :: rest =>
      m ← max_index indices; ms ← max_indices rest; Ok (m :: ms)
  end.

(** Lines 404-405: [for idx in indices: words[idx] = word]. *)
Fixpoint place_word (word : string) (indices : list Z) (words : list string)
  : result (list string) :=
  match indices with
  | [] => Ok words
  | idx :: rest =>
      words' ← Py.assign words idx word; place_word word rest words'
  end.

(** Lines 403-405. *)
Fixpoint place_words (entries : list (string * value)) (words : list string)
  : result (list string) :=
  match entries with
  | [] => Ok words
  | (word, indices) :: rest =>
      match indices with
      | VList l =>
          zs ← Py.as_indices l;
          words' ← place_word word zs words;
          place_words rest words'
      | _ => Raise TypeError
      end
  end.

(** Lines 397-406. *)
Definition reconstruct_abstract (paper : dict) : result string :=
  if Py.truthy (Py.get paper "abstract_inverted_index" VNone) then
    match Py.get paper "abstract_inverted_index" VNone with
    | VDict inv_idx =>
        maxes ← max_indices inv_idx;
        max_idx ← Py.max_of maxes;
        let words := replicate (Z.to_nat (max_idx + 1)) "" in
        words' ← place_words inv_idx words;
        Ok (Str.join " " words')
    | _ => Raise AttributeError
    end
  else Ok "".

(** The body of the [try] block, lines 388-420. *)
Definition parse_body (raw : value) : result dict :=
  match raw with
  | VDict paper =>
      authorships ← Py.iter (Py.get paper "authorships" (VList []));
      authors ← collect_authors authorships;
      let source :=
        Py.or_ (Py.get paper "primary_location" (VDict [])) (VDict []) in
      src ← Py.vget source "source" (VDict []);
      let source_info := Py.or_ src (VDict []) in
      abstract ← reconstruct_abstract paper;
      authors_str ← Py.vjoin "; " (take 5 authors);
      doi ← (if Py.truthy (Py.get paper "doi" VNone)
             then Py.vreplace (Py.get paper "doi" (VStr "")) "https://doi.org/" ""
             else Ok "");
      journal ← Py.vget source_info "display_name" (VStr "");
      is_oa ← Py.vget (Py.get paper "open_access" (VDict [])) "is_oa" (VBool false);
      Ok [("title", Py.get paper "title" (VStr ""));
          ("authors", VStr authors_str);
          ("year", Py.get paper "publication_year" VNone);
          ("doi", VStr doi);
          ("journal", journal);
          ("abstract", VStr abstract);
          ("cited_by_count", Py.get paper "cited_by_count" (VInt 0));
          ("type", Py.get paper "type" (VStr ""));
          ("open_access", is_oa);
          ("url", Py.or_ (Py.get paper "doi" VNone) (Py.get paper "id" (VStr "")));
          ("openalex_id", Py.get paper "id" (VStr ""))]
  | _ => Raise AttributeError
  end.

(** [except Exception: return None]. *)
Definition _parse_paper (raw : value) : option dict :=
  match parse_body raw with
  | Ok paper_data => Some paper_data
  | Raise _ => None
  end.

(** ** [search] *)

(** The double-quote character, and a quoted phrase of a query. *)
Definition dquote : ascii := ascii_of_nat 34.
Definition q (phrase : string) : string :=
  String dquote phrase +:+ String dquote "".

(** Lines 240-312. *)
Definition search_terms : list string :=
  [q "reinforcement mapping" +:+ " " +:+ q "ground penetrating radar";
   q "cover depth" +:+ " concrete " +:+ q "non-destructive";
   q "rebar detection" +:+ " ultrasonic";
   q "geometry verification" +:+ " structure";
   q "GPR" +:+ " " +:+ q "reinforced concrete";
   q "reinforcement detection" +:+ " concrete";
   q "section geometry" +:+ " " +:+ q "non-destructive";
   q "cover depth measurement" +:+ " concrete";
   q "strength estimation" +:+ " concrete";
   q "rebound hammer" +:+ " concrete strength";
   q "compressive strength" +:+ " " +:+ q "non-destructive" +:+ " concrete";
   q "sonreb" +:+ " concrete";
   q "pull-out test" +:+ " concrete";
   q "in-situ strength" +:+ " concrete";
   q "ultrasonic pulse velocity" +:+ " strength concrete";
   q "characteristic value" +:+ " strength concrete";
   q "schmidt hammer" +:+ " concrete";
   q "corrosion detection" +:+ " " +:+ q "reinforced concrete";
   q "half-cell potential" +:+ " corrosion";
   q "carbonation depth" +:+ " concrete";
   q "chloride penetration" +:+ " concrete";
   q "corrosion assessment" +:+ " concrete";
   q "decay assessment" +:+ " timber";
   q "resistance drilling" +:+ " timber";
   q "degradation assessment" +:+ " concrete";
   q "corrosion rate" +:+ " reinforcement";
   q "service life" +:+ " concrete NDT";
   q "durability assessment" +:+ " concrete";
   q "crack detection" +:+ " concrete";
   q "delamination detection" +:+ " concrete";
   q "impact echo" +:+ " concrete";
   q "void detection" +:+ " concrete";
   q "defect detection" +:+ " concrete";
   q "flaw detection" +:+ " steel";
   q "ultrasonic testing" +:+ " concrete defect";
   q "internal damage" +:+ " concrete";
   q "hidden damage" +:+ " structure";
   q "damage detection" +:+ " " +:+ q "non-destructive";
   q "moisture content" +:+ " timber";
   q "moisture measurement" +:+ " building";
   q "infrared thermography" +:+ " moisture";
   q "moisture assessment" +:+ " concrete";
   q "water ingress" +:+ " building";
   q "moisture meter" +:+ " timber";
   q "moisture distribution" +:+ " concrete";
   q "non-destructive testing" +:+ " " +:+ q "reinforced concrete";
   q "non-destructive testing" +:+ " " +:+ q "structural steel";
   q "non-destructive evaluation" +:+ " concrete bridge";
   q "ultrasonic pulse velocity" +:+ " concrete structure";
   q "ground penetrating radar" +:+ " concrete structure";
   q "infrared thermography" +:+ " concrete building";
   q "masonry structure" +:+ " " +:+ q "non-destructive";
   q "timber structure" +:+ " " +:+ q "non-destructive";
   q "historic masonry" +:+ " assessment";
   q "heritage building" +:+ " " +:+ q "non-destructive";
   q "flat-jack" +:+ " masonry";
   q "resistograph" +:+ " timber";
   q "structural reuse" +:+ " assessment";
   q "circular construction" +:+ " building";
   q "existing building" +:+ " assessment NDT";
   q "condition assessment" +:+ " existing structure";
   q "reuse assessment" +:+ " building";
   q "building reuse" +:+ " " +:+ q "non-destructive"].

(** What one [requests.get] ... [response.json()] round trip yields:
    the decoded body, or a [requests.RequestException] (transport
    failure, HTTP error status, undecodable body). *)
Inductive response : Type :=
| RequestException
| Json (data : value).

(** A key of the local dict [all_results]: what Python hashes a source
    identifier to.  [True] and [1] are the same key, as are [False] and
    [0]; lists and dicts are unhashable. *)
Inductive key : Type :=
| KNone
| KInt (z : Z)
| KStr (s : string).

#[global] Instance key_eq_dec : EqDecision key.
Proof. solve_decision. Defined.

Definition hash_key (v : value) : result key :=
  match v with
  | VNone => Ok KNone
  | VBool b => Ok (KInt (if b then 1 else 0))
  | VInt z => Ok (KInt z)
  | VStr s => Ok (KStr s)
  | VList _ | VDict _ => Raise TypeError
  end.

(** The local dict [all_results], in insertion order. *)
Definition accepted : Type := list (key * dict).

Fixpoint accepted_lookup (k : key) (m : accepted) : option dict :=
  match m with
  | [] => None
  | (k', d) :: r => if decide (k = k') then Some d else accepted_lookup k r
  end.

(** [all_results[k] = d]. *)
Fixpoint accepted_set (k : key) (d : dict) (m : accepted) : accepted :=
  match m with
  | [] => [(k, d)]
  | (k', d') :: r =>
      if decide (k = k') then (k', d) :: r else (k', d') :: accepted_set k d r
  end.

(** The state [search] works on: its local [all_results], the searcher
    it mutates, and the number of requests sent so far. *)
Record run : Type := mk_run {
  all_results : accepted;
  me : searcher;
  requests : nat
}.

(** The state [search] starts from: line 314. *)
Definition start (self : searcher) : run :=
  {| all_results := []; me := self; requests := 0 |}.

Definition with_me (self : searcher) (st : run) : run :=
  {| all_results := all_results st; me := self; requests := requests st |}.

Definition with_all_results (m : accepted) (st : run) : run :=
  {| all_results := m; me := me st; requests := requests st |}.

Definition sent (st : run) : run :=
  {| all_results := all_results st; me := me st; requests := S (requests st) |}.

(** Lines 342-360: the body of [for paper in results].  The classifier
    is the method the object provides; [search] runs the loop with
    [is_relevant]. *)
Definition process_record_with
    (classify : dict -> searcher -> result ((bool * string) * searcher))
    (paper : value) (st : run) : result run :=
  paper_id ← Py.vget paper "id" (VStr "");
  k ← hash_key paper_id;
  match accepted_lookup k (all_results st) with
  | Some _ => Ok st
  | None =>
      match _parse_paper paper with
      | None => Ok st
      | Some paper_data =>
          '(verdict, self') ← classify paper_data (me st);
          let '(relevant, reason) := verdict in
          if relevant : bool then
            let paper_data' := Py.set "assessment_tasks" (VStr reason) paper_data in
            Ok (with_all_results (accepted_set k paper_data' (all_results st))
                                 (with_me self' st))
          else
            title ← Py.vtake 60 (Py.get paper_data "title" (VStr ""));
            Ok (with_me
                  (with_excluded
                     (excluded self' ++ [[("title", title); ("reason", VStr reason)]])
                     self') st)
      end
  end.

Definition process_record : value -> run -> result run :=
  process_record_with is_relevant.

Fixpoint process_records (papers : list value) (st : run) : result run :=
  match papers with
  | [] => Ok st
  | paper :: rest => st' ← process_record paper st; process_records rest st'
  end.

Section Search.

(** The works API: the answer to the [n]-th request of a run, given
    the query parameters sent with it. *)
Variable api : nat -> dict -> response.

(** Lines 331-371: [while pages < max_pages_per_term], with [left]
    the number of pages still allowed. *)
Fixpoint fetch_pages (left : nat) (params : dict) (st : run) : result run :=
  match left with
  | O => Ok st
  | S left' =>
      match api (requests st) params with
      | RequestException => Ok (sent st)
      | Json data =>
          let st := sent st in
          results ← Py.vget data "results" (VList []);
          if negb (Py.truthy results) then Ok st else
          papers ← Py.iter results;
          st' ← process_records papers st;
          meta ← Py.vget data "meta" (VDict []);
          next_cursor ← Py.vget meta "next_cursor" VNone;
          if negb (Py.truthy next_cursor) then Ok st' else
          fetch_pages left' (Py.set "cursor" next_cursor params) st'
      end
  end.

(** Lines 319-326. *)
Definition query_params (self : searcher) (term : string) (start_year end_year : Z)
  : dict :=
  let params :=
    [("search", VStr term);
     ("filter", VStr ("publication_year:" +:+ pretty start_year +:+ "-"
                      +:+ pretty end_year +:+ ",type:article"));
     ("per-page", VInt 100);
     ("cursor", VStr "*")] in
  match email self with
  | Some e => if String.eqb e "" then params
              else Py.set "mailto" (VStr e) params
  | None => params
  end.

(** Lines 316-373: [for term in search_terms]. *)
Fixpoint search_loop (terms : list string) (start_year end_year : Z)
    (max_pages_per_term : Z) (st : run) : result run :=
  match terms with
  | [] => Ok st
  | term :: rest =>
      st' ← fetch_pages (Z.to_nat max_pages_per_term)
                        (query_params (me st) term start_year end_year) st;
      search_loop rest start_year end_year max_pages_per_term st'
  end.

(** Lines 314-373. *)
Definition search_run (self : searcher) (start_year end_year : Z)
    (max_pages_per_term : Z) : result run :=
  search_loop search_terms start_year end_year max_pages_per_term (start self).

(** [search]: the list returned, and the searcher afterwards. *)
Definition search (self : searcher) (start_year end_year : Z)
    (max_pages_per_term : Z) : result (list dict * searcher) :=
  st ← search_run self start_year end_year max_pages_per_term;
  let results := map snd (all_results st) in
  Ok (results, with_results results (me st)).

End Search.

(** ** Formatting values: [str] and [repr] *)

Module Fmt.

Definition hex_digit (n : N) : ascii :=
  if (n <? 10)%N then ascii_of_N (48 + n) else ascii_of_N (87 + n).

(** The escape [\xhh]. *)
Definition hex_escape (c : ascii) : string :=
  let n := Str.code c in
  String "\" (String "x" (String (hex_digit (n / 16)) (String (hex_digit (n mod 16)) ""))).

(** One character inside [repr] of a string delimited by [quote]. *)
Definition repr_char (quote c : ascii) : string :=
  let n := Str.code c in
  if Ascii.eqb c quote || Ascii.eqb c "\" then String "\" (String c "")
  else if (n =? 9)%N then "\t"
  else if (n =? 10)%N then "\n"
  else if (n =? 13)%N then "\r"
  else if (n <? 32)%N || (n =? 127)%N then hex_escape c
  else if (n <? 127)%N then String c ""
  else if Str.between 128 160 n || (n =? 173)%N then hex_escape c
  else String c "".

Fixpoint repr_chars (quote : ascii) (s : string) : string :=
  match s with
  | EmptyString => EmptyString
  | String c r => repr_char quote c +:+ repr_chars quote r
  end.

(** [repr(s)]: single quotes, unless [s] has a single quote and no
    double quote. *)
Definition repr_str (s : string) : string :=
  let quote :=
    if Str.contains "'" s && negb (Str.contains (String dquote "") s)
    then dquote else "'"%char in
  String quote (repr_chars quote s) +:+ String quote "".

Fixpoint repr (v : value) : string :=
  match v with
  | VNone => "None"
  | VBool true => "True"
  | VBool false => "False"
  | VInt z => pretty z
  | VStr s => repr_str s
  | VList l => "[" +:+ Str.join ", " (map repr l) +:+ "]"
  | VDict d =>
      "{" +:+ Str.join ", "
                (map (fun kv => repr_str (fst kv) +:+ ": " +:+ repr (snd kv)) d)
      +:+ "}"
  end.

(** [str(v)], which is what an f-string field without format
    specification renders. *)
Definition str (v : value) : string :=
  match v with
  | VStr s => s
  | _ => repr v
  end.

End Fmt.

(** ** [export_to_bibtex] *)

Definition newline : string := String (ascii_of_nat 10) "".

(** [d[k]]. *)
Definition item (d : dict) (k : string) : result value :=
  match Py.lookup k d with
  | Some v => Ok v
  | None => Raise KeyError
  end.

(** Line 438. *)
Definition first_author (authors : value) : result string :=
  if Py.truthy authors then
    match authors with
    | VStr a =>
        match last (Str.split_ws (List.hd "" (Str.split_on ";" a))) with
        | Some surname => Ok surname
        | None => Raise IndexError
        end
    | _ => Raise AttributeError
    end
  else Ok "Unknown".

(** Lines 439-440. *)
Definition cite_key (first_author : string) (year : value) (i : nat) : string :=
  Str.filter (fun c => Str.isalnum c || Ascii.eqb c "_")
             (first_author +:+ Fmt.str year +:+ "_" +:+ pretty i).

(** Line 441. *)
Definition escape_title (title : value) : result string :=
  t ← Py.vreplace title "{" "\{"; Ok (Str.replace "}" "\}" t).

(** Lines 438-448: the entry of the paper at index [i]. *)
Definition bibtex_entry (i : nat) (paper : dict) : result string :=
  authors ← item paper "authors";
  surname ← first_author authors;
  year ← item paper "year";
  let key := cite_key surname year i in
  raw_title ← item paper "title";
  title ← escape_title raw_title;
  journal ← item paper "journal";
  doi ← item paper "doi";
  Ok ("@article{" +:+ key +:+ "," +:+ newline
      +:+ "  title = {" +:+ title +:+ "}," +:+ newline
      +:+ "  author = {" +:+ Fmt.str authors +:+ "}," +:+ newline
      +:+ "  year = {" +:+ Fmt.str year +:+ "}," +:+ newline
      +:+ "  journal = {" +:+ Fmt.str journal +:+ "}," +:+ newline
      +:+ "  doi = {" +:+ Fmt.str doi +:+ "}," +:+ newline
      +:+ "}").

(** [for i, paper in enumerate(papers)], counting from [i]. *)
Fixpoint bibtex_entries (i : nat) (papers : list dict) : result (list string) :=
  match papers with
  | [] => Ok []
  | paper :: rest =>
      entry ← bibtex_entry i paper;
      entries ← bibtex_entries (S i) rest;
      Ok (entry :: entries)
  end.

(** [export_to_bibtex]: the value returned and, when a file is written,
    its content. *)
Definition export_to_bibtex (self : searcher) (filename : string)
  : result (string * option string) :=
  match results self with
  | [] => Ok ("", None)
  | _ =>
      entries ← bibtex_entries 0 (results self);
      Ok (filename, Some (Str.join (newline +:+ newline) entries))
  end.

(** ** [generate_prisma_stats]: the record counts *)

Record prisma_counts : Type := mk_prisma_counts {
  target_records : nat;
  records_identified : nat;
  records_after_filtering : nat;
  excluded_count : nat
}.

(** Lines 491-494 of the statistics dict. *)
Definition generate_prisma_stats (self : searcher) : prisma_counts :=
  {| target_records := 612;
     records_identified := length (results self) + length (excluded self);
     records_after_filtering := length (results self);
     excluded_count := length (excluded self) |}.

(** * Vocabulary of the properties *)

(** [k] occurs in [text]. *)
Definition substring (k text : string) : Prop :=
  exists a b, text = a +:+ k +:+ b.

(** Some keyword of [kws] occurs in [text]. *)
Definition mentions (kws : list string) (text : string) : Prop :=
  exists k, In k kws /\ substring k text.

(** The keyword lists are written in lower case, so the [k.lower()] of
    the membership tests changes nothing. *)
Definition lowercase (kws : list string) : Prop :=
  Forall (fun k => Str.lower k = k) kws.

(** The five task names with their keyword sets, as lines 204-213 pair
    them. *)
Definition task_sets : list (string * list string) :=
  [("geometry", TASK_GEOMETRY); ("strength", TASK_STRENGTH);
   ("deterioration", TASK_DETERIORATION); ("defects", TASK_DEFECTS);
   ("moisture", TASK_MOISTURE)].

(** The reason of an accepted paper, from the task names found
    (line 215). *)
Definition tasks_reason (found : list string) : string :=
  "Tasks: " +:+ match found with
                | [] => "circular"
                | _ => Str.join ", " found
                end.

(** The names appended by lines 204-213, from the outcome of the five
    tests. *)
Definition names_found (geometry strength deterioration defects moisture : bool)
  : list string :=
  (if geometry then ["geometry"] else [])
  ++ (if strength then ["strength"] else [])
  ++ (if deterioration then ["deterioration"] else [])
  ++ (if defects then ["defects"] else [])
  ++ (if moisture then ["moisture"] else []).

Definition radar_paper : dict :=
  [("title", VStr "Ground penetrating radar for rebar detection in reinforced concrete");
   ("abstract", VStr "The compressive strength is estimated as well.")].

(** An inverted index: each word with the token positions it is listed
    at, in the order of the JSON object. *)
Definition inverted_index : Type := list (string * list nat).

(** The JSON value of an inverted index. *)
Definition index_value (inv : inverted_index) : value :=
  VDict (map (fun e => (fst e, VList (map (fun p => VInt (Z.of_nat p)) (snd e)))) inv).

(** Entry [e] lists position [p]. *)
Definition lists_position (p : nat) (e : string * list nat) : bool :=
  existsb (Nat.eqb p) (snd e).

(** The word the index gives position [p]: the word listed there (the
    last such entry, should several list it) or the empty string. *)
Definition word_at (inv : inverted_index) (p : nat) : string :=
  match find (lists_position p) (rev inv) with
  | Some e => fst e
  | None => ""
  end.

(** The words after the assignments of lines 403-405. *)
Definition place_entry (words : list string) (e : string * list nat) : list string :=
  fold_left (fun ws p => <[p := fst e]> ws) (snd e) words.

Definition placed (inv : inverted_index) (words : list string) : list string :=
  fold_left place_entry inv words.

(** Every entry lists a position. *)
Definition well_formed_index (inv : inverted_index) : Prop :=
  inv <> [] /\ Forall (fun e => snd e <> []) inv.

(** [m] is the largest position the index lists. *)
Definition largest_position (inv : inverted_index) (m : nat) : Prop :=
  (exists e, In e inv /\ In m (snd e))
  /\ (forall e p, In e inv -> In p (snd e) -> (p <= m)%nat).

Definition ultrasonic_index : inverted_index :=
  [("ultrasonic", [0; 3]%nat); ("testing", [1]%nat)].

Definition ultrasonic_record : value :=
  VDict [("id", VStr "W1"); ("abstract_inverted_index", index_value ultrasonic_index)].

Definition overlapping_index : inverted_index :=
  [("pulse", [0; 2]%nat); ("echo", [2]%nat)].

(** Records that make the parser fail. *)
Definition null_authorships_record : dict :=
  [("id", VStr "W7"); ("title", VStr "Rebound hammer"); ("authorships", VNone)].

Definition unhashable_id_record : dict :=
  [("id", VList [VStr "W8"]); ("authorships", VNone)].

(** An API whose first answer is a page holding the single record
    [paper], without continuation, and whose other answers are empty. *)
Definition api_once (paper : value) (n : nat) (params : dict) : response :=
  match n with
  | O => Json (VDict [("results", VList [paper])])
  | S _ => Json (VDict [("results", VList [])])
  end.

(** Entries accepted so far are still there, unchanged. *)
Definition keeps (st st' : run) : Prop :=
  forall k d,
    accepted_lookup k (all_results st) = Some d ->
    accepted_lookup k (all_results st') = Some d.

(** An entry of the accepted map is a parsed paper the classifier
    accepted, filed under its source identifier, with the classifier's
    reason attached as its assessment tasks. *)
Definition stamped (entry : key * dict) : Prop :=
  exists paper_data reason self,
    is_relevant paper_data self = Ok ((true, reason), self)
    /\ snd entry = Py.set "assessment_tasks" (VStr reason) paper_data
    /\ Py.lookup "assessment_tasks" (snd entry) = Some (VStr reason)
    /\ hash_key (Py.get (snd entry) "openalex_id" (VStr "")) = Ok (fst entry).

(** The accepted map holds each source identifier once, and only
    stamped entries. *)
Definition sound (st : run) : Prop :=
  NoDup (map fst (all_results st)) /\ Forall stamped (all_results st).

(** A step of the search: it keeps the accepted entries and the
    soundness of the map. *)
Definition grows (st st' : run) : Prop :=
  keeps st st' /\ (sound st -> sound st').

(** The three ways the loop body ends without raising: the record is
    skipped, accepted, or logged as excluded. *)
Inductive outcome (paper : value) (st st' : run) : Prop :=
| Skipped :
    st' = st -> outcome paper st st'
| Accepted (raw paper_data : dict) (k : key) (reason : string) :
    paper = VDict raw ->
    hash_key (Py.get raw "id" (VStr "")) = Ok k ->
    accepted_lookup k (all_results st) = None ->
    _parse_paper paper = Some paper_data ->
    is_relevant paper_data (me st) = Ok ((true, reason), me st) ->
    all_results st'
    = all_results st ++ [(k, Py.set "assessment_tasks" (VStr reason) paper_data)] ->
    me st' = me st ->
    requests st' = requests st ->
    outcome paper st st'
| Rejected (raw paper_data : dict) (k : key) (reason : string)
           (self' : searcher) (title : value) :
    paper = VDict raw ->
    hash_key (Py.get raw "id" (VStr "")) = Ok k ->
    accepted_lookup k (all_results st) = None ->
    _parse_paper paper = Some paper_data ->
    is_relevant paper_data (me st) = Ok ((false, reason), self') ->
    Py.vtake 60 (Py.get paper_data "title" (VStr "")) = Ok title ->
    all_results st' = all_results st ->
    me st'
    = with_excluded (excluded self' ++ [[("title", title); ("reason", VStr reason)]])
                    self' ->
    requests st' = requests st ->
    outcome paper st st'.

(** Two records with the same source identifier: the classifier labels
    the first with geometry and the second with strength. *)
Definition geometry_record : value :=
  VDict [("id", VStr "https://openalex.org/W1");
         ("title", VStr "Ground penetrating radar for rebar detection in reinforced concrete")].

Definition strength_record : value :=
  VDict [("id", VStr "https://openalex.org/W1");
         ("title", VStr "Rebound hammer and compressive strength of reinforced concrete")].

(** A record the classifier rejects. *)
Definition aircraft_record : value :=
  VDict [("id", VStr "https://openalex.org/W2");
         ("title", VStr "Ultrasonic testing of aircraft composite panels")].

(** An API that answers the first query term with [first], the second
    with [second], each time without continuation, and every later
    request with an empty page. *)
Definition api_twice (first second : value) (n : nat) (params : dict) : response :=
  match n with
  | 0%nat => Json (VDict [("results", VList [first])])
  | 1%nat => Json (VDict [("results", VList [second])])
  | _ => Json (VDict [("results", VList [])])
  end.

(** The source identifier an accepted paper carries, as a key. *)
Definition source_key (paper_data : dict) : result key :=
  hash_key (Py.get paper_data "openalex_id" (VStr "")).

(** A character a citation key keeps. *)
Definition kept (c : ascii) : bool := Str.isalnum c || Ascii.eqb c "_".

(** The citation key as the specification words it: surname and year
    with every non-alphanumeric character stripped, then the underscore
    and the index. *)
Definition cite_key_as_specified (surname : string) (year : value) (i : nat) : string :=
  Str.filter Str.isalnum (surname +:+ Fmt.str year) +:+ "_" +:+ pretty i.

(** A title with each brace escaped by a backslash. *)
Fixpoint escape_braces (s : string) : string :=
  match s with
  | EmptyString => EmptyString
  | String c r =>
      if Ascii.eqb c "{" then String "\" (String "{" (escape_braces r))
      else if Ascii.eqb c "}" then String "\" (String "}" (escape_braces r))
      else String c (escape_braces r)
  end.

(** The surname of the first author: the last white-space separated
    token of what precedes the first semicolon, or Unknown for an empty
    author string. *)
Definition surname_of (authors : string) : option string :=
  if String.eqb authors "" then Some "Unknown"
  else last (Str.split_ws (List.hd "" (Str.split_on ";" authors))).

(** [first] is the part of [s] before its first [sep]. *)
Definition first_field (sep : ascii) (s first : string) : Prop :=
  ~ In sep (list_ascii_of_string first)
  /\ (s = first \/ exists rest, s = first +:+ String sep rest).

(** [token] is the last run of non-space characters of [s]. *)
Definition last_token (s token : string) : Prop :=
  token <> ""
  /\ Forall (fun c => Str.isspace c = false) (list_ascii_of_string token)
  /\ exists before after,
      s = before +:+ token +:+ after
      /\ Forall (fun c => Str.isspace c = true) (list_ascii_of_string after)
      /\ (before = ""
          \/ exists b c, before = b +:+ String c "" /\ Str.isspace c = true).

(** The text of an entry, from its key and its rendered fields. *)
Definition entry_text (key title authors year journal doi : string) : string :=
  "@article{" +:+ key +:+ "," +:+ newline
  +:+ "  title = {" +:+ title +:+ "}," +:+ newline
  +:+ "  author = {" +:+ authors +:+ "}," +:+ newline
  +:+ "  year = {" +:+ year +:+ "}," +:+ newline
  +:+ "  journal = {" +:+ journal +:+ "}," +:+ newline
  +:+ "  doi = {" +:+ doi +:+ "}," +:+ newline
  +:+ "}".

(** A record whose first author has an underscore in the surname, and
    braces in the title; and the paper [search] accepts for it. *)
Definition underscore_record : value :=
  VDict [("id", VStr "https://openalex.org/W3");
         ("title", VStr "Impact echo crack detection in {RC} concrete bridge beams");
         ("publication_year", VInt 2020);
         ("authorships",
          VList [VDict [("author", VDict [("display_name", VStr "Jo O_Neil")])];
                 VDict [("author", VDict [("display_name", VStr "Al Bo")])]])].

Definition underscore_paper : dict :=
  [("title", VStr "Impact echo crack detection in {RC} concrete bridge beams");
   ("authors", VStr "Jo O_Neil; Al Bo"); ("year", VInt 2020); ("doi", VStr "");
   ("journal", VStr ""); ("abstract", VStr ""); ("cited_by_count", VInt 0);
   ("type", VStr ""); ("open_access", VBool false);
   ("url", VStr "https://openalex.org/W3");
   ("openalex_id", VStr "https://openalex.org/W3");
   ("assessment_tasks", VStr "Tasks: defects")].

(** A field of a paper that is absent or null. *)
Definition missing (field : string) (paper : dict) : Prop :=
  Py.lookup field paper = None \/ Py.lookup field paper = Some VNone.

(** Papers used as examples. *)
Definition corrosion_title : string :=
  "Ultrasonic pulse velocity testing of reinforced concrete for corrosion assessment".

Definition corrosion_paper : dict :=
  [("title", VStr corrosion_title); ("abstract", VStr "")].

Definition corrosion_paper_split : dict :=
  [("title", VStr "Ultrasonic pulse velocity testing");
   ("abstract", VStr "of reinforced concrete for corrosion assessment")].

Definition aircraft_paper : dict :=
  [("title", VStr "Ultrasonic testing of aircraft composite panels");
   ("abstract", VStr "")].

Definition pavement_paper : dict :=
  [("title", VStr "Strength estimation of reinforced concrete pavement");
   ("abstract", VStr "")].

Definition beam_paper : dict :=
  [("title", VStr "Strength estimation of reinforced concrete beams");
   ("abstract", VStr "")].

(** * Further vocabulary *)

(** A title or abstract on which [.lower()] fails: present, truthy, and
    not a string. *)
Definition not_text (field : string) (paper : dict) : Prop :=
  exists v, Py.lookup field paper = Some v
            /\ Py.truthy v = true /\ forall s, v <> VStr s.

Definition two_exclusions_paper : dict :=
  [("title", VStr "Ultrasonic imaging of a patient with cancer"); ("abstract", VNone)].

Definition no_material_paper : dict :=
  [("title", VStr "Crack detection by impact echo"); ("abstract", VStr "")].

Definition no_task_paper : dict :=
  [("title", VStr "Impact echo on a concrete bridge"); ("abstract", VStr "")].

Definition numeric_title_paper : dict :=
  [("title", VInt 2024); ("abstract", VStr "Impact echo on a concrete bridge")].

(** An entry of [authorships] and the display name it carries; the
    empty string stands for an author the parser passes over (no
    author, no display name, or a falsy one). *)
Definition authorship_name (entry : value) (name : string) : Prop :=
  exists d a,
    entry = VDict d
    /\ Py.get d "author" (VDict []) = VDict a
    /\ (Py.get a "display_name" VNone = VStr name
        \/ (name = "" /\ Py.truthy (Py.get a "display_name" VNone) = false)).

Definition named (name : string) : bool := negb (String.eqb name "").

(** A value a [for] loop cannot iterate. *)
Definition scalar (v : value) : Prop :=
  v = VNone \/ (exists b, v = VBool b) \/ (exists z, v = VInt z).

(** The prefix line 412 removes from a DOI. *)
Definition doi_prefix : string := "https://doi.org/".

Definition seven_authors_record : dict :=
  [("id", VStr "https://openalex.org/W9");
   ("authorships",
    VList [VDict [("author", VDict [("display_name", VStr "A One")])];
           VDict [("author", VDict [("display_name", VNone)])];
           VDict [("author", VDict [("display_name", VStr "B Two")]); ("position", VStr "middle")];
           VDict [("author", VDict [("id", VStr "A3"); ("display_name", VStr "C Three")])];
           VDict [];
           VDict [("author", VDict [("display_name", VStr "D Four")])];
           VDict [("author", VDict [("display_name", VStr "E Five")])];
           VDict [("author", VDict [("display_name", VStr "F Six")])]])].

Definition doi_record : dict :=
  [("id", VStr "https://openalex.org/W10");
   ("doi", VStr "https://doi.org/10.1000/ndt.2020.1")].

Definition null_open_access_record : dict :=
  [("id", VStr "https://openalex.org/W11"); ("title", VStr "Rebound hammer");
   ("open_access", VNone)].

Definition empty_positions_record : dict :=
  [("id", VStr "https://openalex.org/W12");
   ("abstract_inverted_index",
    index_value [("impact", [0]%nat); ("echo", []); ("testing", [1]%nat)])].

Definition journal_record : dict :=
  [("id", VStr "https://openalex.org/W13");
   ("primary_location",
    VDict [("is_oa", VBool true);
           ("source", VDict [("id", VStr "S1"); ("display_name", VStr "NDT and E International")])])].

(** An API that never answers. *)
Definition api_down (n : nat) (params : dict) : response := RequestException.

(** A record with a null title and nothing the classifier looks for. *)
Definition null_title_record : dict :=
  [("id", VStr "https://openalex.org/W14"); ("title", VNone)].

(** What [search] appends to the exclusion log: a title cut to sixty
    characters (or the empty list a falsy title may be) and a reason. *)
Definition log_entry (entry : dict) : Prop :=
  exists title reason,
    entry = [("title", title); ("reason", VStr reason)]
    /\ (title = VList []
        \/ exists s, title = VStr s /\ (String.length s <= 60)%nat).



(** A step of the search only appends: to the accepted map, to the
    exclusion log; it never lowers a counter and keeps the e-mail and
    the URL. *)
Definition appends (st st' : run) : Prop :=
  (exists more, all_results st' = all_results st ++ more)
  /\ (exists more, excluded (me st') = excluded (me st) ++ more
                   /\ Forall log_entry more)
  /\ (forall term,
         (default 0 (exclusion_stats (me st) !! term)
          <= default 0 (exclusion_stats (me st') !! term))%nat)
  /\ email (me st') = email (me st) /\ base_url (me st') = base_url (me st)
  /\ results (me st') = results (me st).


(** The fields [export_to_bibtex] reads are there: authors and doi as
    strings, the title as a string or a falsy value. *)
Definition export_fields (paper : dict) : Prop :=
  (exists authors, Py.lookup "authors" paper = Some (VStr authors))
  /\ (exists doi, Py.lookup "doi" paper = Some (VStr doi))
  /\ (exists year, Py.lookup "year" paper = Some year)
  /\ (exists journal, Py.lookup "journal" paper = Some journal)
  /\ (exists title,
         Py.lookup "title" paper = Some title
         /\ (Py.truthy title = false \/ exists s, title = VStr s)).

(** A paper lines 438 and 441 can handle: the title is a string and the
    first author has a surname. *)
Definition printable (paper : dict) : Prop :=
  exists authors title surname,
    Py.lookup "authors" paper = Some (VStr authors)
    /\ Py.lookup "title" paper = Some (VStr title)
    /\ surname_of authors = Some surname.

(** A step of the search stores only papers with the export fields. *)
Definition keeps_export_fields (st st' : run) : Prop :=
  Forall (fun entry => export_fields (snd entry)) (all_results st) ->
  Forall (fun entry => export_fields (snd entry)) (all_results st').

Definition is_digit (c : ascii) : bool := Str.between 48 57 (Str.code c).

(** * [generate_prisma_stats]: the breakdowns *)

(** [counts[name] += 1] on the dict of lines 458-464. *)
Definition bump (name : string) (counts : list (string * nat)) : list (string * nat) :=
  map (fun e => if String.eqb (fst e) name then (fst e, S (snd e)) else e) counts.

(** Lines 468-477: the five tests on the assessment tasks of a paper. *)
Definition count_paper_tasks (tasks : string) (counts : list (string * nat))
  : list (string * nat) :=
  let counts := if Str.contains "geometry" tasks then bump "geometry" counts else counts in
  let counts := if Str.contains "strength" tasks then bump "strength" counts else counts in
  let counts :=
    if Str.contains "deterioration" tasks then bump "deterioration" counts else counts in
  let counts := if Str.contains "defects" tasks then bump "defects" counts else counts in
  if Str.contains "moisture" tasks then bump "moisture" counts else counts.

(** Lines 466-477. *)
Fixpoint count_tasks (papers : list dict) (counts : list (string * nat))
  : result (list (string * nat)) :=
  match papers with
  | [] => Ok counts
  | paper :: rest =>
      tasks ← Py.vlower (Py.get paper "assessment_tasks" (VStr ""));
      count_tasks rest (count_paper_tasks tasks counts)
  end.

(** Lines 458-477: the entry by_assessment_task of the statistics. *)
Definition by_assessment_task (self : searcher) : result (list (string * nat)) :=
  count_tasks (results self)
    [("geometry", 0%nat); ("strength", 0%nat); ("deterioration", 0%nat);
     ("defects", 0%nat); ("moisture", 0%nat)].

(** A dict of counts, in insertion order. *)
Definition tally : Type := list (key * nat).

Fixpoint tally_lookup (k : key) (m : tally) : option nat :=
  match m with
  | [] => None
  | (k', n) :: r => if decide (k = k') then Some n else tally_lookup k r
  end.

(** [m[k] = m.get(k, 0) + 1]. *)
Fixpoint tally_add (k : key) (m : tally) : tally :=
  match m with
  | [] => [(k, 1%nat)]
  | (k', n) :: r => if decide (k = k') then (k', S n) :: r else (k', n) :: tally_add k r
  end.

(** Lines 502-505 and 517-520: the papers are counted under the value
    of [field], when it is truthy; [dflt] stands for an absent field.
    A truthy value that cannot be hashed raises TypeError. *)
Fixpoint count_by (field : string) (dflt : value) (papers : list dict) (m : tally)
  : result tally :=
  match papers with
  | [] => Ok m
  | paper :: rest =>
      let v := Py.get paper field dflt in
      if Py.truthy v then
        k ← hash_key v; count_by field dflt rest (tally_add k m)
      else count_by field dflt rest m
  end.

(** The entry by_year.  The material tests of lines 507-515, which
    share its loop, raise nothing and do not touch it. *)
Definition by_year (self : searcher) : result tally :=
  count_by "year" VNone (results self) [].

(** [sorted(items, key=lambda x: x[1], reverse=True)]: by count,
    largest first, entries of equal count in their original order. *)
Fixpoint insert_by_count (x : key * nat) (sorted : tally) : tally :=
  match sorted with
  | [] => [x]
  | y :: r =>
      if (snd x <? snd y)%nat then y :: insert_by_count x r else x :: y :: r
  end.

Fixpoint sorted_by_count (m : tally) : tally :=
  match m with
  | [] => []
  | x :: r => insert_by_count x (sorted_by_count r)
  end.

(** Lines 517-523: the entry by_journal, cut to the 15 most frequent. *)
Definition by_journal (self : searcher) : result tally :=
  m ← count_by "journal" (VStr "Unknown") (results self) [];
  Ok (take 15 (sorted_by_count m)).

(** Line 507: the text the material tests scan. *)
Definition material_text (paper : dict) : string :=
  Str.lower (Fmt.str (Py.get paper "title" (VStr "")) +:+ " "
             +:+ Fmt.str (Py.get paper "abstract" (VStr ""))).

(** Lines 508-515 on the dict of line 498. *)
Definition count_paper_materials (text : string) (counts : list (string * nat))
  : list (string * nat) :=
  let counts := if Str.contains "concrete" text then bump "concrete" counts else counts in
  let counts := if Str.contains "steel" text then bump "steel" counts else counts in
  let counts :=
    if Str.contains "timber" text || Str.contains "wood" text
    then bump "timber" counts else counts in
  if Str.contains "masonry" text then bump "masonry" counts else counts.

Fixpoint count_materials (papers : list dict) (counts : list (string * nat))
  : list (string * nat) :=
  match papers with
  | [] => counts
  | paper :: rest =>
      count_materials rest (count_paper_materials (material_text paper) counts)
  end.

(** Lines 498 and 507-515: the entry by_material.  Rendering a field in
    an f-string and lower-casing the result raise nothing. *)
Definition by_material (self : searcher) : list (string * nat) :=
  count_materials (results self)
    [("concrete", 0%nat); ("steel", 0%nat); ("timber", 0%nat); ("masonry", 0%nat)].

(** * Vocabulary of the statistics *)

(** The number of papers whose text has a keyword of [kws]. *)
Definition papers_mentioning (kws : list string) (papers : list dict) : nat :=
  length (List.filter
            (fun paper =>
               match paper_text paper with
               | Ok text => any_in kws text
               | Raise _ => false
               end) papers).

(** The keys the papers are counted under, in order: the truthy values
    of [field]. *)
Definition counted_key (field : string) (dflt : value) (paper : dict) : option key :=
  if Py.truthy (Py.get paper field dflt) then
    match hash_key (Py.get paper field dflt) with
    | Ok k => Some k
    | Raise _ => None
    end
  else None.

Definition occurrences (k : key) (keys : list key) : nat :=
  length (List.filter (fun k' => bool_decide (k = k')) keys).

(** Counts from the largest to the smallest. *)
Definition descending (m : tally) : Prop :=
  forall i j x y, (i <= j)%nat -> m !! i = Some x -> m !! j = Some y -> (snd y <= snd x)%nat.

Definition two_journals_searcher : searcher :=
  with_results
    [[("journal", VStr "NDT Journal"); ("year", VInt 2020)];
     [("journal", VStr "Materials"); ("year", VInt 2021)];
     [("journal", VStr "Materials"); ("year", VInt 2020)];
     [("journal", VStr ""); ("year", VNone)]]
    (init None).

(** An accepted paper as [search] stores it: its assessment tasks are
    the reason the classifier builds from its text. *)
Definition labelled (paper : dict) : Prop :=
  exists text,
    paper_text paper = Ok text
    /\ Py.lookup "assessment_tasks" paper = Some (VStr (tasks_reason (tasks_found text))).

Definition count_of (b : bool) : nat := if b then 1%nat else 0%nat.

(** The keys under which [count_by] counts the papers, in order. *)
Definition counted_keys (field : string) (dflt : value) (papers : list dict) : list key :=
  omap (counted_key field dflt) papers.

(** A larger count comes first. *)
Definition count_ge (x y : key * nat) : Prop := (snd y <= snd x)%nat.

(** The inverted index of a list of tokens: every word with the
    positions it occurs at, words in the order of their first
    occurrence. *)
Fixpoint add_position (word : string) (p : nat) (inv : inverted_index) : inverted_index :=
  match inv with
  | [] => [(word, [p])]
  | (w, ps) :: r =>
      if String.eqb word w then (w, ps ++ [p]) :: r
      else (w, ps) :: add_position word p r
  end.

Fixpoint index_from (p : nat) (tokens : list string) (inv : inverted_index)
  : inverted_index :=
  match tokens with
  | [] => inv
  | word :: rest => index_from (S p) rest (add_position word p inv)
  end.

Definition index_of_tokens (tokens : list string) : inverted_index :=
  index_from 0 tokens [].

(** The index lists exactly the positions of the tokens [done]. *)
Definition indexes (inv : inverted_index) (done : list string) : Prop :=
  (forall w ps, In (w, ps) inv -> ps <> [] /\ forall p, In p ps -> done !! p = Some w)
  /\ (forall p w, done !! p = Some w -> exists ps, In (w, ps) inv /\ In p ps).

Definition echo_tokens : list string :=
  ["impact"; "echo"; "and"; "pulse"; "echo"; "testing"].

(** The words the material tests look for. *)
Definition material_words : list string :=
  ["concrete"; "steel"; "timber"; "wood"; "masonry"].

(** A non-empty word without blank. *)
Definition one_word (w : string) : Prop :=
  w <> "" /\ Forall (fun c => c <> " "%char) (list_ascii_of_string w).

(** A record counted as timber for its "wood". *)
Definition timber_record : value :=
  VDict [("id", VStr "https://openalex.org/W3");
         ("title", VStr "Resistograph drilling for decay detection in a wood structure")].

(** * Properties *)

(** ** Substrings *)

Lemma starts_with_spec p s :
  Str.starts_with p s = true <-> exists b, s = p +:+ b.
Proof.
  revert s. induction p as [|a p IH]; intros s; simpl.
  - split; [intros _; exists s; reflexivity | reflexivity].
  - destruct s as [|b s]; simpl.
    + split; [discriminate | intros [r Hr]; discriminate].
    + rewrite andb_true_iff, IH, Ascii.eqb_eq. split.
      * intros [-> [r ->]]. exists r. reflexivity.
      * intros [r Hr]. injection Hr as -> ->. split; [reflexivity | eauto].
Qed.

Lemma contains_spec k text :
  Str.contains k text = true <-> substring k text.
Proof.
  unfold substring. induction text as [|c text IH].
  - simpl. rewrite orb_false_r, starts_with_spec. split.
    + intros [b Hb]. exists "", b. exact Hb.
    + intros [a [b Hab]]. destruct a; simpl in Hab.
      * exists b. exact Hab.
      * discriminate.
  - cbn [Str.contains]. rewrite orb_true_iff, IH, starts_with_spec. split.
    + intros [[b Hb] | [a [b Hab]]].
      * exists "", b. exact Hb.
      * exists (String c a), b. simpl. rewrite Hab. reflexivity.
    + intros [a [b Hab]]. destruct a as [|c' a]; simpl in Hab.
      * left. exists b. exact Hab.
      * right. injection Hab as _ ->. exists a, b. reflexivity.
Qed.

Lemma lowercase_check kws :
  forallb (fun k => String.eqb (Str.lower k) k) kws = true -> lowercase kws.
Proof.
  intros H. apply List.Forall_forall. intros k Hk.
  rewrite forallb_forall in H. apply String.eqb_eq, H, Hk.
Qed.

Lemma EXCLUSION_STRICT_lowercase : lowercase EXCLUSION_STRICT.
Proof. apply lowercase_check. vm_compute. reflexivity. Qed.

Lemma NDT_METHODS_CORE_lowercase : lowercase NDT_METHODS_CORE.
Proof. apply lowercase_check. vm_compute. reflexivity. Qed.

Lemma STRUCTURAL_MATERIALS_lowercase : lowercase STRUCTURAL_MATERIALS.
Proof. apply lowercase_check. vm_compute. reflexivity. Qed.

Lemma TASK_GEOMETRY_lowercase : lowercase TASK_GEOMETRY.
Proof. apply lowercase_check. vm_compute. reflexivity. Qed.

Lemma TASK_STRENGTH_lowercase : lowercase TASK_STRENGTH.
Proof. apply lowercase_check. vm_compute. reflexivity. Qed.

Lemma TASK_DETERIORATION_lowercase : lowercase TASK_DETERIORATION.
Proof. apply lowercase_check. vm_compute. reflexivity. Qed.

Lemma TASK_DEFECTS_lowercase : lowercase TASK_DEFECTS.
Proof. apply lowercase_check. vm_compute. reflexivity. Qed.

Lemma TASK_MOISTURE_lowercase : lowercase TASK_MOISTURE.
Proof. apply lowercase_check. vm_compute. reflexivity. Qed.

Lemma CIRCULAR_STRICT_lowercase : lowercase CIRCULAR_STRICT.
Proof. apply lowercase_check. vm_compute. reflexivity. Qed.

Create HintDb taxonomy.

#[local] Hint Resolve EXCLUSION_STRICT_lowercase NDT_METHODS_CORE_lowercase
  STRUCTURAL_MATERIALS_lowercase TASK_GEOMETRY_lowercase TASK_STRENGTH_lowercase
  TASK_DETERIORATION_lowercase TASK_DEFECTS_lowercase TASK_MOISTURE_lowercase
  CIRCULAR_STRICT_lowercase : taxonomy.

Lemma any_in_true kws text :
  lowercase kws -> any_in kws text = true <-> mentions kws text.
Proof.
  intros Hl. unfold any_in, mentions. rewrite existsb_exists.
  unfold lowercase in Hl. rewrite List.Forall_forall in Hl.
  split; intros [k [Hk Hc]]; exists k; split; try assumption.
  - rewrite (Hl k Hk) in Hc. apply contains_spec, Hc.
  - rewrite (Hl k Hk). apply contains_spec, Hc.
Qed.

Lemma any_in_false kws text :
  lowercase kws -> any_in kws text = false <-> ~ mentions kws text.
Proof.
  intros Hl. rewrite <- (any_in_true kws text Hl).
  destruct (any_in kws text); split; intros H; congruence.
Qed.

(** The [for] loop of lines 179-183 stops at the first exclusion term
    that occurs in the text. *)
Lemma first_exclusion_found text :
  mentions EXCLUSION_STRICT text ->
  exists term,
    find (fun e => Str.contains (Str.lower e) text) EXCLUSION_STRICT = Some term
    /\ In term EXCLUSION_STRICT /\ substring term text.
Proof.
  intros [k [Hk Hs]].
  pose proof EXCLUSION_STRICT_lowercase as Hl.
  unfold lowercase in Hl. rewrite List.Forall_forall in Hl.
  destruct (find (fun e => Str.contains (Str.lower e) text) EXCLUSION_STRICT)
    as [term|] eqn:Hf.
  - exists term. apply find_some in Hf as [Hin Hc].
    rewrite (Hl term Hin) in Hc. repeat split; try assumption.
    apply contains_spec, Hc.
  - exfalso. pose proof (find_none _ _ Hf k Hk) as Hn. simpl in Hn.
    rewrite (Hl k Hk) in Hn. apply contains_spec in Hs. congruence.
Qed.

Lemma no_exclusion_found text :
  ~ mentions EXCLUSION_STRICT text ->
  find (fun e => Str.contains (Str.lower e) text) EXCLUSION_STRICT = None.
Proof.
  intros Hn.
  destruct (find (fun e => Str.contains (Str.lower e) text) EXCLUSION_STRICT)
    as [term|] eqn:Hf; [|reflexivity].
  exfalso. apply Hn. apply find_some in Hf as [Hin Hc].
  pose proof EXCLUSION_STRICT_lowercase as Hl.
  unfold lowercase in Hl. rewrite List.Forall_forall in Hl.
  rewrite (Hl term Hin) in Hc. exists term. split; [assumption|].
  apply contains_spec, Hc.
Qed.

(** ** The classifier *)

(** Runs the binds whose left-hand side is a known result. *)
Ltac run_bind := unfold mbind, result_bind, rbind; cbv beta iota.

Lemma is_relevant_excluded paper self text term :
  paper_text paper = Ok text ->
  find (fun e => Str.contains (Str.lower e) text) EXCLUSION_STRICT = Some term ->
  is_relevant paper self
  = Ok ((false, "Excluded: " +:+ term), count_exclusion term self).
Proof. intros Ht Hf. unfold is_relevant. rewrite Ht. run_bind. rewrite Hf. reflexivity. Qed.

(** C1: a paper whose text contains an exclusion keyword is rejected
    with reason "Excluded: <term>", where <term> is an exclusion
    keyword that occurs in the text, whatever else the text contains;
    the call raises the counter of that term by one and leaves the
    other counters and the other fields of the searcher as they were. *)
Theorem exclusion_keyword_rejects (paper : dict) (self : searcher) (text : string) :
  paper_text paper = Ok text ->
  mentions EXCLUSION_STRICT text ->
  exists term self',
    In term EXCLUSION_STRICT /\ substring term text
    /\ is_relevant paper self = Ok ((false, "Excluded: " +:+ term), self')
    /\ exclusion_stats self' !! term
       = Some (default 0 (exclusion_stats self !! term) + 1)%nat
    /\ (forall other, other <> term ->
          exclusion_stats self' !! other = exclusion_stats self !! other)
    /\ results self' = results self /\ excluded self' = excluded self.
Proof.
  intros Ht Hm.
  destruct (first_exclusion_found text Hm) as [term [Hf [Hin Hs]]].
  exists term, (count_exclusion term self).
  split; [exact Hin|]. split; [exact Hs|].
  split; [apply (is_relevant_excluded _ _ text); assumption|].
  unfold count_exclusion, with_exclusion_stats. simpl.
  split; [apply lookup_insert_eq|].
  split; [|split; reflexivity].
  intros other Hne. apply lookup_insert_ne. congruence.
Qed.

Lemma exclusion_keyword_rejects_witness :
  exists term self',
    In term EXCLUSION_STRICT
    /\ substring term "ultrasonic testing of aircraft composite panels "
    /\ is_relevant aircraft_paper (init None)
       = Ok ((false, "Excluded: " +:+ term), self')
    /\ exclusion_stats self' !! term
       = Some (default 0 (exclusion_stats (init None) !! term) + 1)%nat
    /\ (forall other, other <> term ->
          exclusion_stats self' !! other = exclusion_stats (init None) !! other)
    /\ results self' = results (init None)
    /\ excluded self' = excluded (init None).
Proof.
  apply (exclusion_keyword_rejects aircraft_paper (init None)).
  - reflexivity.
  - apply any_in_true; [exact EXCLUSION_STRICT_lowercase | vm_compute; reflexivity].
Defined.

(** C3 as stated fails: this text has no NDT-method keyword, and the
    reason is the exclusion term it contains, not "No core NDT method". *)
Lemma no_ndt_method_counterexample :
  paper_text pavement_paper
  = Ok "strength estimation of reinforced concrete pavement "
  /\ ~ mentions NDT_METHODS_CORE "strength estimation of reinforced concrete pavement "
  /\ is_relevant pavement_paper (init None)
     = Ok ((false, "Excluded: pavement"), count_exclusion "pavement" (init None))
  /\ (forall self',
        is_relevant pavement_paper (init None)
        <> Ok ((false, "No core NDT method"), self')).
Proof.
  assert (Hrun : is_relevant pavement_paper (init None)
                 = Ok ((false, "Excluded: pavement"),
                       count_exclusion "pavement" (init None))).
  { apply (is_relevant_excluded _ _ "strength estimation of reinforced concrete pavement ");
      vm_compute; reflexivity. }
  split; [reflexivity|].
  split; [apply any_in_false; [exact NDT_METHODS_CORE_lowercase | vm_compute; reflexivity]|].
  split; [exact Hrun|].
  intros self'. rewrite Hrun. intros H. discriminate H.
Qed.

(** C3, amended: a text with no exclusion keyword and no NDT-method
    keyword is rejected with reason "No core NDT method", whatever
    material and task keywords it contains, and the searcher is left as
    it was. *)
Theorem no_ndt_method_rejected (paper : dict) (self : searcher) (text : string) :
  paper_text paper = Ok text ->
  ~ mentions EXCLUSION_STRICT text ->
  ~ mentions NDT_METHODS_CORE text ->
  is_relevant paper self = Ok ((false, "No core NDT method"), self).
Proof.
  intros Ht Hx Hn. unfold is_relevant. rewrite Ht. run_bind.
  rewrite (no_exclusion_found text Hx).
  apply any_in_false in Hn; [|exact NDT_METHODS_CORE_lowercase].
  rewrite Hn. reflexivity.
Qed.

Lemma no_ndt_method_rejected_witness :
  mentions STRUCTURAL_MATERIALS "strength estimation of reinforced concrete beams "
  /\ mentions TASK_STRENGTH "strength estimation of reinforced concrete beams "
  /\ is_relevant beam_paper (init None)
     = Ok ((false, "No core NDT method"), init None).
Proof.
  split; [apply any_in_true; [exact STRUCTURAL_MATERIALS_lowercase | vm_compute; reflexivity]|].
  split; [apply any_in_true; [exact TASK_STRENGTH_lowercase | vm_compute; reflexivity]|].
  apply (no_ndt_method_rejected beam_paper (init None)
           "strength estimation of reinforced concrete beams ").
  - reflexivity.
  - apply any_in_false; [exact EXCLUSION_STRICT_lowercase | vm_compute; reflexivity].
  - apply any_in_false; [exact NDT_METHODS_CORE_lowercase | vm_compute; reflexivity].
Defined.

(** C6: the paper whose title and abstract make up the text "Ultrasonic
    pulse velocity testing of reinforced concrete for corrosion
    assessment" is included, and its reason, "Tasks: deterioration",
    contains "deterioration". *)
Theorem corrosion_scenario_included :
  (forall self,
      is_relevant corrosion_paper self = Ok ((true, "Tasks: deterioration"), self))
  /\ (forall self,
        is_relevant corrosion_paper_split self
        = Ok ((true, "Tasks: deterioration"), self))
  /\ paper_text corrosion_paper_split = Ok (Str.lower corrosion_title)
  /\ substring "deterioration" "Tasks: deterioration".
Proof.
  split; [intros self; vm_compute; reflexivity|].
  split; [intros self; vm_compute; reflexivity|].
  split; [vm_compute; reflexivity|].
  apply contains_spec. vm_compute. reflexivity.
Qed.

(** C10: when the title and the abstract of a paper are both absent or
    null, [is_relevant] raises nothing: the text it scans is a single
    space and the answer is (False, "No core NDT method"). *)
Theorem missing_title_and_abstract (paper : dict) (self : searcher) :
  missing "title" paper ->
  missing "abstract" paper ->
  paper_text paper = Ok " "
  /\ is_relevant paper self = Ok ((false, "No core NDT method"), self).
Proof.
  intros Ht Ha.
  assert (Htext : paper_text paper = Ok " ").
  { unfold paper_text, Py.get.
    destruct Ht as [-> | ->], Ha as [-> | ->]; reflexivity. }
  split; [exact Htext|].
  unfold is_relevant. rewrite Htext. vm_compute. reflexivity.
Qed.

Lemma missing_title_and_abstract_witness :
  paper_text [("title", VNone); ("year", VInt 2020)] = Ok " "
  /\ is_relevant [("title", VNone); ("year", VInt 2020)] (init None)
     = Ok ((false, "No core NDT method"), init None).
Proof.
  apply (missing_title_and_abstract [("title", VNone); ("year", VInt 2020)] (init None)).
  - right. reflexivity.
  - left. reflexivity.
Defined.

Lemma any_in_app l1 l2 text :
  any_in (l1 ++ l2) text = any_in l1 text || any_in l2 text.
Proof. unfold any_in. apply existsb_app. Qed.

Lemma has_task_split text :
  any_in ALL_ASSESSMENT_TASKS text
  = any_in TASK_GEOMETRY text || any_in TASK_STRENGTH text
    || any_in TASK_DETERIORATION text || any_in TASK_DEFECTS text
    || any_in TASK_MOISTURE text.
Proof.
  unfold ALL_ASSESSMENT_TASKS. rewrite !any_in_app.
  destruct (any_in TASK_GEOMETRY text), (any_in TASK_STRENGTH text),
    (any_in TASK_DETERIORATION text), (any_in TASK_DEFECTS text); reflexivity.
Qed.

(** A task name occurs in the reason exactly when its test succeeded. *)
Lemma tasks_reason_names g s d f m :
  let reason := tasks_reason (names_found g s d f m) in
  Str.contains "geometry" reason = g
  /\ Str.contains "strength" reason = s
  /\ Str.contains "deterioration" reason = d
  /\ Str.contains "defects" reason = f
  /\ Str.contains "moisture" reason = m.
Proof. destruct g, s, d, f, m; vm_compute; repeat split. Qed.

Lemma tasks_reason_pair g s d f m :
  tasks_reason (names_found g s d f m) = "Tasks: geometry, strength" ->
  g = true /\ s = true /\ d = false /\ f = false /\ m = false.
Proof. destruct g, s, d, f, m; vm_compute; intros H; try discriminate H; repeat split. Qed.

(** What a call that accepts a paper went through. *)
Lemma is_relevant_accepts paper self reason self' :
  is_relevant paper self = Ok ((true, reason), self') ->
  exists text,
    paper_text paper = Ok text
    /\ ~ mentions EXCLUSION_STRICT text
    /\ any_in NDT_METHODS_CORE text = true
    /\ any_in STRUCTURAL_MATERIALS text = true
    /\ any_in ALL_ASSESSMENT_TASKS text || any_in CIRCULAR_STRICT text = true
    /\ reason = tasks_reason (tasks_found text)
    /\ self' = self.
Proof.
  unfold is_relevant. destruct (paper_text paper) as [text|e]; run_bind; [|discriminate].
  destruct (find _ EXCLUSION_STRICT) as [term|] eqn:Hf; [discriminate|].
  destruct (any_in NDT_METHODS_CORE text) eqn:Hn; [|discriminate].
  destruct (any_in STRUCTURAL_MATERIALS text) eqn:Hm; [|discriminate].
  destruct (any_in ALL_ASSESSMENT_TASKS text || any_in CIRCULAR_STRICT text) eqn:Hg;
    [|discriminate].
  cbn [negb]. cbv beta iota zeta. intros H. injection H as <- <-.
  exists text. repeat split; try reflexivity; try assumption.
  intros Hx. destruct (first_exclusion_found text Hx) as [term [Hf' _]]. congruence.
Qed.

(** C2: the reason of an accepted paper is "Tasks: " followed by the
    names of the task categories whose keyword sets occur in its text,
    in the order geometry, strength, deterioration, defects, moisture:
    a task name occurs in the reason exactly when a keyword of its set
    occurs in the text; the reason "Tasks: geometry, strength" means
    that geometry and strength keywords occur and none of the other
    three sets does; and a paper in which no task set occurs has the
    reason "Tasks: circular" and a circular-economy keyword. *)
Theorem reason_names_matched_tasks
    (paper : dict) (self self' : searcher) (reason : string) :
  is_relevant paper self = Ok ((true, reason), self') ->
  exists text,
    paper_text paper = Ok text
    /\ reason
       = tasks_reason
           (map fst (List.filter (fun t => any_in (snd t) text) task_sets))
    /\ (forall name kws, In (name, kws) task_sets ->
          substring name reason <-> mentions kws text)
    /\ (reason = "Tasks: geometry, strength" ->
          mentions TASK_GEOMETRY text /\ mentions TASK_STRENGTH text
          /\ ~ mentions TASK_DETERIORATION text /\ ~ mentions TASK_DEFECTS text
          /\ ~ mentions TASK_MOISTURE text)
    /\ ((forall name kws, In (name, kws) task_sets -> ~ mentions kws text) ->
          reason = "Tasks: circular" /\ mentions CIRCULAR_STRICT text).
Proof.
  intros H.
  destruct (is_relevant_accepts _ _ _ _ H) as [text [Ht [_ [_ [_ [Hg [Hr _]]]]]]].
  exists text. split; [exact Ht|].
  rewrite has_task_split in Hg.
  assert (Hfound : tasks_found text
                   = names_found (any_in TASK_GEOMETRY text) (any_in TASK_STRENGTH text)
                       (any_in TASK_DETERIORATION text) (any_in TASK_DEFECTS text)
                       (any_in TASK_MOISTURE text)) by reflexivity.
  rewrite Hfound in Hr.
  pose proof (tasks_reason_names (any_in TASK_GEOMETRY text) (any_in TASK_STRENGTH text)
                (any_in TASK_DETERIORATION text) (any_in TASK_DEFECTS text)
                (any_in TASK_MOISTURE text)) as Hnames.
  cbv zeta in Hnames. rewrite <- Hr in Hnames.
  destruct Hnames as [Hn1 [Hn2 [Hn3 [Hn4 Hn5]]]].
  split.
  { rewrite Hr. unfold task_sets. cbn [List.filter snd fst map].
    destruct (any_in TASK_GEOMETRY text), (any_in TASK_STRENGTH text),
      (any_in TASK_DETERIORATION text), (any_in TASK_DEFECTS text),
      (any_in TASK_MOISTURE text); reflexivity. }
  split.
  { intros name kws Hin. rewrite <- contains_spec.
    unfold task_sets in Hin. simpl in Hin.
    destruct Hin as [Hin | [Hin | [Hin | [Hin | [Hin | []]]]]];
      injection Hin as <- <-.
    - rewrite Hn1. apply any_in_true. auto with taxonomy.
    - rewrite Hn2. apply any_in_true. auto with taxonomy.
    - rewrite Hn3. apply any_in_true. auto with taxonomy.
    - rewrite Hn4. apply any_in_true. auto with taxonomy.
    - rewrite Hn5. apply any_in_true. auto with taxonomy. }
  split.
  { intros Hpair. rewrite Hpair in Hr. symmetry in Hr.
    apply tasks_reason_pair in Hr. destruct Hr as [H1 [H2 [H3 [H4 H5]]]].
    split; [apply any_in_true; auto with taxonomy|].
    split; [apply any_in_true; auto with taxonomy|].
    split; [apply any_in_false; auto with taxonomy|].
    split; apply any_in_false; auto with taxonomy. }
  intros Hnone.
  assert (H1 : any_in TASK_GEOMETRY text = false).
  { apply any_in_false; [auto with taxonomy|].
    apply (Hnone "geometry"). unfold task_sets. simpl. tauto. }
  assert (H2 : any_in TASK_STRENGTH text = false).
  { apply any_in_false; [auto with taxonomy|].
    apply (Hnone "strength"). unfold task_sets. simpl. tauto. }
  assert (H3 : any_in TASK_DETERIORATION text = false).
  { apply any_in_false; [auto with taxonomy|].
    apply (Hnone "deterioration"). unfold task_sets. simpl. tauto. }
  assert (H4 : any_in TASK_DEFECTS text = false).
  { apply any_in_false; [auto with taxonomy|].
    apply (Hnone "defects"). unfold task_sets. simpl. tauto. }
  assert (H5 : any_in TASK_MOISTURE text = false).
  { apply any_in_false; [auto with taxonomy|].
    apply (Hnone "moisture"). unfold task_sets. simpl. tauto. }
  rewrite H1, H2, H3, H4, H5 in Hr, Hg. simpl in Hg.
  split; [exact Hr|]. apply any_in_true; [auto with taxonomy | exact Hg].
Qed.

Lemma reason_names_matched_tasks_witness :
  exists text,
    paper_text radar_paper = Ok text
    /\ "Tasks: geometry, strength"
       = tasks_reason
           (map fst (List.filter (fun t => any_in (snd t) text) task_sets))
    /\ (forall name kws, In (name, kws) task_sets ->
          substring name "Tasks: geometry, strength" <-> mentions kws text)
    /\ ("Tasks: geometry, strength" = "Tasks: geometry, strength" ->
          mentions TASK_GEOMETRY text /\ mentions TASK_STRENGTH text
          /\ ~ mentions TASK_DETERIORATION text /\ ~ mentions TASK_DEFECTS text
          /\ ~ mentions TASK_MOISTURE text)
    /\ ((forall name kws, In (name, kws) task_sets -> ~ mentions kws text) ->
          "Tasks: geometry, strength" = "Tasks: circular"
          /\ mentions CIRCULAR_STRICT text).
Proof.
  apply (reason_names_matched_tasks radar_paper (init None) (init None)).
  vm_compute. reflexivity.
Defined.

(** ** The parser *)

Lemma as_indices_positions (ps : list nat) :
  Py.as_indices (map (fun p => VInt (Z.of_nat p)) ps) = Ok (map Z.of_nat ps).
Proof.
  induction ps as [|p ps IH]; [reflexivity|].
  cbn [map Py.as_indices Py.as_index]. rewrite IH. reflexivity.
Qed.

Lemma fold_max_spec (l : list Z) (z : Z) :
  let m := fold_left Z.max l z in
  (m = z \/ In m l) /\ z <= m /\ (forall x, In x l -> x <= m).
Proof.
  revert z. induction l as [|a l IH]; intros z; cbn [fold_left].
  - split; [left; reflexivity|]. split; [lia|]. intros x [].
  - destruct (IH (Z.max z a)) as [Hin [Hz Hall]]. split; [|split].
    + destruct Hin as [Hin | Hin].
      * rewrite Hin. destruct (Z.max_spec z a) as [[_ ->] | [_ ->]].
        -- right. left. reflexivity.
        -- left. reflexivity.
      * right. right. exact Hin.
    + lia.
    + intros x [<- | Hx]; [lia | apply Hall, Hx].
Qed.

Lemma max_of_spec (l : list Z) :
  l <> [] ->
  exists m, Py.max_of l = Ok m /\ In m l /\ (forall x, In x l -> x <= m).
Proof.
  destruct l as [|z l]; [congruence|]. intros _.
  exists (fold_left Z.max l z). cbn [Py.max_of].
  destruct (fold_max_spec l z) as [Hin [Hz Hall]].
  split; [reflexivity|]. split.
  - destruct Hin as [-> | Hin]; [left; reflexivity | right; exact Hin].
  - intros x [<- | Hx]; [exact Hz | apply Hall, Hx].
Qed.

(** The maxima of line 401, entry by entry. *)
Lemma max_indices_spec (inv : inverted_index) :
  Forall (fun e => snd e <> []) inv ->
  exists ms,
    max_indices (map (fun e => (fst e, VList (map (fun p => VInt (Z.of_nat p)) (snd e)))) inv)
    = Ok ms
    /\ Forall2 (fun e m => In m (map Z.of_nat (snd e))
                           /\ forall p, In p (snd e) -> Z.of_nat p <= m) inv ms.
Proof.
  induction 1 as [|e inv He _ IH].
  - exists []. split; [reflexivity | constructor].
  - destruct IH as [ms [Hms Hall]].
    destruct (max_of_spec (map Z.of_nat (snd e))) as [m [Hm [Hin Hle]]].
    { destruct (snd e); [congruence | discriminate]. }
    exists (m :: ms). split.
    + cbn [map max_indices fst snd max_index]. rewrite as_indices_positions.
      run_bind. rewrite Hm. run_bind. rewrite Hms. reflexivity.
    + constructor; [|exact Hall]. split; [exact Hin|].
      intros p Hp. apply Hle, in_map, Hp.
Qed.

(** Line 401 finds the largest listed position. *)
Lemma max_idx_spec (inv : inverted_index) :
  well_formed_index inv ->
  exists ms m,
    max_indices (map (fun e => (fst e, VList (map (fun p => VInt (Z.of_nat p)) (snd e)))) inv)
    = Ok ms
    /\ Py.max_of ms = Ok (Z.of_nat m) /\ largest_position inv m.
Proof.
  intros [Hne Hall].
  destruct (max_indices_spec inv Hall) as [ms [Hms Hrel]].
  destruct (max_of_spec ms) as [mz [Hmz [Hin Hle]]].
  { intros ->. inversion Hrel. congruence. }
  assert (Hsome : exists e, In e inv /\ In mz (map Z.of_nat (snd e))).
  { clear -Hrel Hin. induction Hrel as [|e m inv ms [He _] _ IH].
    - destruct Hin.
    - destruct Hin as [<- | Hin].
      + exists e. split; [left; reflexivity | exact He].
      + destruct (IH Hin) as [e' [He' Hm']]. exists e'. split; [right|]; assumption. }
  destruct Hsome as [e [He Hm]]. apply in_map_iff in Hm as [m [<- Hm]].
  exists ms, m. split; [exact Hms|]. split; [exact Hmz|]. split.
  - exists e. split; assumption.
  - intros e' p He' Hp.
    assert (Hb : exists m', In m' ms /\ Z.of_nat p <= m').
    { clear -Hrel He' Hp. induction Hrel as [|e0 m0 inv ms [_ H0] _ IH].
      - destruct He'.
      - destruct He' as [-> | He'].
        + exists m0. split; [left; reflexivity | apply H0, Hp].
        + destruct (IH He') as [m' [Hm' Hle]]. exists m'. split; [right|]; assumption. }
    destruct Hb as [m' [Hm' Hpm]]. specialize (Hle m' Hm'). lia.
Qed.

Lemma place_entry_length e words : length (place_entry words e) = length words.
Proof.
  unfold place_entry. revert words.
  induction (snd e) as [|p ps IH]; intros words; cbn [fold_left]; [reflexivity|].
  rewrite IH. apply length_insert.
Qed.

Lemma placed_length inv words : length (placed inv words) = length words.
Proof.
  unfold placed. revert words.
  induction inv as [|e inv IH]; intros words; cbn [fold_left]; [reflexivity|].
  rewrite IH. apply place_entry_length.
Qed.

Lemma place_entry_lookup e (words : list string) (q : nat) :
  (q < length words)%nat ->
  place_entry words e !! q
  = if lists_position q e then Some (fst e) else words !! q.
Proof.
  unfold place_entry, lists_position. revert words.
  induction (snd e) as [|p ps IH]; intros words Hq; cbn [fold_left existsb];
    [reflexivity|].
  rewrite IH by (rewrite length_insert; exact Hq).
  destruct (Nat.eqb_spec q p) as [-> | Hne]; cbn [orb].
  - destruct (existsb (Nat.eqb p) ps); [reflexivity|].
    apply list_lookup_insert_eq. exact Hq.
  - destruct (existsb (Nat.eqb q) ps); [reflexivity|].
    apply list_lookup_insert_ne. congruence.
Qed.

Lemma find_append {A} (f : A -> bool) (l1 l2 : list A) :
  find f (l1 ++ l2)
  = match find f l1 with
    | Some x => Some x
    | None => find f l2
    end.
Proof.
  induction l1 as [|a l1 IH]; [reflexivity|].
  cbn [app find]. destruct (f a); [reflexivity | exact IH].
Qed.

Lemma placed_lookup inv (words : list string) (q : nat) :
  (q < length words)%nat ->
  placed inv words !! q
  = match find (lists_position q) (rev inv) with
    | Some e => Some (fst e)
    | None => words !! q
    end.
Proof.
  unfold placed. revert words.
  induction inv as [|e inv IH]; intros words Hq; cbn [fold_left rev]; [reflexivity|].
  rewrite IH by (rewrite place_entry_length; exact Hq).
  rewrite find_append.
  destruct (find (lists_position q) (rev inv)); [reflexivity|].
  cbn [find]. rewrite place_entry_lookup by exact Hq.
  destruct (lists_position q e); reflexivity.
Qed.

Lemma assign_in_range {A} (l : list A) (p : nat) (x : A) :
  (p < length l)%nat -> Py.assign l (Z.of_nat p) x = Ok (<[p := x]> l).
Proof.
  intros Hp. unfold Py.assign.
  replace (0 <=? Z.of_nat p) with true by (symmetry; apply Z.leb_le; lia).
  replace (Z.of_nat p <? Z.of_nat (length l)) with true
    by (symmetry; apply Z.ltb_lt; lia).
  cbn [andb]. rewrite Nat2Z.id. reflexivity.
Qed.

Lemma place_word_spec w (ps : list nat) (words : list string) :
  (forall p, In p ps -> (p < length words)%nat) ->
  place_word w (map Z.of_nat ps) words
  = Ok (fold_left (fun ws p => <[p := w]> ws) ps words).
Proof.
  revert words. induction ps as [|p ps IH]; intros words Hps; [reflexivity|].
  cbn [map place_word fold_left].
  rewrite assign_in_range by (apply Hps; left; reflexivity).
  run_bind. apply IH. intros q Hq. rewrite length_insert. apply Hps. right. exact Hq.
Qed.

Lemma place_words_spec (inv : inverted_index) (words : list string) :
  (forall e p, In e inv -> In p (snd e) -> (p < length words)%nat) ->
  place_words
    (map (fun e => (fst e, VList (map (fun p => VInt (Z.of_nat p)) (snd e)))) inv) words
  = Ok (placed inv words).
Proof.
  unfold placed. revert words.
  induction inv as [|e inv IH]; intros words Hall; [reflexivity|].
  cbn [map place_words fst snd fold_left]. rewrite as_indices_positions. run_bind.
  rewrite place_word_spec by (intros p Hp; apply (Hall e); [left; reflexivity | exact Hp]).
  run_bind. apply IH. intros e' p He' Hp. rewrite place_entry_length.
  apply (Hall e'); [right; exact He' | exact Hp].
Qed.

(** Lines 397-406 on a paper that carries a well-formed inverted index. *)
Lemma reconstruct_abstract_spec (paper : dict) (inv : inverted_index) :
  Py.lookup "abstract_inverted_index" paper = Some (index_value inv) ->
  well_formed_index inv ->
  exists m,
    largest_position inv m
    /\ reconstruct_abstract paper
       = Ok (Str.join " " (placed inv (replicate (S m) ""))).
Proof.
  intros Hl Hwf.
  destruct (max_idx_spec inv Hwf) as [ms [m [Hms [Hmax Hlargest]]]].
  exists m. split; [exact Hlargest|].
  assert (Htruthy : Py.truthy (index_value inv) = true).
  { destruct Hwf as [Hne _]. destruct inv; [congruence | reflexivity]. }
  unfold reconstruct_abstract, Py.get. rewrite Hl, Htruthy. unfold index_value.
  cbv beta iota. rewrite Hms. run_bind. rewrite Hmax. run_bind.
  replace (Z.to_nat (Z.of_nat m + 1)) with (S m) by lia.
  rewrite place_words_spec; [reflexivity|].
  intros e' p He' Hp. rewrite length_replicate.
  destruct Hlargest as [_ Hle]. specialize (Hle e' p He' Hp). lia.
Qed.

(** What position [p] holds: the word listed there, or nothing. *)
Lemma word_at_listed inv w ps p :
  In (w, ps) inv -> In p ps ->
  (forall w' ps', In (w', ps') inv -> In p ps' -> w' = w) ->
  word_at inv p = w.
Proof.
  intros Hin Hp Huniq. unfold word_at.
  destruct (find (lists_position p) (rev inv)) as [[w' ps']|] eqn:Hf.
  - apply find_some in Hf as [He Hl]. apply in_rev in He.
    unfold lists_position in Hl. apply existsb_exists in Hl as [p' [Hp' Heq]].
    apply Nat.eqb_eq in Heq. subst p'. exact (Huniq w' ps' He Hp').
  - exfalso. pose proof (find_none _ _ Hf (w, ps)) as Hn.
    rewrite <- in_rev in Hn. specialize (Hn Hin).
    unfold lists_position in Hn. cbn [snd] in Hn.
    assert (Ht : existsb (Nat.eqb p) ps = true).
    { apply existsb_exists. exists p. split; [exact Hp | apply Nat.eqb_refl]. }
    congruence.
Qed.

Lemma word_at_unlisted inv p :
  (forall e, In e inv -> ~ In p (snd e)) -> word_at inv p = "".
Proof.
  intros Hnone. unfold word_at.
  destruct (find (lists_position p) (rev inv)) as [e|] eqn:Hf; [|reflexivity].
  exfalso. apply find_some in Hf as [He Hl]. apply in_rev in He.
  unfold lists_position in Hl. apply existsb_exists in Hl as [p' [Hp' Heq]].
  apply Nat.eqb_eq in Heq. subst p'. exact (Hnone e He Hp').
Qed.

Lemma word_at_last inv e p :
  lists_position p e = true -> word_at (inv ++ [e]) p = fst e.
Proof.
  intros Hl. unfold word_at. rewrite rev_unit. cbn [find]. rewrite Hl. reflexivity.
Qed.

(** The parsed record carries the abstract rebuilt by lines 397-406. *)
Lemma parse_paper_abstract (paper : dict) (paper_data : dict) :
  _parse_paper (VDict paper) = Some paper_data ->
  exists abstract,
    reconstruct_abstract paper = Ok abstract
    /\ Py.lookup "abstract" paper_data = Some (VStr abstract).
Proof.
  unfold _parse_paper, parse_body.
  destruct (Py.iter _) as [authorships|]; run_bind; [|discriminate].
  destruct (collect_authors authorships) as [authors|]; run_bind; [|discriminate].
  destruct (Py.vget _ "source" _) as [src|]; run_bind; [|discriminate].
  destruct (reconstruct_abstract paper) as [abstract|]; run_bind; [|discriminate].
  destruct (Py.vjoin _ _) as [authors_str|]; run_bind; [|discriminate].
  destruct (if Py.truthy _ then _ else _) as [doi|]; run_bind; [|discriminate].
  destruct (Py.vget _ "display_name" _) as [journal|]; run_bind; [|discriminate].
  destruct (Py.vget _ "is_oa" _) as [is_oa|]; run_bind; [|discriminate].
  intros H. injection H as <-. exists abstract. split; reflexivity.
Qed.

(** C5: the parser rebuilds the abstract by putting each word of the
    inverted index at the positions listed for it, leaving the other
    positions empty, and joining with single spaces.  For the index
    {"ultrasonic": [0,3], "testing": [1]} the abstract is "ultrasonic
    testing  ultrasonic".  In general, for an index whose entries each
    list a position, the words joined are one per position up to the
    largest listed one; a position listed for one word holds that word,
    an unlisted position holds the empty string, and a position listed
    for several words holds the one that comes last in the index. *)
Theorem abstract_reconstruction :
  (exists paper_data,
      _parse_paper ultrasonic_record = Some paper_data
      /\ Py.lookup "abstract" paper_data
         = Some (VStr "ultrasonic testing  ultrasonic"))
  /\ forall (paper : dict) (inv : inverted_index),
      Py.lookup "abstract_inverted_index" paper = Some (index_value inv) ->
      well_formed_index inv ->
      exists (m : nat) (words : list string),
        largest_position inv m
        /\ length words = S m
        /\ reconstruct_abstract paper = Ok (Str.join " " words)
        /\ (forall paper_data,
              _parse_paper (VDict paper) = Some paper_data ->
              Py.lookup "abstract" paper_data = Some (VStr (Str.join " " words)))
        /\ (forall p, (p <= m)%nat -> words !! p = Some (word_at inv p))
        /\ (forall w ps p,
              In (w, ps) inv -> In p ps ->
              (forall w' ps', In (w', ps') inv -> In p ps' -> w' = w) ->
              words !! p = Some w)
        /\ (forall p, (p <= m)%nat ->
              (forall e, In e inv -> ~ In p (snd e)) -> words !! p = Some "").
Proof.
  split.
  { eexists. split; vm_compute; reflexivity. }
  intros paper inv Hl Hwf.
  destruct (reconstruct_abstract_spec paper inv Hl Hwf) as [m [Hm Hrun]].
  exists m, (placed inv (replicate (S m) "")).
  assert (Hlen : length (placed inv (replicate (S m) "")) = S m)
    by (rewrite placed_length; apply length_replicate).
  assert (Hat : forall p, (p <= m)%nat ->
                  placed inv (replicate (S m) "") !! p = Some (word_at inv p)).
  { intros p Hp. rewrite placed_lookup by (rewrite length_replicate; lia).
    unfold word_at. destruct (find (lists_position p) (rev inv)); [reflexivity|].
    apply lookup_replicate. split; [reflexivity | lia]. }
  split; [exact Hm|]. split; [exact Hlen|]. split; [exact Hrun|].
  split.
  { intros paper_data Hp.
    destruct (parse_paper_abstract paper paper_data Hp) as [abstract [Ha Hf]].
    rewrite Hrun in Ha. injection Ha as <-. exact Hf. }
  split; [exact Hat|]. split.
  - intros w ps p Hin Hp Huniq.
    destruct Hm as [_ Hle]. pose proof (Hle (w, ps) p Hin Hp) as Hpm.
    rewrite Hat by exact Hpm. f_equal. exact (word_at_listed inv w ps p Hin Hp Huniq).
  - intros p Hp Hnone. rewrite Hat by exact Hp. f_equal.
    apply word_at_unlisted, Hnone.
Qed.

Lemma abstract_reconstruction_witness :
  exists (m : nat) (words : list string),
    largest_position overlapping_index m
    /\ length words = S m
    /\ reconstruct_abstract [("abstract_inverted_index", index_value overlapping_index)]
       = Ok (Str.join " " words)
    /\ (forall paper_data,
          _parse_paper (VDict [("abstract_inverted_index", index_value overlapping_index)])
          = Some paper_data ->
          Py.lookup "abstract" paper_data = Some (VStr (Str.join " " words)))
    /\ (forall p, (p <= m)%nat -> words !! p = Some (word_at overlapping_index p))
    /\ (forall w ps p,
          In (w, ps) overlapping_index -> In p ps ->
          (forall w' ps', In (w', ps') overlapping_index -> In p ps' -> w' = w) ->
          words !! p = Some w)
    /\ (forall p, (p <= m)%nat ->
          (forall e, In e overlapping_index -> ~ In p (snd e)) -> words !! p = Some "").
Proof.
  apply (proj2 abstract_reconstruction
           [("abstract_inverted_index", index_value overlapping_index)]
           overlapping_index).
  - reflexivity.
  - split; [discriminate|]. repeat constructor; discriminate.
Defined.

(** C7 as stated fails: on a record that is not a JSON object, or whose
    id is a list, the parser returns null but the loop body raises before
    it calls the parser, and [search] ends with that exception instead of
    skipping the record. *)
Lemma parse_failure_counterexample :
  parse_body VNone = Raise AttributeError
  /\ _parse_paper VNone = None
  /\ process_record VNone (start (init None)) = Raise AttributeError
  /\ search (api_once VNone) (init None) 2014 2024 1 = Raise AttributeError
  /\ parse_body (VDict unhashable_id_record) = Raise TypeError
  /\ _parse_paper (VDict unhashable_id_record) = None
  /\ process_record (VDict unhashable_id_record) (start (init None)) = Raise TypeError.
Proof. repeat split; vm_compute; reflexivity. Qed.

(** C7, amended: when parsing a record that is a JSON object with a
    hashable id (absent, null, a boolean, a number or a string) hits a
    structural failure, [_parse_paper] returns null instead of raising,
    and the loop body leaves the whole state as it was: the record is
    neither accepted nor logged as excluded, and the outcome is the same
    whatever the classifier is, even one that raises. *)
Theorem parse_failure_skipped (paper : dict) (st : run) (e : exn) (k : key) :
  parse_body (VDict paper) = Raise e ->
  hash_key (Py.get paper "id" (VStr "")) = Ok k ->
  _parse_paper (VDict paper) = None
  /\ process_record (VDict paper) st = Ok st
  /\ (forall classify, process_record_with classify (VDict paper) st = Ok st).
Proof.
  intros Hparse Hkey.
  assert (Hnone : _parse_paper (VDict paper) = None)
    by (unfold _parse_paper; rewrite Hparse; reflexivity).
  assert (Hany : forall classify, process_record_with classify (VDict paper) st = Ok st).
  { intros classify. unfold process_record_with. cbn [Py.vget]. run_bind.
    rewrite Hkey. run_bind. rewrite Hnone.
    destruct (accepted_lookup k (all_results st)); reflexivity. }
  split; [exact Hnone|]. split; [apply Hany | exact Hany].
Qed.

Lemma parse_failure_skipped_witness :
  _parse_paper (VDict null_authorships_record) = None
  /\ process_record (VDict null_authorships_record) (start (init None))
     = Ok (start (init None))
  /\ (forall classify,
        process_record_with classify (VDict null_authorships_record)
                            (start (init None))
        = Ok (start (init None))).
Proof.
  apply (parse_failure_skipped null_authorships_record (start (init None))
           TypeError (KStr "W7")).
  - reflexivity.
  - reflexivity.
Defined.

(** ** The accepted map *)

Lemma accepted_lookup_none k (m : accepted) :
  accepted_lookup k m = None <-> ~ In k (map fst m).
Proof.
  induction m as [|[k' d] m IH]; cbn [accepted_lookup map fst In].
  - split; [intros _ [] | reflexivity].
  - destruct (decide (k = k')) as [-> | Hne].
    + split; [discriminate | intros H; exfalso; apply H; left; reflexivity].
    + rewrite IH. split.
      * intros H [Heq | Hin]; [congruence | exact (H Hin)].
      * intros H Hin. apply H. right. exact Hin.
Qed.

Lemma accepted_set_fresh k d (m : accepted) :
  accepted_lookup k m = None -> accepted_set k d m = m ++ [(k, d)].
Proof.
  induction m as [|[k' d'] m IH]; cbn [accepted_lookup accepted_set app]; [reflexivity|].
  destruct (decide (k = k')); [discriminate|]. intros H. rewrite (IH H). reflexivity.
Qed.

Lemma accepted_lookup_snoc k0 k d (m : accepted) :
  accepted_lookup k0 (m ++ [(k, d)])
  = match accepted_lookup k0 m with
    | Some x => Some x
    | None => if decide (k0 = k) then Some d else None
    end.
Proof.
  induction m as [|[k' d'] m IH]; cbn [accepted_lookup app]; [reflexivity|].
  destruct (decide (k0 = k')); [reflexivity | exact IH].
Qed.

Lemma lookup_set_eq k v (d : dict) : Py.lookup k (Py.set k v d) = Some v.
Proof.
  induction d as [|[k' v'] d IH]; cbn [Py.set Py.lookup].
  - rewrite String.eqb_refl. reflexivity.
  - destruct (String.eqb k k') eqn:Hk; cbn [Py.lookup]; rewrite Hk; [reflexivity | exact IH].
Qed.

Lemma lookup_set_ne k k' v (d : dict) :
  k <> k' -> Py.lookup k' (Py.set k v d) = Py.lookup k' d.
Proof.
  intros Hne. induction d as [|[k0 v0] d IH]; cbn [Py.set Py.lookup].
  - destruct (String.eqb_spec k' k); [congruence | reflexivity].
  - destruct (String.eqb_spec k k0) as [-> | Hk]; cbn [Py.lookup].
    + destruct (String.eqb_spec k' k0); [congruence | reflexivity].
    + destruct (String.eqb k' k0); [reflexivity | exact IH].
Qed.

(** The fields of a parsed record the driver reads. *)
Lemma parse_paper_fields (paper : dict) (paper_data : dict) :
  _parse_paper (VDict paper) = Some paper_data ->
  Py.lookup "title" paper_data = Some (Py.get paper "title" (VStr ""))
  /\ Py.lookup "openalex_id" paper_data = Some (Py.get paper "id" (VStr ""))
  /\ Py.lookup "assessment_tasks" paper_data = None.
Proof.
  unfold _parse_paper, parse_body.
  destruct (Py.iter _) as [authorships|]; run_bind; [|discriminate].
  destruct (collect_authors authorships) as [authors|]; run_bind; [|discriminate].
  destruct (Py.vget _ "source" _) as [src|]; run_bind; [|discriminate].
  destruct (reconstruct_abstract paper) as [abstract|]; run_bind; [|discriminate].
  destruct (Py.vjoin _ _) as [authors_str|]; run_bind; [|discriminate].
  destruct (if Py.truthy _ then _ else _) as [doi|]; run_bind; [|discriminate].
  destruct (Py.vget _ "display_name" _) as [journal|]; run_bind; [|discriminate].
  destruct (Py.vget _ "is_oa" _) as [is_oa|]; run_bind; [|discriminate].
  intros H. injection H as <-. repeat split; reflexivity.
Qed.

(** The verdict of the classifier does not depend on the searcher. *)
Lemma is_relevant_verdict paper self verdict self' other :
  is_relevant paper self = Ok (verdict, self') ->
  exists other', is_relevant paper other = Ok (verdict, other').
Proof.
  unfold is_relevant. destruct (paper_text paper) as [text|]; run_bind; [|discriminate].
  destruct (find _ EXCLUSION_STRICT) as [term|].
  - intros H. injection H as <- _. eexists. reflexivity.
  - destruct (negb (any_in NDT_METHODS_CORE text));
      [intros H; injection H as <- _; eexists; reflexivity|].
    destruct (negb (any_in STRUCTURAL_MATERIALS text));
      [intros H; injection H as <- _; eexists; reflexivity|].
    destruct (negb (any_in ALL_ASSESSMENT_TASKS text || any_in CIRCULAR_STRICT text));
      intros H; injection H as <- _; eexists; reflexivity.
Qed.

(** ** One record of a page *)

Lemma process_record_outcome paper st st' :
  process_record paper st = Ok st' -> outcome paper st st'.
Proof.
  unfold process_record, process_record_with.
  destruct paper as [| | | |l|raw]; cbn [Py.vget]; run_bind; try discriminate.
  destruct (hash_key (Py.get raw "id" (VStr ""))) as [k|] eqn:Hk; run_bind;
    [|discriminate].
  destruct (accepted_lookup k (all_results st)) eqn:Hl.
  { intros H. injection H as <-. apply Skipped. reflexivity. }
  destruct (_parse_paper (VDict raw)) as [paper_data|] eqn:Hp.
  2:{ intros H. injection H as <-. apply Skipped. reflexivity. }
  destruct (is_relevant paper_data (me st)) as [[[relevant reason] self']|] eqn:Hr;
    run_bind; [|discriminate].
  destruct relevant.
  - intros H. injection H as <-.
    destruct (is_relevant_accepts _ _ _ _ Hr) as [_ [_ [_ [_ [_ [_ [_ ->]]]]]]].
    apply (Accepted _ _ _ raw paper_data k reason); try assumption; try reflexivity.
    cbn [all_results with_all_results]. apply accepted_set_fresh, Hl.
  - destruct (Py.vtake 60 _) as [title|] eqn:Ht; run_bind; [|discriminate].
    intros H. injection H as <-.
    apply (Rejected _ _ _ raw paper_data k reason self' title);
      try assumption; reflexivity.
Qed.

(** A record whose identifier is already in the accepted map is skipped:
    nothing is parsed, classified or stored. *)
Lemma process_record_known (paper : dict) (st : run) k d :
  hash_key (Py.get paper "id" (VStr "")) = Ok k ->
  accepted_lookup k (all_results st) = Some d ->
  forall classify, process_record_with classify (VDict paper) st = Ok st.
Proof.
  intros Hk Hl classify. unfold process_record_with. cbn [Py.vget]. run_bind.
  rewrite Hk. run_bind. rewrite Hl. reflexivity.
Qed.

Lemma process_record_grows paper st st' :
  process_record paper st = Ok st' -> grows st st'.
Proof.
  intros H. apply process_record_outcome in H.
  destruct H as [-> | raw pd k reason Hraw Hk Hl Hp Hr Hall Hme Hreq
                    | raw pd k reason self' title Hraw Hk Hl Hp Hr Ht Hall Hme Hreq].
  - split; [intros k d Hd; exact Hd | auto].
  - split.
    + intros k0 d0 Hd. rewrite Hall, accepted_lookup_snoc, Hd. reflexivity.
    + intros [Hnodup Hst]. unfold sound. rewrite Hall. split.
      * rewrite map_app. cbn [map fst]. apply NoDup_app. split; [exact Hnodup|].
        split; [|apply NoDup_singleton].
        intros k' Hin Hk'. apply list_elem_of_In in Hin.
        apply list_elem_of_singleton in Hk'. subst k'.
        apply accepted_lookup_none in Hl. exact (Hl Hin).
      * apply Forall_app. split; [exact Hst|]. constructor; [|constructor].
        exists pd, reason, (me st). cbn [fst snd].
        split; [exact Hr|]. split; [reflexivity|].
        split; [apply lookup_set_eq|].
        subst paper. destruct (parse_paper_fields raw pd Hp) as [_ [Hid _]].
        unfold Py.get. rewrite lookup_set_ne by discriminate.
        rewrite Hid. exact Hk.
  - split.
    + intros k0 d0 Hd. rewrite Hall. exact Hd.
    + unfold sound. rewrite Hall. auto.
Qed.

Lemma is_relevant_frame paper self verdict self' :
  is_relevant paper self = Ok (verdict, self') ->
  results self' = results self /\ excluded self' = excluded self.
Proof.
  unfold is_relevant. destruct (paper_text paper) as [text|]; run_bind; [|discriminate].
  destruct (find _ EXCLUSION_STRICT) as [term|].
  - intros H. injection H as _ <-. split; reflexivity.
  - destruct (negb (any_in NDT_METHODS_CORE text));
      [intros H; injection H as _ <-; split; reflexivity|].
    destruct (negb (any_in STRUCTURAL_MATERIALS text));
      [intros H; injection H as _ <-; split; reflexivity|].
    destruct (negb (any_in ALL_ASSESSMENT_TASKS text || any_in CIRCULAR_STRICT text));
      intros H; injection H as _ <-; split; reflexivity.
Qed.

Lemma grows_refl st : grows st st.
Proof. split; [intros k d H; exact H | auto]. Qed.

Lemma grows_trans a b c : grows a b -> grows b c -> grows a c.
Proof.
  intros [Hk1 Hs1] [Hk2 Hs2]. split; [|auto].
  intros k d H. apply Hk2, Hk1, H.
Qed.

Lemma grows_sent st : grows st (sent st).
Proof. split; [intros k d H; exact H | auto]. Qed.

(** ** Pages and query terms *)

Section Lifting.

Variable api : nat -> dict -> response.

(** A relation between the states before and after a step that the loop
    body and the sending of a request respect. *)
Variable R : run -> run -> Prop.
Hypothesis R_refl : forall st, R st st.
Hypothesis R_trans : forall a b c, R a b -> R b c -> R a c.
Hypothesis R_sent : forall st, R st (sent st).
Hypothesis R_record :
  forall paper st st', process_record paper st = Ok st' -> R st st'.

Lemma process_records_lift papers st st' :
  process_records papers st = Ok st' -> R st st'.
Proof.
  revert st. induction papers as [|paper papers IH]; intros st; cbn [process_records].
  - intros H. injection H as <-. apply R_refl.
  - destruct (process_record paper st) as [st1|] eqn:H1; run_bind; [|discriminate].
    intros H. apply (R_trans _ st1); [apply R_record with paper, H1 | apply IH, H].
Qed.

Lemma fetch_pages_lift left params st st' :
  fetch_pages api left params st = Ok st' -> R st st'.
Proof.
  revert params st. induction left as [|left IH]; intros params st; cbn [fetch_pages].
  - intros H. injection H as <-. apply R_refl.
  - destruct (api (requests st) params) as [|data].
    { intros H. injection H as <-. apply R_sent. }
    destruct (Py.vget data "results" (VList [])) as [results|]; run_bind; [|discriminate].
    destruct (negb (Py.truthy results)).
    { intros H. injection H as <-. apply R_sent. }
    destruct (Py.iter results) as [papers|]; run_bind; [|discriminate].
    destruct (process_records papers (sent st)) as [st1|] eqn:H1; run_bind;
      [|discriminate].
    destruct (Py.vget data "meta" (VDict [])) as [meta|]; run_bind; [|discriminate].
    destruct (Py.vget meta "next_cursor" VNone) as [next_cursor|]; run_bind;
      [|discriminate].
    assert (Hst1 : R st st1).
    { apply (R_trans _ (sent st)); [apply R_sent | apply process_records_lift with papers, H1]. }
    destruct (negb (Py.truthy next_cursor)).
    + intros H. injection H as <-. exact Hst1.
    + intros H. apply (R_trans _ st1); [exact Hst1 | apply IH in H; exact H].
Qed.

Lemma search_loop_lift terms start_year end_year max_pages st st' :
  search_loop api terms start_year end_year max_pages st = Ok st' -> R st st'.
Proof.
  revert st. induction terms as [|term terms IH]; intros st; cbn [search_loop].
  - intros H. injection H as <-. apply R_refl.
  - destruct (fetch_pages api _ _ st) as [st1|] eqn:H1; run_bind; [|discriminate].
    intros H. apply (R_trans _ st1); [apply fetch_pages_lift in H1; exact H1 | apply IH, H].
Qed.

End Lifting.

Lemma search_loop_grows api terms start_year end_year max_pages st st' :
  search_loop api terms start_year end_year max_pages st = Ok st' -> grows st st'.
Proof.
  apply (search_loop_lift api grows grows_refl grows_trans grows_sent
           process_record_grows).
Qed.

Lemma start_sound self : sound (start self).
Proof. split; [apply NoDup_nil_2 | constructor]. Qed.

Lemma stamped_source_keys (m : accepted) :
  Forall stamped m -> NoDup (map fst m) -> NoDup (map source_key (map snd m)).
Proof.
  induction m as [|[k d] m IH]; intros Hst Hnd; cbn [map fst snd].
  - apply NoDup_nil_2.
  - inversion Hst as [|? ? Hk Hm]; subst. cbn [map fst] in Hnd.
    apply NoDup_cons in Hnd as [Hnotin Hnd]. apply NoDup_cons. split; [|auto].
    intros Hin. apply Hnotin.
    destruct Hk as [pd [reason [self [_ [_ [_ Hkey]]]]]]. cbn [fst snd] in Hkey.
    unfold source_key at 1 in Hin. rewrite Hkey in Hin.
    clear -Hin Hm. induction Hm as [|[k' d'] m Hk' _ IHm]; cbn [map fst snd] in *.
    + apply elem_of_nil in Hin. destruct Hin.
    + apply elem_of_cons in Hin as [Heq | Hin].
      * destruct Hk' as [pd' [reason' [self' [_ [_ [_ Hkey']]]]]].
        cbn [fst snd] in Hkey'.
        unfold source_key in Heq. rewrite Hkey' in Heq. injection Heq as Heq.
        apply elem_of_cons. left. exact Heq.
      * apply elem_of_cons. right. exact (IHm Hin).
Qed.

(** ** The whole search *)

(** C4: the accepted map never holds a source identifier twice.  After
    any search that returns, the keys of the map are pairwise distinct,
    the list returned has one paper per key, with pairwise distinct
    source identifiers, and each paper carries as its assessment tasks
    the reason the classifier gave when it accepted it.  An entry, once
    stored, is the same after all later query terms, because a record
    whose identifier is in the map is skipped before it is parsed or
    classified.  With one identifier answered under the first query term
    by a geometry paper and under the second by a strength paper, the
    result is the single geometry entry; with the answers swapped it is
    the single strength entry. *)
Theorem accepted_once :
  (forall api self start_year end_year max_pages st,
      search_run api self start_year end_year max_pages = Ok st ->
      NoDup (map fst (all_results st)) /\ Forall stamped (all_results st))
  /\ (forall api self start_year end_year max_pages papers self',
        search api self start_year end_year max_pages = Ok (papers, self') ->
        results self' = papers /\ NoDup (map source_key papers))
  /\ (forall api terms start_year end_year max_pages st st',
        search_loop api terms start_year end_year max_pages st = Ok st' ->
        keeps st st')
  /\ (forall paper st k d,
        hash_key (Py.get paper "id" (VStr "")) = Ok k ->
        accepted_lookup k (all_results st) = Some d ->
        process_record (VDict paper) st = Ok st)
  /\ (exists geometry_data strength_data,
        _parse_paper geometry_record = Some geometry_data
        /\ _parse_paper strength_record = Some strength_data
        /\ source_key geometry_data = source_key strength_data
        /\ is_relevant geometry_data (init None)
           = Ok ((true, "Tasks: geometry"), init None)
        /\ is_relevant strength_data (init None)
           = Ok ((true, "Tasks: strength"), init None)
        /\ search (api_twice geometry_record strength_record) (init None) 2014 2024 1
           = Ok ([Py.set "assessment_tasks" (VStr "Tasks: geometry") geometry_data],
                 with_results
                   [Py.set "assessment_tasks" (VStr "Tasks: geometry") geometry_data]
                   (init None))
        /\ search (api_twice strength_record geometry_record) (init None) 2014 2024 1
           = Ok ([Py.set "assessment_tasks" (VStr "Tasks: strength") strength_data],
                 with_results
                   [Py.set "assessment_tasks" (VStr "Tasks: strength") strength_data]
                   (init None))).
Proof.
  assert (Hsound : forall api self start_year end_year max_pages st,
             search_run api self start_year end_year max_pages = Ok st -> sound st).
  { intros api self sy ey mp st H. unfold search_run in H.
    apply search_loop_grows in H. destruct H as [_ Hs]. apply Hs, start_sound. }
  split; [exact Hsound|]. split; [|split; [|split]].
  - intros api self sy ey mp papers self'. unfold search.
    destruct (search_run api self sy ey mp) as [st|] eqn:Hrun; run_bind; [|discriminate].
    intros H. injection H as <- <-. split; [reflexivity|].
    destruct (Hsound _ _ _ _ _ _ Hrun) as [Hnd Hst].
    apply stamped_source_keys; assumption.
  - intros api terms sy ey mp st st' H. apply search_loop_grows in H. apply H.
  - intros paper st k d Hk Hl. exact (process_record_known paper st k d Hk Hl is_relevant).
  - eexists. eexists.
    split; [vm_compute; reflexivity|].
    split; [vm_compute; reflexivity|].
    repeat split; vm_compute; reflexivity.
Qed.

Lemma accepted_once_witness :
  exists st,
    search_run (api_twice geometry_record strength_record) (init None) 2014 2024 1
    = Ok st
    /\ length (all_results st) = 1%nat
    /\ NoDup (map fst (all_results st)) /\ Forall stamped (all_results st).
Proof.
  eexists. split; [vm_compute; reflexivity|]. split; [reflexivity|].
  apply (proj1 accepted_once (api_twice geometry_record strength_record)
           (init None) 2014 2024 1).
  vm_compute. reflexivity.
Defined.

(** C9: only accepted identifiers are remembered.  A record that the
    classifier rejected is parsed and classified again when it comes
    back, and is logged a second time; so there are runs in which one
    identifier has several entries in the exclusion log and is counted
    several times in the counter of its exclusion term, in
    records_identified and in excluded_count: answering the first two
    query terms with the same aircraft paper gives two log entries, a
    counter of 2 for "aircraft", and records_identified =
    excluded_count = 2 with no accepted paper. *)
Theorem rejection_not_remembered :
  (forall paper st st1 r,
      process_record paper st = Ok st1 ->
      excluded (me st1) = excluded (me st) ++ [r] ->
      all_results st1 = all_results st
      /\ exists st2,
          process_record paper st1 = Ok st2
          /\ all_results st2 = all_results st
          /\ excluded (me st2) = excluded (me st) ++ [r; r])
  /\ (exists self',
        search (api_twice aircraft_record aircraft_record) (init None) 2014 2024 1
        = Ok ([], self')
        /\ excluded self'
           = [[("title", VStr "Ultrasonic testing of aircraft composite panels");
               ("reason", VStr "Excluded: aircraft")];
              [("title", VStr "Ultrasonic testing of aircraft composite panels");
               ("reason", VStr "Excluded: aircraft")]]
        /\ exclusion_stats self' !! "aircraft" = Some 2%nat
        /\ records_identified (generate_prisma_stats self') = 2%nat
        /\ excluded_count (generate_prisma_stats self') = 2%nat
        /\ records_after_filtering (generate_prisma_stats self') = 0%nat).
Proof.
  split.
  - intros paper st st1 r Hrun Hlog.
    assert (Hlen : forall (l : list dict), l <> l ++ [r]).
    { intros l Hl. apply (f_equal (@length dict)) in Hl.
      rewrite length_app in Hl. cbn [length] in Hl. lia. }
    destruct (process_record_outcome _ _ _ Hrun)
      as [-> | raw pd k reason Hraw Hk Hl Hp Hr Hall Hme Hreq
             | raw pd k reason self' title Hraw Hk Hl Hp Hr Ht Hall Hme Hreq].
    + exfalso. exact (Hlen _ Hlog).
    + exfalso. rewrite Hme in Hlog. exact (Hlen _ Hlog).
    + destruct (is_relevant_frame _ _ _ _ Hr) as [_ Hex].
      rewrite Hme in Hlog. cbn [excluded with_excluded] in Hlog.
      rewrite Hex in Hlog. apply app_inv_head in Hlog. injection Hlog as <-.
      split; [exact Hall|].
      destruct (is_relevant_verdict _ _ _ _ (me st1) Hr) as [other Hr1].
      destruct (is_relevant_frame _ _ _ _ Hr1) as [_ Hex1].
      eexists. split; [|split].
      * unfold process_record, process_record_with. subst paper.
        cbn [Py.vget]. run_bind. rewrite Hk. run_bind. rewrite Hall, Hl, Hp, Hr1.
        run_bind. rewrite Ht. run_bind. reflexivity.
      * cbn [all_results with_me]. exact Hall.
      * cbn [me with_me excluded with_excluded]. rewrite Hex1, Hme.
        cbn [excluded with_excluded]. rewrite Hex, <- app_assoc. reflexivity.
  - eexists. split; [vm_compute; reflexivity|].
    repeat split; vm_compute; reflexivity.
Qed.

Lemma rejection_not_remembered_witness :
  all_results (start (count_exclusion "aircraft"
                 (with_excluded
                    [[("title", VStr "Ultrasonic testing of aircraft composite panels");
                      ("reason", VStr "Excluded: aircraft")]] (init None))))
  = all_results (start (init None))
  /\ exists st2,
      process_record aircraft_record
        (start (count_exclusion "aircraft"
                  (with_excluded
                     [[("title", VStr "Ultrasonic testing of aircraft composite panels");
                       ("reason", VStr "Excluded: aircraft")]] (init None))))
      = Ok st2
      /\ all_results st2 = all_results (start (init None))
      /\ excluded (me st2)
         = excluded (me (start (init None)))
           ++ [[("title", VStr "Ultrasonic testing of aircraft composite panels");
                ("reason", VStr "Excluded: aircraft")];
               [("title", VStr "Ultrasonic testing of aircraft composite panels");
                ("reason", VStr "Excluded: aircraft")]].
Proof.
  apply (proj1 rejection_not_remembered aircraft_record (start (init None))).
  - vm_compute. reflexivity.
  - reflexivity.
Defined.

(** ** BibTeX export *)

Lemma filter_append p (a b : string) :
  Str.filter p (a +:+ b) = Str.filter p a +:+ Str.filter p b.
Proof.
  induction a as [|c a IH]; [reflexivity|].
  simpl. rewrite IH. destruct (p c); reflexivity.
Qed.

Lemma filter_all p (s : string) :
  Forall (fun c => p c = true) (list_ascii_of_string (Str.filter p s)).
Proof.
  induction s as [|c s IH]; cbn [Str.filter]; [constructor|].
  destruct (p c) eqn:Hc; [|exact IH]. cbn [list_ascii_of_string]. constructor; assumption.
Qed.

Lemma pretty_N_go_kept (x : N) (s : string) :
  Str.filter kept s = s -> Str.filter kept (pretty_N_go x s) = pretty_N_go x s.
Proof.
  revert s. induction (N.lt_wf_0 x) as [x _ IH]; intros s Hs.
  assert (x = 0 \/ 0 < x)%N as [-> | Hx] by lia.
  - rewrite pretty_N_go_0. exact Hs.
  - rewrite pretty_N_go_step by exact Hx. apply IH.
    + apply N.div_lt; [exact Hx | reflexivity].
    + assert (Hd : forall d, kept (pretty_N_char d) = true)
        by (intros d; unfold pretty_N_char; repeat case_match; reflexivity).
      cbn [Str.filter]. rewrite Hd, Hs. reflexivity.
Qed.

(** The index of a key is written in digits, which the filter keeps. *)
Lemma pretty_nat_kept (i : nat) : Str.filter kept (pretty i) = pretty i.
Proof.
  unfold pretty, pretty_nat, pretty, pretty_N.
  destruct (decide (N.of_nat i = 0%N)); [reflexivity|].
  apply pretty_N_go_kept. reflexivity.
Qed.

Lemma cite_key_parts surname year i :
  cite_key surname year i
  = Str.filter kept surname +:+ Str.filter kept (Fmt.str year) +:+ "_" +:+ pretty i.
Proof.
  change (cite_key surname year i)
    with (Str.filter kept (surname +:+ Fmt.str year +:+ "_" +:+ pretty i)).
  rewrite !filter_append, pretty_nat_kept. reflexivity.
Qed.

Lemma replace_open_brace (s : string) :
  Str.replace "{" "\{" s
  = (fix go (s : string) : string :=
       match s with
       | EmptyString => EmptyString
       | String c r =>
           if Ascii.eqb c "{" then String "\" (String "{" (go r)) else String c (go r)
       end) s.
Proof.
  unfold Str.replace. induction s as [|c s IH]; [reflexivity|].
  cbn [Str.replace_aux Str.starts_with String.length Nat.sub].
  rewrite IH. rewrite Ascii.eqb_sym. destruct (Ascii.eqb c "{"); reflexivity.
Qed.

Lemma replace_close_brace (s : string) :
  Str.replace "}" "\}" s
  = (fix go (s : string) : string :=
       match s with
       | EmptyString => EmptyString
       | String c r =>
           if Ascii.eqb c "}" then String "\" (String "}" (go r)) else String c (go r)
       end) s.
Proof.
  unfold Str.replace. induction s as [|c s IH]; [reflexivity|].
  cbn [Str.replace_aux Str.starts_with String.length Nat.sub].
  rewrite IH. rewrite Ascii.eqb_sym. destruct (Ascii.eqb c "}"); reflexivity.
Qed.

(** Line 441 escapes every brace of the title, and nothing else. *)
Lemma escape_title_spec (title : string) :
  escape_title (VStr title) = Ok (escape_braces title).
Proof.
  unfold escape_title. cbn [Py.vreplace]. run_bind. f_equal.
  rewrite replace_open_brace, replace_close_brace.
  induction title as [|c title IH]; [reflexivity|].
  cbn [escape_braces].
  destruct (Ascii.eqb_spec c "{") as [-> | Hopen].
  - cbn [Ascii.eqb Bool.eqb andb]. rewrite IH. reflexivity.
  - destruct (Ascii.eqb_spec c "}") as [-> | Hclose].
    + rewrite IH. reflexivity.
    + destruct (Ascii.eqb_spec c "}"); [congruence|]. rewrite IH. reflexivity.
Qed.

Lemma append_empty (s : string) : s +:+ "" = s.
Proof.
  induction s as [|c s IH]; [reflexivity|].
  change (String c s +:+ "") with (String c (s +:+ "")). rewrite IH. reflexivity.
Qed.

Lemma append_assoc (a b c : string) : (a +:+ b) +:+ c = a +:+ b +:+ c.
Proof.
  induction a as [|x a IH]; [reflexivity|].
  change (String x ((a +:+ b) +:+ c) = String x (a +:+ b +:+ c)).
  rewrite IH. reflexivity.
Qed.

Lemma string_of_list_append (l1 l2 : list ascii) :
  string_of_list_ascii (l1 ++ l2)
  = string_of_list_ascii l1 +:+ string_of_list_ascii l2.
Proof.
  induction l1 as [|x l1 IH]; [reflexivity|].
  change (String x (string_of_list_ascii (l1 ++ l2))
          = String x (string_of_list_ascii l1 +:+ string_of_list_ascii l2)).
  rewrite IH. reflexivity.
Qed.

(** [s.split(sep)[0]] is what precedes the first separator. *)
Lemma split_on_first sep (s : string) :
  exists first rest,
    Str.split_on sep s = first :: rest /\ first_field sep s first.
Proof.
  induction s as [|c s [first [rest [Hs [Hno Hform]]]]]; cbn [Str.split_on].
  - exists "", []. split; [reflexivity|]. split; [intros []|]. left. reflexivity.
  - destruct (Ascii.eqb_spec c sep) as [-> | Hne].
    + exists "", (first :: rest). rewrite Hs. split; [reflexivity|].
      split; [intros []|]. right. exists s. reflexivity.
    + rewrite Hs. exists (String c first), rest. split; [reflexivity|]. split.
      * cbn [list_ascii_of_string]. intros [Heq | Hin]; [congruence | exact (Hno Hin)].
      * destruct Hform as [-> | [r ->]]; [left; reflexivity|].
        right. exists r. reflexivity.
Qed.

Lemma split_ws_aux_none (s : string) :
  forall cur, last (Str.split_ws_aux cur s) = None ->
    cur = [] /\ Forall (fun c => Str.isspace c = true) (list_ascii_of_string s).
Proof.
  induction s as [|c s IH]; intros cur; cbn [Str.split_ws_aux list_ascii_of_string].
  - destruct cur; [split; [reflexivity | constructor] | discriminate].
  - destruct (Str.isspace c) eqn:Hc.
    + rewrite last_app. destruct (last (Str.split_ws_aux [] s)) eqn:Hl; [discriminate|].
      destruct (IH [] Hl) as [_ Hall].
      destruct cur; [|discriminate]. intros _. split; [reflexivity|].
      constructor; assumption.
    + intros H. destruct (IH _ H) as [Hnil _]. discriminate Hnil.
Qed.

(** [s.split()[-1]] is the last run of non-space characters. *)
Lemma split_ws_aux_last (s : string) :
  forall cur token,
    Forall (fun c => Str.isspace c = false) cur ->
    last (Str.split_ws_aux cur s) = Some token ->
    last_token (string_of_list_ascii (rev cur) +:+ s) token.
Proof.
  induction s as [|c s IH]; intros cur token Hcur; cbn [Str.split_ws_aux].
  - destruct cur as [|a cur]; [discriminate|]. intros H. injection H as <-.
    split; [|split].
    + intros Hempty. apply (f_equal list_ascii_of_string) in Hempty.
      rewrite list_ascii_of_string_of_list_ascii in Hempty. cbn [rev] in Hempty.
      destruct (rev cur); discriminate.
    + rewrite list_ascii_of_string_of_list_ascii. exact (List.Forall_rev Hcur).
    + exists "", "". split; [reflexivity|]. split; [constructor | left; reflexivity].
  - destruct (Str.isspace c) eqn:Hc.
    + rewrite last_app. destruct (last (Str.split_ws_aux [] s)) as [t|] eqn:Hl.
      * intros H. injection H as ->.
        destruct (IH [] token (List.Forall_nil _) Hl) as [Hne [Hns [b [a [Hs [Ha Hb]]]]]].
        change (string_of_list_ascii (rev []) +:+ s) with s in Hs.
        split; [exact Hne|]. split; [exact Hns|].
        exists (string_of_list_ascii (rev cur) +:+ String c b), a.
        split; [rewrite Hs, append_assoc; reflexivity|]. split; [exact Ha|]. right.
        destruct Hb as [-> | [b' [c' [-> Hc']]]].
        -- exists (string_of_list_ascii (rev cur)), c. split; [reflexivity | exact Hc].
        -- exists (string_of_list_ascii (rev cur) +:+ String c b'), c'.
           split; [|exact Hc']. rewrite append_assoc. reflexivity.
      * destruct (split_ws_aux_none s [] Hl) as [_ Hall].
        destruct cur as [|a cur]; [discriminate|]. intros H. injection H as <-.
        split; [|split].
        -- intros Hempty. apply (f_equal list_ascii_of_string) in Hempty.
           rewrite list_ascii_of_string_of_list_ascii in Hempty. cbn [rev] in Hempty.
           destruct (rev cur); discriminate.
        -- rewrite list_ascii_of_string_of_list_ascii. exact (List.Forall_rev Hcur).
        -- exists "", (String c s). split; [reflexivity|].
           split; [constructor; assumption | left; reflexivity].
    + intros H.
      assert (Hcur' : Forall (fun c => Str.isspace c = false) (c :: cur))
        by (constructor; assumption).
      pose proof (IH (c :: cur) token Hcur' H) as Hlast.
      cbn [rev] in Hlast. rewrite string_of_list_append, append_assoc in Hlast.
      exact Hlast.
Qed.

(** The surname of a non-empty author string: the last token of what
    precedes the first semicolon. *)
Lemma surname_of_spec (authors surname : string) :
  surname_of authors = Some surname ->
  (authors = "" /\ surname = "Unknown")
  \/ exists first, first_field ";" authors first /\ last_token first surname.
Proof.
  unfold surname_of. destruct (String.eqb_spec authors "") as [-> | Hne].
  - intros H. injection H as <-. left. split; reflexivity.
  - intros H. right.
    destruct (split_on_first ";" authors) as [first [rest [Hs Hfirst]]].
    rewrite Hs in H. cbn [List.hd] in H. exists first. split; [exact Hfirst|].
    exact (split_ws_aux_last first [] surname (List.Forall_nil _) H).
Qed.

Lemma first_author_spec (authors surname : string) :
  surname_of authors = Some surname -> first_author (VStr authors) = Ok surname.
Proof.
  unfold surname_of, first_author. cbn [Py.truthy].
  destruct (String.eqb authors ""); cbn [negb].
  - intros H. injection H as <-. reflexivity.
  - intros ->. reflexivity.
Qed.

Lemma bibtex_entry_head i paper entry :
  bibtex_entry i paper = Ok entry -> Str.starts_with "@article{" entry = true.
Proof.
  unfold bibtex_entry.
  destruct (item paper "authors") as [authors|]; run_bind; [|discriminate].
  destruct (first_author authors) as [surname|]; run_bind; [|discriminate].
  destruct (item paper "year") as [year|]; run_bind; [|discriminate].
  destruct (item paper "title") as [raw_title|]; run_bind; [|discriminate].
  destruct (escape_title raw_title) as [title|]; run_bind; [|discriminate].
  destruct (item paper "journal") as [journal|]; run_bind; [|discriminate].
  destruct (item paper "doi") as [doi|]; run_bind; [|discriminate].
  intros H. injection H as <-. reflexivity.
Qed.

Lemma bibtex_entries_spec (papers : list dict) :
  forall (i : nat) (entries : list string),
    bibtex_entries i papers = Ok entries ->
    length entries = length papers
    /\ forall n paper,
        papers !! n = Some paper ->
        exists entry, entries !! n = Some entry
                      /\ bibtex_entry (i + n) paper = Ok entry.
Proof.
  induction papers as [|paper papers IH]; intros i entries; cbn [bibtex_entries].
  - intros H. injection H as <-. split; [reflexivity|]. intros n p Hn. discriminate Hn.
  - destruct (bibtex_entry i paper) as [entry|] eqn:He; run_bind; [|discriminate].
    destruct (bibtex_entries (S i) papers) as [rest|] eqn:Hr; run_bind; [|discriminate].
    intros H. injection H as <-. destruct (IH _ _ Hr) as [Hlen Hnth].
    split; [cbn [length]; rewrite Hlen; reflexivity|].
    intros [|n] p Hn.
    + injection Hn as <-. exists entry. split; [reflexivity|].
      rewrite Nat.add_0_r. exact He.
    + destruct (Hnth n p Hn) as [e [He1 He2]]. exists e. split; [exact He1|].
      rewrite <- He2. f_equal. lia.
Qed.

(** What keeps line 438 or line 441 from producing an entry. *)
Lemma bibtex_entry_raises :
  bibtex_entry 0 [("title", VStr "T"); ("authors", VStr " ; Al Bo"); ("year", VInt 2020);
                  ("doi", VStr ""); ("journal", VStr "")]
  = Raise IndexError
  /\ bibtex_entry 0 [("title", VNone); ("authors", VStr "Al Bo"); ("year", VInt 2020);
                     ("doi", VStr ""); ("journal", VStr "")]
     = Raise AttributeError.
Proof. split; vm_compute; reflexivity. Qed.

(** C8 as stated fails: the filter of line 440 keeps underscores, so a
    surname with an underscore keeps it in the key, which then is not
    the key with every non-alphanumeric character stripped. *)
Lemma cite_key_counterexample :
  search (api_once underscore_record) (init None) 2014 2024 1
  = Ok ([underscore_paper], with_results [underscore_paper] (init None))
  /\ export_to_bibtex (with_results [underscore_paper] (init None)) "references.bib"
     = Ok ("references.bib",
           Some (entry_text "O_Neil2020_0"
                   "Impact echo crack detection in \{RC\} concrete bridge beams"
                   "Jo O_Neil; Al Bo" "2020" "" ""))
  /\ surname_of "Jo O_Neil; Al Bo" = Some "O_Neil"
  /\ cite_key "O_Neil" (VInt 2020) 0 = "O_Neil2020_0"
  /\ cite_key_as_specified "O_Neil" (VInt 2020) 0 = "ONeil2020_0"
  /\ Str.isalnum "_" = false
  /\ Str.filter Str.isalnum "O_Neil2020_0" = "ONeil20200".
Proof. repeat split; vm_compute; reflexivity. Qed.

(** C8, amended: for a paper at index i whose title is a string and
    whose first author has a surname (Unknown for an empty author
    string, otherwise the last white-space separated token of what
    precedes the first semicolon), the entry is an @article entry whose
    citation key is <surname><year>_<i> with every character other than
    letters, digits and underscores removed, and whose title has each
    brace escaped by a backslash; and the file written holds one entry
    per paper of the results list, in order, separated by blank lines. *)
Theorem bibtex_entry_format :
  (forall (i : nat) (paper : dict) (authors title surname : string)
          (year journal doi : value),
      Py.lookup "authors" paper = Some (VStr authors) ->
      Py.lookup "year" paper = Some year ->
      Py.lookup "title" paper = Some (VStr title) ->
      Py.lookup "journal" paper = Some journal ->
      Py.lookup "doi" paper = Some doi ->
      surname_of authors = Some surname ->
      bibtex_entry i paper
      = Ok (entry_text (cite_key surname year i) (escape_braces title) authors
                       (Fmt.str year) (Fmt.str journal) (Fmt.str doi))
      /\ cite_key surname year i
         = Str.filter kept surname +:+ Str.filter kept (Fmt.str year)
           +:+ "_" +:+ pretty i
      /\ Forall (fun c => kept c = true)
                (list_ascii_of_string (cite_key surname year i))
      /\ ((authors = "" /\ surname = "Unknown")
          \/ exists first,
              first_field ";" authors first /\ last_token first surname))
  /\ (forall (self : searcher) (filename returned content : string),
        export_to_bibtex self filename = Ok (returned, Some content) ->
        returned = filename
        /\ exists entries,
            content = Str.join (newline +:+ newline) entries
            /\ length entries = length (results self)
            /\ forall i paper,
                results self !! i = Some paper ->
                exists entry,
                  entries !! i = Some entry
                  /\ bibtex_entry i paper = Ok entry
                  /\ Str.starts_with "@article{" entry = true).
Proof.
  split.
  - intros i paper authors title surname year journal doi Ha Hy Ht Hj Hd Hs.
    split; [|split; [|split]].
    + unfold bibtex_entry, item. rewrite Ha, Hy, Ht, Hj, Hd. run_bind.
      rewrite (first_author_spec authors surname Hs). run_bind.
      rewrite escape_title_spec. run_bind. reflexivity.
    + apply cite_key_parts.
    + apply filter_all.
    + apply surname_of_spec, Hs.
  - intros self filename returned content. unfold export_to_bibtex.
    destruct (results self) as [|paper papers] eqn:Hres; [discriminate|].
    destruct (bibtex_entries 0 (paper :: papers)) as [entries|] eqn:He; run_bind;
      [|discriminate].
    intros H. injection H as <- <-. split; [reflexivity|].
    destruct (bibtex_entries_spec _ _ _ He) as [Hlen Hnth].
    exists entries. split; [reflexivity|]. split; [exact Hlen|].
    intros i p Hp. destruct (Hnth i p Hp) as [entry [H1 H2]].
    exists entry. split; [exact H1|]. split; [exact H2|].
    exact (bibtex_entry_head _ _ _ H2).
Qed.

Lemma bibtex_entry_format_witness :
  bibtex_entry 4 underscore_paper
  = Ok (entry_text (cite_key "O_Neil" (VInt 2020) 4)
          (escape_braces "Impact echo crack detection in {RC} concrete bridge beams")
          "Jo O_Neil; Al Bo" (Fmt.str (VInt 2020)) (Fmt.str (VStr "")) (Fmt.str (VStr "")))
  /\ cite_key "O_Neil" (VInt 2020) 4
     = Str.filter kept "O_Neil" +:+ Str.filter kept (Fmt.str (VInt 2020))
       +:+ "_" +:+ pretty 4%nat
  /\ Forall (fun c => kept c = true)
            (list_ascii_of_string (cite_key "O_Neil" (VInt 2020) 4))
  /\ (("Jo O_Neil; Al Bo" = "" /\ "O_Neil" = "Unknown")
      \/ exists first,
          first_field ";" "Jo O_Neil; Al Bo" first /\ last_token first "O_Neil").
Proof.
  apply (proj1 bibtex_entry_format 4%nat underscore_paper); reflexivity.
Defined.

(** * Further properties *)

(** ** More on the classifier *)

Lemma lowercase_append l1 l2 : lowercase l1 -> lowercase l2 -> lowercase (l1 ++ l2).
Proof. intros H1 H2. apply Forall_app. split; assumption. Qed.

Lemma ALL_ASSESSMENT_TASKS_lowercase : lowercase ALL_ASSESSMENT_TASKS.
Proof.
  unfold ALL_ASSESSMENT_TASKS.
  repeat apply lowercase_append; auto with taxonomy.
Qed.

(** X1: a paper is accepted exactly when its text has no exclusion
    keyword, an NDT-method keyword, a structural-material keyword, and
    an assessment-task or circular-economy keyword. *)
Theorem accepted_iff_all_stages (paper : dict) (self : searcher) (text : string) :
  paper_text paper = Ok text ->
  (exists reason self', is_relevant paper self = Ok ((true, reason), self'))
  <-> (~ mentions EXCLUSION_STRICT text
       /\ mentions NDT_METHODS_CORE text
       /\ mentions STRUCTURAL_MATERIALS text
       /\ (mentions ALL_ASSESSMENT_TASKS text \/ mentions CIRCULAR_STRICT text)).
Proof.
  intros Ht. split.
  - intros [reason [self' H]].
    destruct (is_relevant_accepts _ _ _ _ H) as [text' [Ht' [Hx [Hn [Hm [Hg _]]]]]].
    rewrite Ht in Ht'. injection Ht' as <-.
    split; [exact Hx|].
    split; [apply any_in_true; auto with taxonomy|].
    split; [apply any_in_true; auto with taxonomy|].
    apply orb_true_iff in Hg as [Hg | Hg].
    + left. apply any_in_true; [exact ALL_ASSESSMENT_TASKS_lowercase | exact Hg].
    + right. apply any_in_true; auto with taxonomy.
  - intros [Hx [Hn [Hm Hg]]].
    apply any_in_true in Hn; [|auto with taxonomy].
    apply any_in_true in Hm; [|auto with taxonomy].
    assert (Hg' : any_in ALL_ASSESSMENT_TASKS text || any_in CIRCULAR_STRICT text = true).
    { apply orb_true_iff. destruct Hg as [Hg | Hg]; [left | right].
      - apply any_in_true; [exact ALL_ASSESSMENT_TASKS_lowercase | exact Hg].
      - apply any_in_true; auto with taxonomy. }
    unfold is_relevant. rewrite Ht. run_bind.
    rewrite (no_exclusion_found text Hx), Hn, Hm, Hg'. cbn [negb].
    eexists. eexists. reflexivity.
Qed.

Lemma accepted_iff_all_stages_witness :
  (exists reason self', is_relevant radar_paper (init None) = Ok ((true, reason), self'))
  <-> (~ mentions EXCLUSION_STRICT
           "ground penetrating radar for rebar detection in reinforced concrete the compressive strength is estimated as well."
       /\ mentions NDT_METHODS_CORE
            "ground penetrating radar for rebar detection in reinforced concrete the compressive strength is estimated as well."
       /\ mentions STRUCTURAL_MATERIALS
            "ground penetrating radar for rebar detection in reinforced concrete the compressive strength is estimated as well."
       /\ (mentions ALL_ASSESSMENT_TASKS
             "ground penetrating radar for rebar detection in reinforced concrete the compressive strength is estimated as well."
           \/ mentions CIRCULAR_STRICT
                "ground penetrating radar for rebar detection in reinforced concrete the compressive strength is estimated as well.")).
Proof.
  apply (accepted_iff_all_stages radar_paper (init None)). reflexivity.
Defined.

(** X2: with no exclusion keyword and an NDT-method keyword in the
    text, a paper without structural-material keyword is rejected with
    "No structural material", and one with such a keyword but neither an
    assessment-task nor a circular-economy keyword is rejected with "No
    assessment task or circular context"; the searcher is unchanged. *)
Theorem later_stage_rejections (paper : dict) (self : searcher) (text : string) :
  paper_text paper = Ok text ->
  ~ mentions EXCLUSION_STRICT text ->
  mentions NDT_METHODS_CORE text ->
  (~ mentions STRUCTURAL_MATERIALS text ->
   is_relevant paper self = Ok ((false, "No structural material"), self))
  /\ (mentions STRUCTURAL_MATERIALS text ->
      ~ mentions ALL_ASSESSMENT_TASKS text ->
      ~ mentions CIRCULAR_STRICT text ->
      is_relevant paper self
      = Ok ((false, "No assessment task or circular context"), self)).
Proof.
  intros Ht Hx Hn.
  apply any_in_true in Hn; [|auto with taxonomy].
  split.
  - intros Hm. apply any_in_false in Hm; [|auto with taxonomy].
    unfold is_relevant. rewrite Ht. run_bind.
    rewrite (no_exclusion_found text Hx), Hn, Hm. reflexivity.
  - intros Hm Hg Hc.
    apply any_in_true in Hm; [|auto with taxonomy].
    apply any_in_false in Hg; [|exact ALL_ASSESSMENT_TASKS_lowercase].
    apply any_in_false in Hc; [|auto with taxonomy].
    unfold is_relevant. rewrite Ht. run_bind.
    rewrite (no_exclusion_found text Hx), Hn, Hm, Hg, Hc. reflexivity.
Qed.

Lemma later_stage_rejections_witness :
  ((~ mentions STRUCTURAL_MATERIALS "crack detection by impact echo " ->
    is_relevant no_material_paper (init None)
    = Ok ((false, "No structural material"), init None))
   /\ (mentions STRUCTURAL_MATERIALS "crack detection by impact echo " ->
       ~ mentions ALL_ASSESSMENT_TASKS "crack detection by impact echo " ->
       ~ mentions CIRCULAR_STRICT "crack detection by impact echo " ->
       is_relevant no_material_paper (init None)
       = Ok ((false, "No assessment task or circular context"), init None)))
  /\ is_relevant no_task_paper (init None)
     = Ok ((false, "No assessment task or circular context"), init None).
Proof.
  split.
  - apply (later_stage_rejections no_material_paper (init None)).
    + reflexivity.
    + apply any_in_false; [auto with taxonomy | vm_compute; reflexivity].
    + apply any_in_true; [auto with taxonomy | vm_compute; reflexivity].
  - apply (later_stage_rejections no_task_paper (init None)
             "impact echo on a concrete bridge ").
    + reflexivity.
    + apply any_in_false; [auto with taxonomy | vm_compute; reflexivity].
    + apply any_in_true; [auto with taxonomy | vm_compute; reflexivity].
    + apply any_in_true; [auto with taxonomy | vm_compute; reflexivity].
    + apply any_in_false; [exact ALL_ASSESSMENT_TASKS_lowercase | vm_compute; reflexivity].
    + apply any_in_false; [auto with taxonomy | vm_compute; reflexivity].
Defined.

Lemma find_first {A} (f : A -> bool) (l : list A) (x : A) :
  find f l = Some x ->
  exists before after,
    l = before ++ x :: after /\ f x = true /\ forall y, In y before -> f y = false.
Proof.
  induction l as [|a l IH]; cbn [find]; [discriminate|].
  destruct (f a) eqn:Ha.
  - intros H. injection H as <-. exists [], l. split; [reflexivity|].
    split; [exact Ha | intros y []].
  - intros H. destruct (IH H) as [before [after [-> [Hx Hb]]]].
    exists (a :: before), after. split; [reflexivity|]. split; [exact Hx|].
    intros y [<- | Hy]; [exact Ha | exact (Hb y Hy)].
Qed.

(** X3: when several exclusion keywords occur in the text, the reason
    names the one that comes first in EXCLUSION_STRICT: no keyword listed
    before the reported term occurs in the text. *)
Theorem first_listed_exclusion_reported
    (paper : dict) (self self' : searcher) (text term : string) :
  paper_text paper = Ok text ->
  In term EXCLUSION_STRICT ->
  is_relevant paper self = Ok ((false, "Excluded: " +:+ term), self') ->
  exists before after,
    EXCLUSION_STRICT = before ++ term :: after
    /\ substring term text
    /\ forall earlier, In earlier before -> ~ substring earlier text.
Proof.
  intros Ht Hin. unfold is_relevant. rewrite Ht. run_bind.
  pose proof EXCLUSION_STRICT_lowercase as Hl.
  unfold lowercase in Hl. rewrite List.Forall_forall in Hl.
  destruct (find _ EXCLUSION_STRICT) as [found|] eqn:Hf.
  - intros H. injection H as Hterm _. apply String.app_inj in Hterm. subst found.
    destruct (find_first _ _ _ Hf) as [before [after [Hsplit [Hc Hb]]]].
    exists before, after. split; [exact Hsplit|]. split.
    + rewrite (Hl term Hin) in Hc. apply contains_spec, Hc.
    + intros earlier He Hs. specialize (Hb earlier He). cbv beta in Hb.
      rewrite (Hl earlier) in Hb by (rewrite Hsplit; apply in_or_app; left; exact He).
      apply contains_spec in Hs. congruence.
  - destruct (negb (any_in NDT_METHODS_CORE text)); [discriminate|].
    destruct (negb (any_in STRUCTURAL_MATERIALS text)); [discriminate|].
    destruct (negb (any_in ALL_ASSESSMENT_TASKS text || any_in CIRCULAR_STRICT text));
      discriminate.
Qed.

Lemma first_listed_exclusion_reported_witness :
  In "patient" EXCLUSION_STRICT
  /\ substring "patient" "ultrasonic imaging of a patient with cancer "
  /\ exists before after,
      EXCLUSION_STRICT = before ++ "cancer" :: after
      /\ substring "cancer" "ultrasonic imaging of a patient with cancer "
      /\ forall earlier, In earlier before ->
           ~ substring earlier "ultrasonic imaging of a patient with cancer ".
Proof.
  split; [vm_compute; tauto|].
  split; [apply contains_spec; vm_compute; reflexivity|].
  apply (first_listed_exclusion_reported two_exclusions_paper (init None)
           (count_exclusion "cancer" (init None))).
  - reflexivity.
  - vm_compute. tauto.
  - apply (is_relevant_excluded _ _ "ultrasonic imaging of a patient with cancer ");
      vm_compute; reflexivity.
Defined.

(** X4: a call of the classifier that returns leaves the result list,
    the exclusion log, the URL and the e-mail of the searcher alone; it
    changes a counter only when it rejects for an exclusion keyword, and
    then the counter of the term named in the reason, by one. *)
Theorem classifier_effects
    (paper : dict) (self self' : searcher) (relevant : bool) (reason : string) :
  is_relevant paper self = Ok ((relevant, reason), self') ->
  base_url self' = base_url self /\ email self' = email self
  /\ results self' = results self /\ excluded self' = excluded self
  /\ ((exists term,
          In term EXCLUSION_STRICT /\ relevant = false
          /\ reason = "Excluded: " +:+ term
          /\ exclusion_stats self'
             = <[term := (default 0 (exclusion_stats self !! term) + 1)%nat]>
                 (exclusion_stats self))
      \/ (exclusion_stats self' = exclusion_stats self
          /\ forall term, reason <> "Excluded: " +:+ term)).
Proof.
  unfold is_relevant. destruct (paper_text paper) as [text|]; run_bind; [|discriminate].
  destruct (find _ EXCLUSION_STRICT) as [term|] eqn:Hf.
  - intros H. injection H as <- <- <-. repeat split; try reflexivity.
    left. exists term. apply find_some in Hf as [Hin _]. repeat split; try reflexivity.
    exact Hin.
  - assert (Hother : forall r : string,
               (r = "No core NDT method" \/ r = "No structural material"
                \/ r = "No assessment task or circular context"
                \/ exists found, r = tasks_reason found) ->
               forall term, r <> "Excluded: " +:+ term).
    { intros r [-> | [-> | [-> | [found ->]]]] term H; discriminate H. }
    destruct (negb (any_in NDT_METHODS_CORE text)).
    { intros H. injection H as <- <- <-. repeat split; try reflexivity.
      right. split; [reflexivity|]. apply Hother. tauto. }
    destruct (negb (any_in STRUCTURAL_MATERIALS text)).
    { intros H. injection H as <- <- <-. repeat split; try reflexivity.
      right. split; [reflexivity|]. apply Hother. tauto. }
    destruct (negb (any_in ALL_ASSESSMENT_TASKS text || any_in CIRCULAR_STRICT text)).
    { intros H. injection H as <- <- <-. repeat split; try reflexivity.
      right. split; [reflexivity|]. apply Hother. tauto. }
    intros H. injection H as <- <- <-. repeat split; try reflexivity.
    right. split; [reflexivity|]. apply Hother.
    right. right. right. exists (tasks_found text). reflexivity.
Qed.

Lemma classifier_effects_witness :
  base_url (count_exclusion "aircraft" (init None)) = base_url (init None)
  /\ email (count_exclusion "aircraft" (init None)) = email (init None)
  /\ results (count_exclusion "aircraft" (init None)) = results (init None)
  /\ excluded (count_exclusion "aircraft" (init None)) = excluded (init None)
  /\ ((exists term,
          In term EXCLUSION_STRICT /\ false = false
          /\ "Excluded: aircraft" = "Excluded: " +:+ term
          /\ exclusion_stats (count_exclusion "aircraft" (init None))
             = <[term := (default 0 (exclusion_stats (init None) !! term) + 1)%nat]>
                 (exclusion_stats (init None)))
      \/ (exclusion_stats (count_exclusion "aircraft" (init None))
          = exclusion_stats (init None)
          /\ forall term, "Excluded: aircraft" <> "Excluded: " +:+ term)).
Proof.
  apply (classifier_effects aircraft_paper (init None)).
  apply (is_relevant_excluded _ _ "ultrasonic testing of aircraft composite panels ");
    vm_compute; reflexivity.
Defined.

(** X5: when the title or the abstract of a paper is present, truthy
    and not a string (a number, true, a non-empty list or object), the
    classifier raises AttributeError. *)
Theorem non_text_field_raises (paper : dict) (self : searcher) :
  not_text "title" paper \/ not_text "abstract" paper ->
  is_relevant paper self = Raise AttributeError.
Proof.
  assert (Hbad : forall v, Py.truthy v = true -> (forall s, v <> VStr s) ->
                   Py.vlower (Py.or_ v (VStr "")) = Raise AttributeError).
  { intros v Hv Hs. unfold Py.or_. rewrite Hv.
    destruct v; try reflexivity. exfalso. exact (Hs s eq_refl). }
  intros H. unfold is_relevant, paper_text.
  destruct (Py.vlower (Py.or_ (Py.get paper "title" VNone) (VStr ""))) as [title|e] eqn:Ht.
  - destruct H as [[v [Hl [Hv Hs]]] | [v [Hl [Hv Hs]]]].
    + unfold Py.get in Ht. rewrite Hl in Ht. rewrite (Hbad v Hv Hs) in Ht. discriminate.
    + run_bind. unfold Py.get at 1. rewrite Hl, (Hbad v Hv Hs). reflexivity.
  - run_bind. f_equal.
    destruct (Py.or_ (Py.get paper "title" VNone) (VStr "")); cbn [Py.vlower] in Ht;
      congruence.
Qed.

Lemma non_text_field_raises_witness :
  is_relevant numeric_title_paper (init None) = Raise AttributeError.
Proof.
  apply (non_text_field_raises numeric_title_paper (init None)).
  left. exists (VInt 2024). split; [reflexivity|]. split; [reflexivity|].
  intros s H. discriminate H.
Defined.

Lemma lower_char_idempotent (c : ascii) :
  Str.lower_char (Str.lower_char c) = Str.lower_char c.
Proof. destruct c as [[] [] [] [] [] [] [] []]; vm_compute; reflexivity. Qed.

Lemma lower_idempotent (s : string) : Str.lower (Str.lower s) = Str.lower s.
Proof.
  induction s as [|c s IH]; [reflexivity|].
  cbn [Str.lower]. rewrite lower_char_idempotent, IH. reflexivity.
Qed.

(** X6: matching ignores letter case: two papers whose titles and whose
    abstracts are equal once lower-cased get the same answer, and so
    does a paper and its lower-cased copy. *)
Theorem classifier_ignores_case :
  (forall (title1 abstract1 title2 abstract2 : string) (rest1 rest2 : dict)
          (self : searcher),
      Str.lower title1 = Str.lower title2 ->
      Str.lower abstract1 = Str.lower abstract2 ->
      is_relevant (("title", VStr title1) :: ("abstract", VStr abstract1) :: rest1) self
      = is_relevant (("title", VStr title2) :: ("abstract", VStr abstract2) :: rest2) self)
  /\ (forall (title abstract : string) (rest : dict) (self : searcher),
        is_relevant (("title", VStr (Str.lower title))
                     :: ("abstract", VStr (Str.lower abstract)) :: rest) self
        = is_relevant (("title", VStr title) :: ("abstract", VStr abstract) :: rest) self).
Proof.
  assert (Htext : forall title abstract rest,
             paper_text (("title", VStr title) :: ("abstract", VStr abstract) :: rest)
             = Ok (Str.lower title +:+ " " +:+ Str.lower abstract)).
  { intros title abstract rest. unfold paper_text, Py.get. cbn [Py.lookup String.eqb].
    unfold Py.or_. cbn [Py.truthy].
    destruct title, abstract; reflexivity. }
  assert (Hsame : forall t1 a1 t2 a2 r1 r2 self,
             Str.lower t1 = Str.lower t2 -> Str.lower a1 = Str.lower a2 ->
             is_relevant (("title", VStr t1) :: ("abstract", VStr a1) :: r1) self
             = is_relevant (("title", VStr t2) :: ("abstract", VStr a2) :: r2) self).
  { intros t1 a1 t2 a2 r1 r2 self Ht Ha. unfold is_relevant.
    rewrite !Htext, Ht, Ha. reflexivity. }
  split; [exact Hsame|].
  intros title abstract rest self. apply Hsame; apply lower_idempotent.
Qed.

Lemma classifier_ignores_case_witness :
  is_relevant
    [("title", VStr "IMPACT ECHO"); ("abstract", VStr "Crack Detection in a Concrete Bridge")]
    (init None)
  = is_relevant
      [("title", VStr "Impact Echo"); ("abstract", VStr "crack detection in a concrete bridge")]
      (init None).
Proof.
  apply (proj1 classifier_ignores_case); reflexivity.
Defined.

(** ** More on the parser *)

(** What a parse that succeeds went through. *)
Lemma parse_paper_steps (paper paper_data : dict) :
  _parse_paper (VDict paper) = Some paper_data ->
  exists authorships authors src abstract authors_str doi journal is_oa,
    Py.iter (Py.get paper "authorships" (VList [])) = Ok authorships
    /\ collect_authors authorships = Ok authors
    /\ Py.vget (Py.or_ (Py.get paper "primary_location" (VDict [])) (VDict []))
               "source" (VDict []) = Ok src
    /\ reconstruct_abstract paper = Ok abstract
    /\ Py.vjoin "; " (take 5 authors) = Ok authors_str
    /\ (if Py.truthy (Py.get paper "doi" VNone)
        then Py.vreplace (Py.get paper "doi" (VStr "")) "https://doi.org/" ""
        else Ok "") = Ok doi
    /\ Py.vget (Py.or_ src (VDict [])) "display_name" (VStr "") = Ok journal
    /\ Py.vget (Py.get paper "open_access" (VDict [])) "is_oa" (VBool false) = Ok is_oa
    /\ paper_data
       = [("title", Py.get paper "title" (VStr ""));
          ("authors", VStr authors_str);
          ("year", Py.get paper "publication_year" VNone);
          ("doi", VStr doi);
          ("journal", journal);
          ("abstract", VStr abstract);
          ("cited_by_count", Py.get paper "cited_by_count" (VInt 0));
          ("type", Py.get paper "type" (VStr ""));
          ("open_access", is_oa);
          ("url", Py.or_ (Py.get paper "doi" VNone) (Py.get paper "id" (VStr "")));
          ("openalex_id", Py.get paper "id" (VStr ""))].
Proof.
  unfold _parse_paper, parse_body.
  destruct (Py.iter _) as [authorships|] eqn:H1; run_bind; [|discriminate].
  destruct (collect_authors authorships) as [authors|] eqn:H2; run_bind; [|discriminate].
  destruct (Py.vget _ "source" _) as [src|] eqn:H3; run_bind; [|discriminate].
  destruct (reconstruct_abstract paper) as [abstract|] eqn:H4; run_bind; [|discriminate].
  destruct (Py.vjoin _ _) as [authors_str|] eqn:H5; run_bind; [|discriminate].
  destruct (if Py.truthy _ then _ else _) as [doi|] eqn:H6; run_bind; [|discriminate].
  destruct (Py.vget _ "display_name" _) as [journal|] eqn:H7; run_bind; [|discriminate].
  destruct (Py.vget _ "is_oa" _) as [is_oa|] eqn:H8; run_bind; [|discriminate].
  intros H. injection H as <-.
  exists authorships, authors, src, abstract, authors_str, doi, journal, is_oa.
  repeat split; first [assumption | reflexivity].
Qed.

Lemma collect_authors_names (entries : list value) (names : list string) :
  Forall2 authorship_name entries names ->
  collect_authors entries = Ok (map VStr (List.filter named names)).
Proof.
  induction 1 as [|entry name entries names [d [a [-> [Ha Hn]]]] _ IH];
    [reflexivity|].
  cbn [collect_authors Py.vget]. run_bind. rewrite Ha. cbn [Py.vget]. run_bind.
  rewrite IH. run_bind. cbn [List.filter]. f_equal.
  destruct Hn as [-> | [-> Hfalse]].
  - unfold named. cbn [Py.truthy]. destruct (String.eqb name ""); reflexivity.
  - rewrite Hfalse. reflexivity.
Qed.

Lemma strings_of_names (names : list string) : Py.strings (map VStr names) = Ok names.
Proof.
  induction names as [|n names IH]; [reflexivity|].
  cbn [map Py.strings]. rewrite IH. reflexivity.
Qed.

(** X7: the authors field of a parsed record is the display names of
    the first five authors that have one, in order, joined by "; ". *)
Theorem authors_first_five
    (paper paper_data : dict) (entries : list value) (names : list string) :
  _parse_paper (VDict paper) = Some paper_data ->
  Py.lookup "authorships" paper = Some (VList entries) ->
  Forall2 authorship_name entries names ->
  Py.lookup "authors" paper_data
  = Some (VStr (Str.join "; " (take 5 (List.filter named names)))).
Proof.
  intros Hp Hl Hn.
  destruct (parse_paper_steps _ _ Hp)
    as [authorships [authors [src [abstract [authors_str [doi [journal [is_oa
         [Hi [Hc [_ [_ [Hj [_ [_ [_ ->]]]]]]]]]]]]]]]].
  unfold Py.get in Hi. rewrite Hl in Hi. cbn [Py.iter] in Hi. injection Hi as <-.
  rewrite (collect_authors_names _ _ Hn) in Hc. injection Hc as <-.
  unfold Py.vjoin in Hj. rewrite firstn_map, strings_of_names in Hj.
  injection Hj as <-. reflexivity.
Qed.

Lemma authors_first_five_witness :
  exists paper_data,
    _parse_paper (VDict seven_authors_record) = Some paper_data
    /\ Py.lookup "authors" paper_data
       = Some (VStr (Str.join "; "
                       (take 5 (List.filter named
                                  ["A One"; ""; "B Two"; "C Three"; ""; "D Four";
                                   "E Five"; "F Six"])))).
Proof.
  eexists. split; [vm_compute; reflexivity|].
  apply (authors_first_five seven_authors_record _
           [VDict [("author", VDict [("display_name", VStr "A One")])];
            VDict [("author", VDict [("display_name", VNone)])];
            VDict [("author", VDict [("display_name", VStr "B Two")]); ("position", VStr "middle")];
            VDict [("author", VDict [("id", VStr "A3"); ("display_name", VStr "C Three")])];
            VDict [];
            VDict [("author", VDict [("display_name", VStr "D Four")])];
            VDict [("author", VDict [("display_name", VStr "E Five")])];
            VDict [("author", VDict [("display_name", VStr "F Six")])]]).
  - vm_compute. reflexivity.
  - reflexivity.
  - repeat constructor; eexists; eexists;
      (split; [reflexivity|]); (split; [reflexivity|]);
      first [left; reflexivity | right; split; reflexivity].
Defined.

Lemma replace_aux_skip (old new : string) (dropped rest : string) :
  Str.replace_aux old new (String.length dropped) (dropped +:+ rest)
  = Str.replace_aux old new 0 rest.
Proof.
  induction dropped as [|c dropped IH]; [reflexivity|].
  change (String c dropped +:+ rest) with (String c (dropped +:+ rest)).
  cbn [String.length Str.replace_aux]. exact IH.
Qed.

(** An occurrence at the start is replaced, and the search goes on
    behind it. *)
Lemma replace_at_start (c : ascii) (old new rest : string) :
  Str.replace (String c old) new (String c old +:+ rest)
  = new +:+ Str.replace (String c old) new rest.
Proof.
  unfold Str.replace.
  change (String c old +:+ rest) with (String c (old +:+ rest)).
  cbn [Str.replace_aux].
  assert (Hs : Str.starts_with (String c old) (String c (old +:+ rest)) = true).
  { apply starts_with_spec. exists rest. reflexivity. }
  rewrite Hs. cbn [String.length Nat.sub]. rewrite Nat.sub_0_r, replace_aux_skip.
  reflexivity.
Qed.

(** A string without occurrence is left as it is. *)
Lemma replace_absent (old new s : string) :
  Str.contains old s = false -> Str.replace old new s = s.
Proof.
  unfold Str.replace. induction s as [|c s IH]; [reflexivity|].
  cbn [Str.contains Str.replace_aux]. intros H.
  apply orb_false_iff in H as [Hs Hc]. rewrite Hs, (IH Hc). reflexivity.
Qed.

(** X8: the parser strips the resolver prefix from a DOI: a DOI
    "https://doi.org/<d>", with no further occurrence of the prefix in
    <d>, is stored as <d>, while the url field keeps the full DOI; a
    record without DOI (absent, null or empty) gets the empty string as
    its doi and its id as its url. *)
Theorem doi_prefix_stripped (paper paper_data : dict) :
  _parse_paper (VDict paper) = Some paper_data ->
  (forall d,
      Py.lookup "doi" paper = Some (VStr (doi_prefix +:+ d)) ->
      ~ substring doi_prefix d ->
      Py.lookup "doi" paper_data = Some (VStr d)
      /\ Py.lookup "url" paper_data = Some (VStr (doi_prefix +:+ d)))
  /\ (Py.truthy (Py.get paper "doi" VNone) = false ->
      Py.lookup "doi" paper_data = Some (VStr "")
      /\ Py.lookup "url" paper_data = Some (Py.get paper "id" (VStr ""))).
Proof.
  intros Hp.
  destruct (parse_paper_steps _ _ Hp)
    as [authorships [authors [src [abstract [authors_str [doi [journal [is_oa
         [_ [_ [_ [_ [_ [Hd [_ [_ ->]]]]]]]]]]]]]]]].
  split.
  - intros d Hl Hno. unfold Py.get in Hd. rewrite Hl in Hd.
    cbn [Py.truthy Py.vreplace] in Hd.
    change (String.eqb (doi_prefix +:+ d) "") with false in Hd. cbn [negb] in Hd.
    injection Hd as <-. split.
    + cbn [Py.lookup String.eqb Ascii.eqb Bool.eqb]. do 2 f_equal.
      change "https://doi.org/" with doi_prefix.
      unfold doi_prefix at 1 2. rewrite replace_at_start.
      rewrite replace_absent; [reflexivity|].
      destruct (Str.contains _ d) eqn:Hc; [|reflexivity].
      exfalso. apply Hno, contains_spec, Hc.
    + unfold Py.get. rewrite Hl. reflexivity.
  - intros Hf. rewrite Hf in Hd. injection Hd as <-. split; [reflexivity|].
    cbn [Py.lookup String.eqb Ascii.eqb Bool.eqb]. unfold Py.or_. rewrite Hf. reflexivity.
Qed.

Lemma doi_prefix_stripped_witness :
  exists paper_data,
    _parse_paper (VDict doi_record) = Some paper_data
    /\ (forall d,
           Py.lookup "doi" doi_record = Some (VStr (doi_prefix +:+ d)) ->
           ~ substring doi_prefix d ->
           Py.lookup "doi" paper_data = Some (VStr d)
           /\ Py.lookup "url" paper_data = Some (VStr (doi_prefix +:+ d)))
    /\ (Py.truthy (Py.get doi_record "doi" VNone) = false ->
        Py.lookup "doi" paper_data = Some (VStr "")
        /\ Py.lookup "url" paper_data = Some (Py.get doi_record "id" (VStr "")))
    /\ Py.lookup "doi" paper_data = Some (VStr "10.1000/ndt.2020.1").
Proof.
  eexists. split; [vm_compute; reflexivity|].
  split; [|split; [|reflexivity]];
    apply (doi_prefix_stripped doi_record); vm_compute; reflexivity.
Defined.

(** X9: a record whose authorships field is null, a boolean or a
    number, or whose open_access field is present without being an
    object (null, for one), makes the parser return null: the record is
    dropped. *)
Theorem malformed_record_dropped (paper : dict) :
  (exists v, Py.lookup "authorships" paper = Some v /\ scalar v)
  \/ (exists v, Py.lookup "open_access" paper = Some v /\ forall d, v <> VDict d) ->
  _parse_paper (VDict paper) = None.
Proof.
  intros H. unfold _parse_paper, parse_body.
  destruct H as [[v [Hl Hv]] | [v [Hl Hv]]].
  - assert (Hg : Py.get paper "authorships" (VList []) = v)
      by (unfold Py.get; rewrite Hl; reflexivity).
    rewrite Hg. destruct Hv as [-> | [[b ->] | [z ->]]]; reflexivity.
  - destruct (Py.iter _) as [authorships|]; run_bind; [|reflexivity].
    destruct (collect_authors authorships) as [authors|]; run_bind; [|reflexivity].
    destruct (Py.vget _ "source" _) as [src|]; run_bind; [|reflexivity].
    destruct (reconstruct_abstract paper) as [abstract|]; run_bind; [|reflexivity].
    destruct (Py.vjoin _ _) as [authors_str|]; run_bind; [|reflexivity].
    destruct (if Py.truthy _ then _ else _) as [doi|]; run_bind; [|reflexivity].
    destruct (Py.vget _ "display_name" _) as [journal|]; run_bind; [|reflexivity].
    assert (Hg : Py.get paper "open_access" (VDict []) = v)
      by (unfold Py.get; rewrite Hl; reflexivity).
    rewrite Hg. destruct v; try reflexivity. exfalso. exact (Hv d eq_refl).
Qed.

Lemma malformed_record_dropped_witness :
  _parse_paper (VDict null_open_access_record) = None
  /\ _parse_paper (VDict null_authorships_record) = None.
Proof.
  split.
  - apply (malformed_record_dropped null_open_access_record).
    right. exists VNone. split; [reflexivity|]. intros d H. discriminate H.
  - apply (malformed_record_dropped null_authorships_record).
    left. exists VNone. split; [reflexivity|]. left. reflexivity.
Defined.

Lemma max_indices_empty_entry (inv : inverted_index) (word : string) :
  In (word, []) inv ->
  exists e,
    max_indices (map (fun e => (fst e, VList (map (fun p => VInt (Z.of_nat p)) (snd e)))) inv)
    = Raise e.
Proof.
  induction inv as [|[w ps] inv IH]; intros Hin; [destruct Hin|].
  cbn [map max_indices fst snd max_index]. rewrite as_indices_positions. run_bind.
  destruct ps as [|p ps].
  - exists ValueError. reflexivity.
  - destruct Hin as [Heq | Hin]; [discriminate Heq|].
    destruct (IH Hin) as [e He]. rewrite He.
    destruct (Py.max_of (map Z.of_nat (p :: ps))); run_bind; eexists; reflexivity.
Qed.

(** X10: an inverted index in which some word lists no position makes
    the parser return null, whatever the other fields of the record
    are. *)
Theorem empty_position_list_drops (paper : dict) (inv : inverted_index) (word : string) :
  Py.lookup "abstract_inverted_index" paper = Some (index_value inv) ->
  In (word, []) inv ->
  _parse_paper (VDict paper) = None.
Proof.
  intros Hl Hin.
  assert (Hr : exists e, reconstruct_abstract paper = Raise e).
  { destruct (max_indices_empty_entry inv word Hin) as [e He].
    exists e. unfold reconstruct_abstract, Py.get. rewrite Hl.
    assert (Ht : Py.truthy (index_value inv) = true)
      by (destruct inv; [destruct Hin | reflexivity]).
    rewrite Ht. unfold index_value. cbv beta iota. rewrite He. reflexivity. }
  destruct Hr as [e He]. unfold _parse_paper, parse_body.
  destruct (Py.iter _) as [authorships|]; run_bind; [|reflexivity].
  destruct (collect_authors authorships) as [authors|]; run_bind; [|reflexivity].
  destruct (Py.vget _ "source" _) as [src|]; run_bind; [|reflexivity].
  rewrite He. reflexivity.
Qed.

Lemma empty_position_list_drops_witness :
  _parse_paper (VDict empty_positions_record) = None.
Proof.
  apply (empty_position_list_drops empty_positions_record
           [("impact", [0]%nat); ("echo", []); ("testing", [1]%nat)] "echo").
  - reflexivity.
  - right. left. reflexivity.
Defined.

(** X11: the journal of a parsed record is the display name of the
    source of its primary location; it is the empty string when the
    primary location, or its source, is absent or null. *)
Theorem journal_from_primary_location (paper paper_data : dict) :
  _parse_paper (VDict paper) = Some paper_data ->
  (missing "primary_location" paper ->
   Py.lookup "journal" paper_data = Some (VStr ""))
  /\ (forall location,
         Py.lookup "primary_location" paper = Some (VDict location) ->
         (missing "source" location ->
          Py.lookup "journal" paper_data = Some (VStr ""))
         /\ (forall source,
                Py.lookup "source" location = Some (VDict source) ->
                Py.lookup "journal" paper_data
                = Some (Py.get source "display_name" (VStr "")))).
Proof.
  intros Hp.
  destruct (parse_paper_steps _ _ Hp)
    as [authorships [authors [src [abstract [authors_str [doi [journal [is_oa
         [_ [_ [Hs [_ [_ [_ [Hj [_ ->]]]]]]]]]]]]]]]].
  cbn [Py.lookup String.eqb Ascii.eqb Bool.eqb].
  split.
  - intros Hm. f_equal. unfold Py.get in Hs.
    destruct Hm as [Hm | Hm]; rewrite Hm in Hs; cbn in Hs; injection Hs as <-;
      cbn in Hj; injection Hj as <-; reflexivity.
  - intros location Hl. unfold Py.get in Hs. rewrite Hl in Hs.
    assert (Hloc : Py.or_ (VDict location) (VDict []) = VDict location)
      by (destruct location; reflexivity).
    rewrite Hloc in Hs. cbn [Py.vget] in Hs. injection Hs as <-. split.
    + intros Hm. f_equal. unfold Py.get in Hj.
      destruct Hm as [Hm | Hm]; rewrite Hm in Hj; cbn in Hj; injection Hj as <-;
        reflexivity.
    + intros source Hsrc. f_equal. unfold Py.get at 1 in Hj. rewrite Hsrc in Hj.
      assert (Hor : Py.or_ (VDict source) (VDict []) = VDict source)
        by (destruct source; reflexivity).
      rewrite Hor in Hj. cbn [Py.vget] in Hj. injection Hj as <-. reflexivity.
Qed.

Lemma journal_from_primary_location_witness :
  exists paper_data,
    _parse_paper (VDict journal_record) = Some paper_data
    /\ Py.lookup "journal" paper_data = Some (VStr "NDT and E International").
Proof.
  eexists. split; [vm_compute; reflexivity|].
  refine (proj2 (proj2 (journal_from_primary_location journal_record _ _)
                   [("is_oa", VBool true);
                    ("source", VDict [("id", VStr "S1");
                                      ("display_name", VStr "NDT and E International")])]
                   _)
            [("id", VStr "S1"); ("display_name", VStr "NDT and E International")] _);
    vm_compute; reflexivity.
Defined.

(** ** More on the search *)







(** X13: with a page limit of zero or less, [search] sends no request
    and returns the empty list, whatever the API would answer; the
    result list of the searcher is emptied and the rest of it kept. *)
Theorem no_pages_no_results
    (api : nat -> dict -> response) (self : searcher)
    (start_year end_year max_pages : Z) :
  max_pages <= 0 ->
  search_run api self start_year end_year max_pages = Ok (start self)
  /\ search api self start_year end_year max_pages = Ok ([], with_results [] self).
Proof.
  intros Hle.
  assert (Hrun : search_run api self start_year end_year max_pages = Ok (start self)).
  { unfold search_run. generalize (start self) as st. generalize search_terms as terms.
    induction terms as [|term terms IH]; intros st; cbn [search_loop]; [reflexivity|].
    replace (Z.to_nat max_pages) with 0%nat by lia. cbn [fetch_pages]. run_bind.
    apply IH. }
  split; [exact Hrun|]. unfold search. rewrite Hrun. reflexivity.
Qed.

Lemma no_pages_no_results_witness :
  search_run (api_twice geometry_record strength_record) (init None) 2014 2024 0
  = Ok (start (init None))
  /\ search (api_twice geometry_record strength_record) (init None) 2014 2024 0
     = Ok ([], with_results [] (init None)).
Proof.
  apply (no_pages_no_results (api_twice geometry_record strength_record)
           (init None) 2014 2024 0).
  lia.
Defined.

(** X14: network failures are not fatal: when every request fails,
    [search] still returns, with the empty list, after exactly one
    request per query term. *)
Theorem all_requests_fail
    (api : nat -> dict -> response) (self : searcher)
    (start_year end_year max_pages : Z) :
  (forall n params, api n params = RequestException) ->
  0 < max_pages ->
  search api self start_year end_year max_pages = Ok ([], with_results [] self)
  /\ exists st,
      search_run api self start_year end_year max_pages = Ok st
      /\ requests st = 63%nat /\ me st = self.
Proof.
  intros Hdown Hpos.
  assert (Hloop : forall terms st,
             search_loop api terms start_year end_year max_pages st
             = Ok {| all_results := all_results st; me := me st;
                     requests := requests st + length terms |}).
  { induction terms as [|term terms IH]; intros st; cbn [search_loop length].
    - rewrite Nat.add_0_r. destruct st; reflexivity.
    - destruct (Z.to_nat max_pages) as [|left] eqn:Hn; [lia|].
      cbn [fetch_pages]. rewrite Hdown. run_bind. rewrite IH.
      cbn [all_results me requests sent]. do 2 f_equal. lia. }
  assert (Hrun : search_run api self start_year end_year max_pages
                 = Ok {| all_results := []; me := self; requests := 63 |}).
  { unfold search_run. rewrite Hloop. reflexivity. }
  split.
  - unfold search. rewrite Hrun. reflexivity.
  - eexists. split; [exact Hrun|]. split; reflexivity.
Qed.

Lemma all_requests_fail_witness :
  search api_down (init None) 2014 2024 3 = Ok ([], with_results [] (init None))
  /\ exists st,
      search_run api_down (init None) 2014 2024 3 = Ok st
      /\ requests st = 63%nat /\ me st = init None.
Proof.
  apply (all_requests_fail api_down (init None) 2014 2024 3).
  - intros n params. reflexivity.
  - lia.
Defined.

Lemma take_length (n : nat) (s : string) : (String.length (Str.take n s) <= n)%nat.
Proof.
  revert s. induction n as [|n IH]; intros s; [destruct s; cbn; lia|].
  destruct s as [|c s]; cbn [Str.take String.length]; [lia|].
  specialize (IH s). lia.
Qed.

Lemma vtake_spec (n : nat) (v title : value) :
  Py.vtake n v = Ok title ->
  (exists s, v = VStr s /\ title = VStr (Str.take n s))
  \/ (exists l, v = VList l /\ title = VList (take n l)).
Proof.
  destruct v; cbn [Py.vtake]; intros H; try discriminate H; injection H as <-.
  - left. eexists. split; reflexivity.
  - right. eexists. split; reflexivity.
Qed.

(** What a call of the classifier that returns does to the searcher. *)
Lemma is_relevant_counters paper self relevant reason self' :
  is_relevant paper self = Ok ((relevant, reason), self') ->
  (exists term, reason = "Excluded: " +:+ term /\ self' = count_exclusion term self)
  \/ (self' = self /\ forall term, reason <> "Excluded: " +:+ term).
Proof.
  unfold is_relevant. destruct (paper_text paper) as [text|]; run_bind; [|discriminate].
  destruct (find _ EXCLUSION_STRICT) as [term|].
  - intros H. injection H as _ <- <-. left. exists term. split; reflexivity.
  - destruct (negb (any_in NDT_METHODS_CORE text)).
    { intros H. injection H as _ <- <-. right. split; [reflexivity|].
      intros term H. discriminate H. }
    destruct (negb (any_in STRUCTURAL_MATERIALS text)).
    { intros H. injection H as _ <- <-. right. split; [reflexivity|].
      intros term H. discriminate H. }
    destruct (negb (any_in ALL_ASSESSMENT_TASKS text || any_in CIRCULAR_STRICT text)).
    { intros H. injection H as _ <- <-. right. split; [reflexivity|].
      intros term H. discriminate H. }
    intros H. injection H as _ <- <-. right. split; [reflexivity|].
    intros term H. discriminate H.
Qed.

(** The classifier returns only for a title that is a string or falsy. *)
Lemma is_relevant_title paper self answer :
  is_relevant paper self = Ok answer ->
  Py.truthy (Py.get paper "title" VNone) = false
  \/ exists s, Py.get paper "title" VNone = VStr s.
Proof.
  unfold is_relevant, paper_text, Py.or_.
  destruct (Py.truthy (Py.get paper "title" VNone)) eqn:Ht; [|left; reflexivity].
  destruct (Py.get paper "title" VNone); cbn [Py.vlower]; run_bind; try discriminate.
  intros _. right. eexists. reflexivity.
Qed.


Lemma appends_refl st : appends st st.
Proof.
  split; [exists []; symmetry; apply app_nil_r|].
  split; [exists []; split; [symmetry; apply app_nil_r | constructor]|].
  split; [intros term; lia|]. repeat split; reflexivity.
Qed.

Lemma appends_trans a b c : appends a b -> appends b c -> appends a c.
Proof.
  intros [[m1 H1] [[l1 [Hl1 Hf1]] [Hc1 [He1 [Hb1 Hr1]]]]]
         [[m2 H2] [[l2 [Hl2 Hf2]] [Hc2 [He2 [Hb2 Hr2]]]]].
  split; [exists (m1 ++ m2); rewrite H2, H1, app_assoc; reflexivity|].
  split.
  { exists (l1 ++ l2). split; [rewrite Hl2, Hl1, app_assoc; reflexivity|].
    apply Forall_app. split; assumption. }
  split; [intros term; specialize (Hc1 term); specialize (Hc2 term); lia|].
  repeat split; congruence.
Qed.

Lemma appends_sent st : appends st (sent st).
Proof. pose proof (appends_refl st) as H. unfold appends in *. exact H. Qed.

Lemma process_record_appends paper st st' :
  process_record paper st = Ok st' -> appends st st'.
Proof.
  intros H. apply process_record_outcome in H.
  destruct H as [-> | raw pd k reason Hraw Hk Hl Hp Hr Hall Hme Hreq
                    | raw pd k reason self' title Hraw Hk Hl Hp Hr Ht Hall Hme Hreq].
  - apply appends_refl.
  - split; [eexists; exact Hall|]. rewrite Hme.
    split; [exists []; split; [symmetry; apply app_nil_r | constructor]|].
    split; [intros term; lia|]. repeat split; reflexivity.
  - destruct (is_relevant_frame _ _ _ _ Hr) as [Hres Hex].
    split; [exists []; rewrite Hall; symmetry; apply app_nil_r|].
    rewrite Hme. cbn [excluded with_excluded exclusion_stats email base_url results].
    split.
    { eexists. split; [rewrite Hex; reflexivity|]. constructor; [|constructor].
      exists title, reason. split; [reflexivity|].
      subst paper. destruct (parse_paper_fields raw pd Hp) as [Htitle _].
      assert (Hget : forall dflt, Py.get pd "title" dflt = Py.get raw "title" (VStr ""))
        by (intros dflt; unfold Py.get at 1; rewrite Htitle; reflexivity).
      rewrite Hget in Ht.
      destruct (vtake_spec _ _ _ Ht) as [[s [Hv ->]] | [l [Hv ->]]].
      - right. eexists. split; [reflexivity | apply take_length].
      - left. destruct (is_relevant_title _ _ _ Hr) as [Hfalsy | [s Hs]];
          rewrite Hget, Hv in *; [|discriminate Hs].
        destruct l; [reflexivity | discriminate Hfalsy]. }
    destruct (is_relevant_counters _ _ _ _ _ Hr) as [[term [_ ->]] | [-> _]].
    + split.
      { intros t. unfold count_exclusion, with_exclusion_stats. cbn [exclusion_stats].
        destruct (decide (term = t)) as [-> | Hne].
        - rewrite lookup_insert_eq. simpl. lia.
        - rewrite lookup_insert_ne by exact Hne. lia. }
      repeat split; reflexivity.
    + split; [intros t; lia|]. repeat split; reflexivity.
Qed.

Lemma search_loop_appends api terms start_year end_year max_pages st st' :
  search_loop api terms start_year end_year max_pages st = Ok st' -> appends st st'.
Proof.
  apply (search_loop_lift api appends appends_refl appends_trans appends_sent
           process_record_appends).
Qed.

(** X15: a search only appends.  The papers it returns are those of its
    accepted map in the order of acceptance; the exclusion log it leaves
    is the one it found followed by its own entries, each a title of at
    most sixty characters with a reason; no counter is lower than
    before; the e-mail and the URL of the searcher are kept.  Within a
    run, the papers accepted up to a query term stay at the front of
    the map through all later terms. *)
Theorem search_appends :
  (forall api self start_year end_year max_pages papers self',
      search api self start_year end_year max_pages = Ok (papers, self') ->
      results self' = papers
      /\ (exists more, excluded self' = excluded self ++ more /\ Forall log_entry more)
      /\ (forall term,
             (default 0 (exclusion_stats self !! term)
              <= default 0 (exclusion_stats self' !! term))%nat)
      /\ email self' = email self /\ base_url self' = base_url self)
  /\ (forall api terms start_year end_year max_pages st st',
         search_loop api terms start_year end_year max_pages st = Ok st' ->
         exists more, all_results st' = all_results st ++ more).
Proof.
  split.
  - intros api self sy ey mp papers self'. unfold search.
    destruct (search_run api self sy ey mp) as [st|] eqn:Hrun; run_bind; [|discriminate].
    intros H. injection H as <- <-. unfold search_run in Hrun.
    apply search_loop_appends in Hrun.
    destruct Hrun as [_ [Hlog [Hcount [Hemail [Hurl _]]]]].
    cbn [me start] in *. cbn [results excluded exclusion_stats email base_url with_results].
    repeat split; assumption.
  - intros api terms sy ey mp st st' H. apply search_loop_appends in H. apply H.
Qed.

Lemma search_appends_witness :
  exists papers self',
    search (api_twice aircraft_record aircraft_record) (init None) 2014 2024 1
    = Ok (papers, self')
    /\ results self' = papers
    /\ (exists more,
           excluded self' = excluded (init None) ++ more /\ Forall log_entry more)
    /\ (forall term,
           (default 0 (exclusion_stats (init None) !! term)
            <= default 0 (exclusion_stats self' !! term))%nat)
    /\ email self' = email (init None) /\ base_url self' = base_url (init None).
Proof.
  eexists. eexists. split; [vm_compute; reflexivity|].
  apply (proj1 search_appends (api_twice aircraft_record aircraft_record)
           (init None) 2014 2024 1).
  vm_compute. reflexivity.
Defined.

(** X16: a record with a null title that the classifier rejects makes
    the loop body raise TypeError, when it slices the title for the
    exclusion log; [search] ends with that exception. *)
Theorem null_title_rejected_raises
    (paper paper_data : dict) (st : run) (k : key) (reason : string)
    (self' : searcher) :
  Py.lookup "title" paper = Some VNone ->
  hash_key (Py.get paper "id" (VStr "")) = Ok k ->
  accepted_lookup k (all_results st) = None ->
  _parse_paper (VDict paper) = Some paper_data ->
  is_relevant paper_data (me st) = Ok ((false, reason), self') ->
  process_record (VDict paper) st = Raise TypeError
  /\ forall api rest left params,
      api (requests st) params
      = Json (VDict [("results", VList (VDict paper :: rest))]) ->
      fetch_pages api (S left) params st = Raise TypeError.
Proof.
  intros Ht Hk Hl Hp Hr.
  assert (Hrec : process_record (VDict paper) st = Raise TypeError).
  { unfold process_record, process_record_with. cbn [Py.vget]. run_bind.
    rewrite Hk. run_bind. rewrite Hl, Hp, Hr. run_bind.
    destruct (parse_paper_fields paper paper_data Hp) as [Htitle _].
    unfold Py.get at 1. rewrite Htitle. unfold Py.get. rewrite Ht. reflexivity. }
  split; [exact Hrec|].
  intros api rest left params Hapi. cbn [fetch_pages]. rewrite Hapi.
  cbn [Py.vget Py.get Py.lookup String.eqb Ascii.eqb Bool.eqb]. run_bind.
  cbn [Py.truthy negb Py.iter]. cbv beta iota. cbn [process_records]. run_bind.
  assert (Hsent : process_record (VDict paper) (sent st) = Raise TypeError).
  { unfold process_record, process_record_with. cbn [Py.vget]. run_bind.
    rewrite Hk. run_bind. cbn [all_results sent me]. rewrite Hl, Hp, Hr. run_bind.
    destruct (parse_paper_fields paper paper_data Hp) as [Htitle _].
    unfold Py.get at 1. rewrite Htitle. unfold Py.get. rewrite Ht. reflexivity. }
  rewrite Hsent. reflexivity.
Qed.

Lemma null_title_rejected_raises_witness :
  (process_record (VDict null_title_record) (start (init None)) = Raise TypeError
   /\ forall api rest left params,
       api (requests (start (init None))) params
       = Json (VDict [("results", VList (VDict null_title_record :: rest))]) ->
       fetch_pages api (S left) params (start (init None)) = Raise TypeError)
  /\ search (api_once (VDict null_title_record)) (init None) 2014 2024 1
     = Raise TypeError.
Proof.
  split; [|vm_compute; reflexivity].
  eapply (null_title_rejected_raises null_title_record _ (start (init None))
            (KStr "https://openalex.org/W14") "No core NDT method" (init None)).
  - reflexivity.
  - reflexivity.
  - reflexivity.
  - vm_compute. reflexivity.
  - vm_compute. reflexivity.
Defined.







(** ** More on the BibTeX export *)

Lemma pretty_N_go_digits (x : N) (s : string) :
  Forall (fun c => is_digit c = true) (list_ascii_of_string s) ->
  Forall (fun c => is_digit c = true) (list_ascii_of_string (pretty_N_go x s)).
Proof.
  revert s. induction (N.lt_wf_0 x) as [x _ IH]; intros s Hs.
  assert (x = 0 \/ 0 < x)%N as [-> | Hx] by lia.
  - rewrite pretty_N_go_0. exact Hs.
  - rewrite pretty_N_go_step by exact Hx. apply IH.
    + apply N.div_lt; [exact Hx | reflexivity].
    + cbn [list_ascii_of_string]. constructor; [|exact Hs].
      unfold pretty_N_char. repeat case_match; reflexivity.
Qed.

Lemma pretty_nat_digits (i : nat) :
  Forall (fun c => is_digit c = true) (list_ascii_of_string (pretty i)).
Proof.
  unfold pretty, pretty_nat, pretty, pretty_N.
  destruct (decide (N.of_nat i = 0%N)); [repeat constructor|].
  apply pretty_N_go_digits. constructor.
Qed.

(** Two strings that end in an underscore followed by digits and are
    equal have the same digits. *)
Lemma same_digits_after_underscore (a1 a2 d1 d2 : string) :
  Forall (fun c => is_digit c = true) (list_ascii_of_string d1) ->
  Forall (fun c => is_digit c = true) (list_ascii_of_string d2) ->
  a1 +:+ "_" +:+ d1 = a2 +:+ "_" +:+ d2 ->
  d1 = d2.
Proof.
  intros H1 H2.
  assert (Hno : forall (d a rest : string),
             Forall (fun c => is_digit c = true) (list_ascii_of_string d) ->
             d <> a +:+ "_" +:+ rest).
  { intros d a rest Hd Heq. subst d. induction a as [|c a IHa].
    - inversion Hd as [|? ? Hc _]. discriminate Hc.
    - inversion Hd as [|? ? _ Hrest]. exact (IHa Hrest). }
  revert a2. induction a1 as [|c a1 IH]; intros a2 Heq.
  - destruct a2 as [|c2 a2].
    + change (String "_" d1 = String "_" d2) in Heq.
      injection Heq as ->. reflexivity.
    + change ("" +:+ "_" +:+ d1) with (String "_" d1) in Heq.
      change (String c2 a2 +:+ "_" +:+ d2) with (String c2 (a2 +:+ "_" +:+ d2)) in Heq.
      injection Heq as _ Heq. exfalso. exact (Hno d1 a2 d2 H1 Heq).
  - destruct a2 as [|c2 a2].
    + change ("" +:+ "_" +:+ d2) with (String "_" d2) in Heq.
      change (String c a1 +:+ "_" +:+ d1) with (String c (a1 +:+ "_" +:+ d1)) in Heq.
      injection Heq as _ Heq. exfalso. exact (Hno d2 a1 d1 H2 (eq_sym Heq)).
    + change (String c a1 +:+ "_" +:+ d1) with (String c (a1 +:+ "_" +:+ d1)) in Heq.
      change (String c2 a2 +:+ "_" +:+ d2) with (String c2 (a2 +:+ "_" +:+ d2)) in Heq.
      injection Heq as _ Heq. exact (IH a2 Heq).
Qed.

(** X18: citation keys of different indices differ, whatever the
    surnames and years are: within one export no two entries share a
    key. *)
Theorem cite_keys_distinct
    (surname1 surname2 : string) (year1 year2 : value) (i j : nat) :
  i <> j -> cite_key surname1 year1 i <> cite_key surname2 year2 j.
Proof.
  intros Hne Heq. apply Hne. rewrite !cite_key_parts in Heq.
  rewrite <- (append_assoc (Str.filter kept surname1) (Str.filter kept (Fmt.str year1))),
    <- (append_assoc (Str.filter kept surname2) (Str.filter kept (Fmt.str year2)))
    in Heq.
  apply same_digits_after_underscore in Heq; try apply pretty_nat_digits.
  exact (pretty_nat_inj _ _ Heq).
Qed.

Lemma cite_keys_distinct_witness :
  1%nat <> 11%nat
  /\ cite_key "Smith" (VInt 2020) 1 <> cite_key "Smith" (VInt 2020) 11.
Proof.
  split; [lia|].
  apply (cite_keys_distinct "Smith" "Smith" (VInt 2020) (VInt 2020) 1 11). lia.
Defined.

Lemma accepted_has_export_fields (raw paper_data : dict) (self : searcher) answer reason :
  _parse_paper (VDict raw) = Some paper_data ->
  is_relevant paper_data self = Ok answer ->
  export_fields (Py.set "assessment_tasks" (VStr reason) paper_data).
Proof.
  intros Hp Hr. pose proof (is_relevant_title _ _ _ Hr) as Ht.
  destruct (parse_paper_steps _ _ Hp)
    as [authorships [authors [src [abstract [authors_str [doi [journal [is_oa
         [_ [_ [_ [_ [_ [_ [_ [_ ->]]]]]]]]]]]]]]]].
  unfold Py.get at 1 in Ht. unfold Py.get at 2 in Ht.
  cbn [Py.lookup String.eqb Ascii.eqb Bool.eqb] in Ht.
  unfold export_fields.
  cbn [Py.set Py.lookup String.eqb Ascii.eqb Bool.eqb andb].
  split; [eexists; reflexivity|]. split; [eexists; reflexivity|].
  split; [eexists; reflexivity|]. split; [eexists; reflexivity|].
  eexists. split; [reflexivity | exact Ht].
Qed.

Lemma process_record_keeps_export_fields paper st st' :
  process_record paper st = Ok st' -> keeps_export_fields st st'.
Proof.
  intros H Hall. apply process_record_outcome in H.
  destruct H as [-> | raw pd k reason Hraw Hk Hl Hp Hr Hres Hme Hreq
                    | raw pd k reason self' title Hraw Hk Hl Hp Hr Ht Hres Hme Hreq].
  - exact Hall.
  - rewrite Hres. apply Forall_app. split; [exact Hall|].
    constructor; [|constructor]. cbn [snd]. subst paper.
    exact (accepted_has_export_fields raw pd (me st) _ reason Hp Hr).
  - rewrite Hres. exact Hall.
Qed.

Lemma keeps_export_fields_refl st : keeps_export_fields st st.
Proof. intros H. exact H. Qed.

Lemma keeps_export_fields_trans a b c :
  keeps_export_fields a b -> keeps_export_fields b c -> keeps_export_fields a c.
Proof. intros H1 H2 H. exact (H2 (H1 H)). Qed.

Lemma keeps_export_fields_sent st : keeps_export_fields st (sent st).
Proof. intros H. exact H. Qed.

(** With the export fields there, an entry fails only at line 438 (no
    surname: IndexError) or at line 441 (title not a string:
    AttributeError). *)
Lemma bibtex_entry_outcome (i : nat) (paper : dict) :
  export_fields paper ->
  match bibtex_entry i paper with
  | Ok _ => printable paper
  | Raise e => (e = IndexError \/ e = AttributeError) /\ ~ printable paper
  end.
Proof.
  intros [[authors Ha] [[doi Hd] [[year Hy] [[journal Hj] [title [Ht Htitle]]]]]].
  unfold bibtex_entry, item. rewrite Ha, Hy, Ht, Hj, Hd. run_bind.
  destruct (surname_of authors) as [surname|] eqn:Hs.
  - rewrite (first_author_spec authors surname Hs). run_bind.
    destruct title as [| | |s|l|d]; cbn [escape_title Py.vreplace]; run_bind;
      try (split; [right; reflexivity|];
           intros [a [t [sn [_ [Ht' _]]]]]; rewrite Ht in Ht'; discriminate Ht').
    exists authors, s, surname. repeat split; assumption.
  - assert (Hnot : ~ printable paper).
    { intros [a [t [sn [Ha' [_ Hs']]]]]. rewrite Ha in Ha'. injection Ha' as <-.
      congruence. }
    assert (Hfirst : first_author (VStr authors) = Raise IndexError).
    { unfold surname_of in Hs. unfold first_author. cbn [Py.truthy].
      destruct (String.eqb authors ""); [discriminate Hs|]. cbn [negb].
      rewrite Hs. reflexivity. }
    rewrite Hfirst. run_bind. split; [left; reflexivity | exact Hnot].
Qed.

Lemma bibtex_entries_printable (papers : list dict) :
  forall i,
    Forall export_fields papers -> Forall printable papers ->
    exists entries, bibtex_entries i papers = Ok entries.
Proof.
  induction papers as [|paper papers IH]; intros i Hf Hp; cbn [bibtex_entries].
  - eexists. reflexivity.
  - inversion Hf as [|? ? Hf1 Hf2]; inversion Hp as [|? ? Hp1 Hp2]; subst.
    pose proof (bibtex_entry_outcome i paper Hf1) as Hout.
    destruct (bibtex_entry i paper) as [entry|e]; [|destruct Hout as [_ Hn]; contradiction].
    run_bind. destruct (IH (S i) Hf2 Hp2) as [entries ->]. run_bind.
    eexists. reflexivity.
Qed.

(** X19: what [search] returns can be handed to [export_to_bibtex]:
    every paper has the fields the export reads, so building an entry
    never fails on a missing key; it fails only for a paper whose title
    is not a string (AttributeError) or whose first author has no
    surname (IndexError), and when no paper is like that the export
    writes the file and returns its name. *)
Theorem search_results_exportable
    (api : nat -> dict -> response) (self self' : searcher)
    (start_year end_year max_pages : Z) (papers : list dict) :
  search api self start_year end_year max_pages = Ok (papers, self') ->
  Forall export_fields papers
  /\ (forall i paper e,
         In paper papers -> bibtex_entry i paper = Raise e ->
         (e = IndexError \/ e = AttributeError) /\ ~ printable paper)
  /\ (forall filename,
         papers <> [] -> Forall printable papers ->
         exists content, export_to_bibtex self' filename = Ok (filename, Some content)).
Proof.
  unfold search.
  destruct (search_run api self start_year end_year max_pages) as [st|] eqn:Hrun;
    run_bind; [|discriminate].
  intros H. injection H as <- <-. unfold search_run in Hrun.
  apply (search_loop_lift api keeps_export_fields keeps_export_fields_refl
           keeps_export_fields_trans keeps_export_fields_sent
           process_record_keeps_export_fields) in Hrun.
  assert (Hfields : Forall export_fields (map snd (all_results st))).
  { specialize (Hrun (List.Forall_nil _)). clear -Hrun.
    induction Hrun; cbn [map]; constructor; assumption. }
  split; [exact Hfields|]. split.
  - intros i paper e Hin He. rewrite List.Forall_forall in Hfields.
    pose proof (bibtex_entry_outcome i paper (Hfields paper Hin)) as Hout.
    rewrite He in Hout. exact Hout.
  - intros filename Hne Hprint. unfold export_to_bibtex. cbn [results with_results].
    destruct (bibtex_entries_printable _ 0%nat Hfields Hprint) as [entries He].
    destruct (map snd (all_results st)) as [|paper rest]; [congruence|].
    rewrite He. run_bind. eexists. reflexivity.
Qed.

Lemma search_results_exportable_witness :
  Forall export_fields [underscore_paper]
  /\ (forall i paper e,
         In paper [underscore_paper] -> bibtex_entry i paper = Raise e ->
         (e = IndexError \/ e = AttributeError) /\ ~ printable paper)
  /\ (forall filename,
         [underscore_paper] <> [] -> Forall printable [underscore_paper] ->
         exists content,
           export_to_bibtex (with_results [underscore_paper] (init None)) filename
           = Ok (filename, Some content)).
Proof.
  apply (search_results_exportable (api_once underscore_record) (init None) _ 2014 2024 1).
  vm_compute. reflexivity.
Defined.

(** ** The statistics *)

(** The lower-cased reason holds a task name exactly when the test of
    that task succeeded. *)
Lemma lowered_reason_names g s d f m :
  let tasks := Str.lower (tasks_reason (names_found g s d f m)) in
  Str.contains "geometry" tasks = g
  /\ Str.contains "strength" tasks = s
  /\ Str.contains "deterioration" tasks = d
  /\ Str.contains "defects" tasks = f
  /\ Str.contains "moisture" tasks = m.
Proof. destruct g, s, d, f, m; vm_compute; repeat split. Qed.

Lemma count_paper_tasks_five (tasks : string) (g s d f m : nat) :
  count_paper_tasks tasks
    [("geometry", g); ("strength", s); ("deterioration", d); ("defects", f);
     ("moisture", m)]
  = [("geometry", (g + count_of (Str.contains "geometry" tasks))%nat);
     ("strength", (s + count_of (Str.contains "strength" tasks))%nat);
     ("deterioration", (d + count_of (Str.contains "deterioration" tasks))%nat);
     ("defects", (f + count_of (Str.contains "defects" tasks))%nat);
     ("moisture", (m + count_of (Str.contains "moisture" tasks))%nat)].
Proof.
  unfold count_paper_tasks.
  destruct (Str.contains "geometry" tasks), (Str.contains "strength" tasks),
    (Str.contains "deterioration" tasks), (Str.contains "defects" tasks),
    (Str.contains "moisture" tasks);
    cbn [bump map fst snd String.eqb Ascii.eqb Bool.eqb count_of];
    repeat f_equal; lia.
Qed.

Lemma count_tasks_labelled (papers : list dict) :
  forall g s d f m,
    Forall labelled papers ->
    count_tasks papers
      [("geometry", g); ("strength", s); ("deterioration", d); ("defects", f);
       ("moisture", m)]
    = Ok [("geometry", (g + papers_mentioning TASK_GEOMETRY papers)%nat);
          ("strength", (s + papers_mentioning TASK_STRENGTH papers)%nat);
          ("deterioration", (d + papers_mentioning TASK_DETERIORATION papers)%nat);
          ("defects", (f + papers_mentioning TASK_DEFECTS papers)%nat);
          ("moisture", (m + papers_mentioning TASK_MOISTURE papers)%nat)].
Proof.
  induction papers as [|paper papers IH]; intros g s d f m Hall.
  - cbn [count_tasks]. unfold papers_mentioning. cbn [List.filter length].
    rewrite !Nat.add_0_r. reflexivity.
  - inversion Hall as [|? ? [text [Ht Hl]] Hrest]; subst.
    cbn [count_tasks]. unfold Py.get. rewrite Hl. cbn [Py.vlower]. run_bind.
    rewrite count_paper_tasks_five, IH by exact Hrest.
    pose proof (lowered_reason_names (any_in TASK_GEOMETRY text)
                  (any_in TASK_STRENGTH text) (any_in TASK_DETERIORATION text)
                  (any_in TASK_DEFECTS text) (any_in TASK_MOISTURE text)) as Hn.
    cbv zeta in Hn. change (names_found _ _ _ _ _) with (tasks_found text) in Hn.
    destruct Hn as [-> [-> [-> [-> ->]]]].
    unfold papers_mentioning. cbn [List.filter]. rewrite Ht.
    destruct (any_in TASK_GEOMETRY text), (any_in TASK_STRENGTH text),
      (any_in TASK_DETERIORATION text), (any_in TASK_DEFECTS text),
      (any_in TASK_MOISTURE text);
      cbn [count_of length]; f_equal;
      repeat (apply f_equal2; [apply f_equal2; [reflexivity | lia]|]); reflexivity.
Qed.

Lemma paper_text_set_tasks (paper : dict) (v : value) :
  paper_text (Py.set "assessment_tasks" v paper) = paper_text paper.
Proof.
  unfold paper_text, Py.get. rewrite !lookup_set_ne by discriminate. reflexivity.
Qed.

Lemma stamped_labelled (entry : key * dict) : stamped entry -> labelled (snd entry).
Proof.
  intros [pd [reason [self [Hr [Hset [Hl _]]]]]].
  destruct (is_relevant_accepts _ _ _ _ Hr) as [text [Ht [_ [_ [_ [_ [Hreason _]]]]]]].
  exists text. split.
  - rewrite Hset, paper_text_set_tasks. exact Ht.
  - rewrite Hl, Hreason. reflexivity.
Qed.

(** X20: the task breakdown of the statistics agrees with the
    classifier: after a search, by_assessment_task gives for each of the
    five tasks the number of returned papers whose text has a keyword of
    that task's set, and computing it raises nothing. *)
Theorem task_counts_match_classifier
    (api : nat -> dict -> response) (self self' : searcher)
    (start_year end_year max_pages : Z) (papers : list dict) :
  search api self start_year end_year max_pages = Ok (papers, self') ->
  by_assessment_task self'
  = Ok [("geometry", papers_mentioning TASK_GEOMETRY papers);
        ("strength", papers_mentioning TASK_STRENGTH papers);
        ("deterioration", papers_mentioning TASK_DETERIORATION papers);
        ("defects", papers_mentioning TASK_DEFECTS papers);
        ("moisture", papers_mentioning TASK_MOISTURE papers)].
Proof.
  unfold search.
  destruct (search_run api self start_year end_year max_pages) as [st|] eqn:Hrun;
    run_bind; [|discriminate].
  intros H. injection H as <- <-. unfold search_run in Hrun.
  apply search_loop_grows in Hrun. destruct Hrun as [_ Hsound].
  destruct (Hsound (start_sound self)) as [_ Hst].
  unfold by_assessment_task. cbn [results with_results].
  apply (count_tasks_labelled _ 0 0 0 0 0)%nat.
  clear -Hst. induction Hst as [|entry m He _ IH]; cbn [map]; constructor.
  - apply stamped_labelled, He.
  - exact IH.
Qed.

Lemma task_counts_match_classifier_witness :
  exists papers self',
    search (api_twice geometry_record aircraft_record) (init None) 2014 2024 1
    = Ok (papers, self')
    /\ by_assessment_task self'
       = Ok [("geometry", papers_mentioning TASK_GEOMETRY papers);
             ("strength", papers_mentioning TASK_STRENGTH papers);
             ("deterioration", papers_mentioning TASK_DETERIORATION papers);
             ("defects", papers_mentioning TASK_DEFECTS papers);
             ("moisture", papers_mentioning TASK_MOISTURE papers)]
    /\ papers_mentioning TASK_GEOMETRY papers = 1%nat.
Proof.
  eexists. eexists. split; [vm_compute; reflexivity|].
  split; [|vm_compute; reflexivity].
  apply (task_counts_match_classifier (api_twice geometry_record aircraft_record)
           (init None) _ 2014 2024 1).
  vm_compute. reflexivity.
Defined.

Lemma tally_add_lookup (k k' : key) (m : tally) :
  tally_lookup k' (tally_add k m)
  = if decide (k' = k) then Some (S (default 0%nat (tally_lookup k m)))
    else tally_lookup k' m.
Proof.
  induction m as [|[k0 n] m IH]; cbn [tally_add tally_lookup].
  - destruct (decide (k' = k)); reflexivity.
  - destruct (decide (k = k0)) as [-> | Hne]; cbn [tally_lookup].
    + destruct (decide (k' = k0)); reflexivity.
    + destruct (decide (k' = k0)) as [-> | Hne'].
      * destruct (decide (k0 = k)); [congruence | reflexivity].
      * exact IH.
Qed.

Lemma tally_add_keys (k : key) (m : tally) :
  NoDup (map fst m) ->
  NoDup (map fst (tally_add k m))
  /\ forall k', In k' (map fst (tally_add k m)) <-> k' = k \/ In k' (map fst m).
Proof.
  induction m as [|[k0 n] m IH]; cbn [tally_add map fst]; intros Hnd.
  - split; [apply NoDup_singleton|]. intros k'. cbn [In]. intuition congruence.
  - apply NoDup_cons in Hnd as [Hnot Hnd]. destruct (IH Hnd) as [IH1 IH2].
    destruct (decide (k = k0)) as [-> | Hne]; cbn [map fst].
    + split; [apply NoDup_cons; split; assumption|]. intros k'. cbn [In]. intuition congruence.
    + split.
      * apply NoDup_cons. split; [|exact IH1].
        rewrite list_elem_of_In, IH2. rewrite list_elem_of_In in Hnot.
        intros [Heq | Hin]; [congruence | contradiction].
      * intros k'. cbn [In]. rewrite IH2. intuition congruence.
Qed.

Lemma tally_add_positive (k : key) (m : tally) :
  Forall (fun e => (0 < snd e)%nat) m -> Forall (fun e => (0 < snd e)%nat) (tally_add k m).
Proof.
  induction 1 as [|[k0 n] m Hn Hm IH]; cbn [tally_add].
  - constructor; [cbn; lia | constructor].
  - destruct (decide (k = k0)); constructor; cbn [snd] in *; try lia; assumption.
Qed.

Lemma tally_lookup_in (k : key) (n : nat) (m : tally) :
  NoDup (map fst m) -> In (k, n) m <-> tally_lookup k m = Some n.
Proof.
  induction m as [|[k0 n0] m IH]; cbn [map fst tally_lookup In]; intros Hnd.
  - split; [intros [] | discriminate].
  - apply NoDup_cons in Hnd as [Hnot Hnd]. rewrite list_elem_of_In in Hnot.
    destruct (decide (k = k0)) as [-> | Hne].
    + split.
      * intros [Heq | Hin]; [congruence|]. exfalso. apply Hnot.
        apply in_map_iff. exists (k0, n). split; [reflexivity | exact Hin].
      * intros H. injection H as ->. left. reflexivity.
    + rewrite <- (IH Hnd). split; [intros [Heq | Hin]; [congruence | exact Hin] | tauto].
Qed.

Lemma counted_keys_cons field dflt (paper : dict) (papers : list dict) :
  counted_keys field dflt (paper :: papers)
  = match counted_key field dflt paper with
    | Some k => k :: counted_keys field dflt papers
    | None => counted_keys field dflt papers
    end.
Proof. reflexivity. Qed.

(** The dict a counting loop builds from the keys it meets. *)
Lemma count_by_keys field dflt (papers : list dict) :
  forall m m',
    count_by field dflt papers m = Ok m' ->
    m' = fold_left (fun acc k => tally_add k acc) (counted_keys field dflt papers) m.
Proof.
  induction papers as [|paper papers IH]; intros m m'; cbn [count_by].
  - intros H. injection H as <-. reflexivity.
  - rewrite counted_keys_cons. unfold counted_key.
    destruct (Py.truthy (Py.get paper field dflt)).
    + destruct (hash_key (Py.get paper field dflt)) as [k|]; run_bind; [|discriminate].
      intros H. cbn [fold_left]. exact (IH _ _ H).
    + intros H. exact (IH _ _ H).
Qed.

Lemma count_by_raises field dflt (papers : list dict) :
  forall m e, count_by field dflt papers m = Raise e -> e = TypeError.
Proof.
  induction papers as [|paper papers IH]; intros m e; cbn [count_by]; [discriminate|].
  destruct (Py.truthy (Py.get paper field dflt)); [|apply IH].
  destruct (Py.get paper field dflt) as [| | | | |]; cbn [hash_key]; run_bind;
    try apply IH; intros H; congruence.
Qed.

Lemma occurrences_cons (k k' : key) (keys : list key) :
  occurrences k (k' :: keys)
  = ((if decide (k = k') then 1 else 0) + occurrences k keys)%nat.
Proof.
  unfold occurrences. cbn [List.filter].
  destruct (decide (k = k')) as [Heq | Hne].
  - rewrite bool_decide_eq_true_2 by exact Heq. reflexivity.
  - rewrite bool_decide_eq_false_2 by exact Hne. reflexivity.
Qed.

Lemma tally_fold (keys : list key) :
  forall m,
    NoDup (map fst m) -> Forall (fun e => (0 < snd e)%nat) m ->
    let m' := fold_left (fun acc k => tally_add k acc) keys m in
    NoDup (map fst m')
    /\ Forall (fun e => (0 < snd e)%nat) m'
    /\ forall k,
        default 0%nat (tally_lookup k m')
        = (default 0%nat (tally_lookup k m) + occurrences k keys)%nat.
Proof.
  induction keys as [|k0 keys IH]; intros m Hnd Hpos; cbn [fold_left].
  - split; [exact Hnd|]. split; [exact Hpos|]. intros k. unfold occurrences. cbn. lia.
  - destruct (tally_add_keys k0 m Hnd) as [Hnd' _].
    destruct (IH (tally_add k0 m) Hnd' (tally_add_positive k0 m Hpos)) as [H1 [H2 H3]].
    split; [exact H1|]. split; [exact H2|].
    intros k. rewrite H3, tally_add_lookup, occurrences_cons.
    destruct (decide (k = k0)) as [-> | Hne]; simpl; lia.
Qed.

(** X21: the counting loops count right: when by_year returns, it holds
    each truthy year of the result list once, with the number of papers
    of that year (at least one); the only exception it can raise is
    TypeError, for a year that cannot be hashed. *)
Theorem year_counts (self : searcher) :
  (forall m,
      by_year self = Ok m ->
      NoDup (map fst m)
      /\ (forall k n,
             In (k, n) m <->
             (0 < n)%nat /\ n = occurrences k (counted_keys "year" VNone (results self))))
  /\ (forall e, by_year self = Raise e -> e = TypeError).
Proof.
  split.
  - intros m H. unfold by_year in H. apply count_by_keys in H.
    destruct (tally_fold (counted_keys "year" VNone (results self)) []
                NoDup_nil_2 (List.Forall_nil _)) as [Hnd [Hpos Hcount]].
    rewrite <- H in Hnd, Hpos, Hcount. split; [exact Hnd|].
    intros k n. rewrite (tally_lookup_in k n m Hnd). specialize (Hcount k).
    cbn [tally_lookup default] in Hcount. split.
    + intros Hl. rewrite Hl in Hcount. cbn in Hcount.
      apply (tally_lookup_in k n m Hnd) in Hl.
      rewrite List.Forall_forall in Hpos. specialize (Hpos _ Hl). cbn in Hpos. lia.
    + intros [Hn ->]. destruct (tally_lookup k m) as [n'|]; cbn in Hcount.
      * f_equal. lia.
      * lia.
  - intros e. apply count_by_raises.
Qed.

Lemma year_counts_witness :
  (forall m,
      by_year two_journals_searcher = Ok m ->
      NoDup (map fst m)
      /\ (forall k n,
             In (k, n) m <->
             (0 < n)%nat
             /\ n = occurrences k (counted_keys "year" VNone
                                     (results two_journals_searcher))))
  /\ by_year two_journals_searcher = Ok [(KInt 2020, 2%nat); (KInt 2021, 1%nat)].
Proof.
  split; [|vm_compute; reflexivity].
  exact (proj1 (year_counts two_journals_searcher)).
Defined.

Lemma insert_by_count_perm (x : key * nat) (l : tally) :
  Permutation (insert_by_count x l) (x :: l).
Proof.
  induction l as [|y l IH]; cbn [insert_by_count]; [reflexivity|].
  destruct (snd x <? snd y)%nat; [|reflexivity].
  rewrite IH. apply perm_swap.
Qed.

Lemma sorted_by_count_perm (m : tally) : Permutation (sorted_by_count m) m.
Proof.
  induction m as [|x m IH]; cbn [sorted_by_count]; [reflexivity|].
  rewrite insert_by_count_perm, IH. reflexivity.
Qed.

Lemma insert_by_count_sorted (x : key * nat) (l : tally) :
  StronglySorted count_ge l -> StronglySorted count_ge (insert_by_count x l).
Proof.
  induction 1 as [|y l Hs IH Hy]; cbn [insert_by_count].
  - constructor; constructor.
  - destruct (Nat.ltb_spec (snd x) (snd y)) as [Hlt | Hge].
    + constructor; [exact IH|].
      rewrite (insert_by_count_perm x l). constructor; [|exact Hy].
      unfold count_ge. lia.
    + constructor; [constructor; assumption|].
      constructor; [unfold count_ge; lia|].
      rewrite List.Forall_forall in Hy |- *. intros z Hz.
      specialize (Hy z Hz). unfold count_ge in *. lia.
Qed.

Lemma sorted_by_count_sorted (m : tally) : StronglySorted count_ge (sorted_by_count m).
Proof.
  induction m as [|x m IH]; cbn [sorted_by_count]; [constructor|].
  apply insert_by_count_sorted, IH.
Qed.

Lemma sorted_descending (l : tally) : StronglySorted count_ge l -> descending l.
Proof.
  induction 1 as [|x l Hs IH Hx]; intros i j a b Hij Hi Hj.
  - discriminate Hi.
  - destruct i as [|i]; destruct j as [|j]; cbn in Hi, Hj.
    + injection Hi as <-. injection Hj as <-. lia.
    + injection Hi as <-. rewrite List.Forall_forall in Hx.
      apply list_elem_of_lookup_2, list_elem_of_In in Hj. exact (Hx b Hj).
    + lia.
    + apply (IH i j a b); [lia | exact Hi | exact Hj].
Qed.

(** X22: by_journal reports at most 15 journals, by decreasing count;
    each reported count is the number of result papers of that journal;
    and a journal that is left out is no more frequent than any journal
    reported.  The only exception raised is TypeError, for a journal
    that cannot be hashed. *)
Theorem top_journals (self : searcher) :
  (forall top,
      by_journal self = Ok top ->
      (length top <= 15)%nat
      /\ descending top
      /\ NoDup (map fst top)
      /\ (forall k n,
             In (k, n) top ->
             (0 < n)%nat
             /\ n = occurrences k (counted_keys "journal" (VStr "Unknown") (results self)))
      /\ (forall k,
             (0 < occurrences k (counted_keys "journal" (VStr "Unknown") (results self)))%nat ->
             ~ In k (map fst top) ->
             length top = 15%nat
             /\ forall entry,
                 In entry top ->
                 (occurrences k (counted_keys "journal" (VStr "Unknown") (results self))
                  <= snd entry)%nat))
  /\ (forall e, by_journal self = Raise e -> e = TypeError).
Proof.
  split.
  - intros top. unfold by_journal.
    destruct (count_by "journal" (VStr "Unknown") (results self) []) as [m|] eqn:Hm;
      run_bind; [|discriminate].
    intros H. injection H as <-. apply count_by_keys in Hm.
    destruct (tally_fold (counted_keys "journal" (VStr "Unknown") (results self)) []
                NoDup_nil_2 (List.Forall_nil _)) as [Hnd [Hpos Hcount]].
    rewrite <- Hm in Hnd, Hpos, Hcount. clear Hm.
    set (keys := counted_keys "journal" (VStr "Unknown") (results self)) in *.
    pose proof (sorted_by_count_perm m) as Hperm.
    pose proof (sorted_descending _ (sorted_by_count_sorted m)) as Hdesc.
    assert (Hentry : forall k n, In (k, n) (sorted_by_count m) ->
                                 (0 < n)%nat /\ n = occurrences k keys).
    { intros k n Hin. apply (Permutation_in _ Hperm) in Hin.
      rewrite List.Forall_forall in Hpos. pose proof (Hpos _ Hin) as Hn. cbn in Hn.
      apply (tally_lookup_in k n m Hnd) in Hin. specialize (Hcount k).
      rewrite Hin in Hcount. cbn in Hcount. lia. }
    assert (Hsub : forall e, In e (take 15 (sorted_by_count m)) ->
                             In e (sorted_by_count m)).
    { intros e He. rewrite <- (take_drop 15 (sorted_by_count m)).
      apply in_or_app. left. exact He. }
    split; [rewrite length_take; lia|].
    split.
    { intros i j a b Hij Hi Hj.
      apply lookup_take_Some in Hi as [Hi _]. apply lookup_take_Some in Hj as [Hj _].
      exact (Hdesc i j a b Hij Hi Hj). }
    split.
    { assert (Hnd' : NoDup (map fst (sorted_by_count m))).
      { assert (Hp : Permutation (map fst (sorted_by_count m)) (map fst m))
          by (apply Permutation_map; exact Hperm).
        rewrite Hp. exact Hnd. }
      rewrite <- (take_drop 15 (sorted_by_count m)), map_app in Hnd'.
      apply NoDup_app in Hnd' as [Hnd' _]. exact Hnd'. }
    split; [intros k n Hin; exact (Hentry k n (Hsub _ Hin))|].
    intros k Hocc Hnot.
    assert (Hin : exists n, In (k, n) (sorted_by_count m) /\ n = occurrences k keys).
    { specialize (Hcount k). cbn in Hcount.
      destruct (tally_lookup k m) as [n|] eqn:Hl; cbn in Hcount; [|lia].
      exists n. split; [|lia].
      apply (Permutation_in _ (Permutation_sym Hperm)).
      apply (tally_lookup_in k n m Hnd). exact Hl. }
    destruct Hin as [n [Hin Hn]].
    apply list_elem_of_In, list_elem_of_lookup in Hin as [i Hi].
    assert (Hlate : (15 <= i)%nat).
    { destruct (Nat.le_gt_cases 15 i) as [Hle | Hlt]; [exact Hle|].
      exfalso. apply Hnot. apply in_map_iff. exists (k, n). split; [reflexivity|].
      apply list_elem_of_In, list_elem_of_lookup. exists i.
      apply lookup_take_Some. split; [exact Hi | exact Hlt]. }
    pose proof (lookup_lt_Some _ _ _ Hi) as Hlen.
    split; [rewrite length_take; lia|].
    intros entry He. apply list_elem_of_In, list_elem_of_lookup in He as [j Hj].
    apply lookup_take_Some in Hj as [Hj Hj15].
    pose proof (Hdesc j i entry (k, n) ltac:(lia) Hj Hi) as Hle. cbn in Hle. lia.
  - intros e. unfold by_journal.
    destruct (count_by "journal" (VStr "Unknown") (results self) []) as [m|e'] eqn:Hm;
      run_bind; [discriminate|].
    intros H. injection H as <-. exact (count_by_raises _ _ _ _ _ Hm).
Qed.

Lemma top_journals_witness :
  by_journal two_journals_searcher
  = Ok [(KStr "Materials", 2%nat); (KStr "NDT Journal", 1%nat)]
  /\ (length [(KStr "Materials", 2%nat); (KStr "NDT Journal", 1%nat)] <= 15)%nat
  /\ descending [(KStr "Materials", 2%nat); (KStr "NDT Journal", 1%nat)].
Proof.
  split; [vm_compute; reflexivity|].
  destruct (proj1 (top_journals two_journals_searcher)
              [(KStr "Materials", 2%nat); (KStr "NDT Journal", 1%nat)])
    as [Hlen [Hdesc _]].
  - vm_compute. reflexivity.
  - split; assumption.
Defined.

(** ** Indexing and rebuilding an abstract *)

Lemma add_position_in (word : string) (p : nat) (inv : inverted_index) w ps :
  In (w, ps) (add_position word p inv) ->
  In (w, ps) inv
  \/ (w = word /\ (ps = [p] \/ exists ps0, In (w, ps0) inv /\ ps = ps0 ++ [p])).
Proof.
  induction inv as [|[w0 ps0] inv IH]; cbn [add_position].
  - intros [H | []]. injection H as <- <-. right. split; [reflexivity | left; reflexivity].
  - destruct (String.eqb_spec word w0) as [-> | Hne].
    + intros [H | H].
      * injection H as <- <-. right. split; [reflexivity|]. right.
        exists ps0. split; [left; reflexivity | reflexivity].
      * left. right. exact H.
    + intros [H | H]; [left; left; exact H|].
      destruct (IH H) as [Hin | [-> [-> | [ps1 [Hin ->]]]]].
      * left. right. exact Hin.
      * right. split; [reflexivity | left; reflexivity].
      * right. split; [reflexivity|]. right. exists ps1. split; [right; exact Hin | reflexivity].
Qed.

Lemma add_position_old (word : string) (p : nat) (inv : inverted_index) w ps :
  In (w, ps) inv ->
  exists ps', In (w, ps') (add_position word p inv) /\ forall q, In q ps -> In q ps'.
Proof.
  induction inv as [|[w0 ps0] inv IH]; cbn [add_position]; [intros []|].
  destruct (String.eqb_spec word w0) as [-> | Hne].
  - intros [H | H].
    + injection H as <- <-. exists (ps0 ++ [p]). split; [left; reflexivity|].
      intros q Hq. apply in_or_app. left. exact Hq.
    + exists ps. split; [right; exact H | auto].
  - intros [H | H].
    + injection H as <- <-. exists ps0. split; [left; reflexivity | auto].
    + destruct (IH H) as [ps' [Hin Hsub]]. exists ps'. split; [right; exact Hin | exact Hsub].
Qed.

Lemma add_position_new (word : string) (p : nat) (inv : inverted_index) :
  exists ps, In (word, ps) (add_position word p inv) /\ In p ps.
Proof.
  induction inv as [|[w0 ps0] inv [ps [Hin Hp]]]; cbn [add_position].
  - exists [p]. split; left; reflexivity.
  - destruct (String.eqb_spec word w0) as [-> | Hne].
    + exists (ps0 ++ [p]). split; [left; reflexivity|].
      apply in_or_app. right. left. reflexivity.
    + exists ps. split; [right; exact Hin | exact Hp].
Qed.

Lemma indexes_step (inv : inverted_index) (done : list string) (word : string) :
  indexes inv done ->
  indexes (add_position word (length done) inv) (done ++ [word]).
Proof.
  intros [H1 H2]. split.
  - intros w ps Hin.
    destruct (add_position_in _ _ _ _ _ Hin) as [Hold | [-> [-> | [ps0 [Hold ->]]]]].
    + destruct (H1 w ps Hold) as [Hne Hps]. split; [exact Hne|].
      intros p Hp. apply lookup_app_l_Some. exact (Hps p Hp).
    + split; [discriminate|]. intros p [<- | []].
      rewrite lookup_app_r by lia. rewrite Nat.sub_diag. reflexivity.
    + destruct (H1 word ps0 Hold) as [_ Hps]. split.
      * intros H. apply app_eq_nil in H as [_ H]. discriminate H.
      * intros p Hp. apply in_app_or in Hp as [Hp | [<- | []]].
        -- apply lookup_app_l_Some. exact (Hps p Hp).
        -- rewrite lookup_app_r by lia. rewrite Nat.sub_diag. reflexivity.
  - intros p w Hp. destruct (Nat.lt_ge_cases p (length done)) as [Hlt | Hge].
    + rewrite lookup_app_l in Hp by exact Hlt.
      destruct (H2 p w Hp) as [ps [Hin Hps]].
      destruct (add_position_old word (length done) inv w ps Hin) as [ps' [Hin' Hsub]].
      exists ps'. split; [exact Hin' | exact (Hsub p Hps)].
    + rewrite lookup_app_r in Hp by exact Hge.
      destruct (p - length done)%nat eqn:Hd; [|destruct n; discriminate Hp].
      injection Hp as <-. assert (p = length done) as -> by lia.
      apply add_position_new.
Qed.

Lemma index_from_indexes (tokens : list string) :
  forall done inv,
    indexes inv done ->
    indexes (index_from (length done) tokens inv) (done ++ tokens).
Proof.
  induction tokens as [|word tokens IH]; intros done inv H; cbn [index_from].
  - rewrite app_nil_r. exact H.
  - pose proof (IH (done ++ [word]) _ (indexes_step inv done word H)) as Hstep.
    rewrite length_app, <- app_assoc in Hstep. cbn [length app] in Hstep.
    rewrite Nat.add_1_r in Hstep. exact Hstep.
Qed.

Lemma index_of_tokens_indexes (tokens : list string) :
  indexes (index_of_tokens tokens) tokens.
Proof.
  apply (index_from_indexes tokens [] []). split.
  - intros w ps [].
  - intros p w H. discriminate H.
Qed.

(** X23: indexing and rebuilding are inverse: for the inverted index
    of a non-empty list of tokens, the parser rebuilds the tokens joined
    by single spaces, and stores them as the abstract. *)
Theorem abstract_round_trip (paper : dict) (tokens : list string) :
  tokens <> [] ->
  Py.lookup "abstract_inverted_index" paper
  = Some (index_value (index_of_tokens tokens)) ->
  reconstruct_abstract paper = Ok (Str.join " " tokens)
  /\ forall paper_data,
      _parse_paper (VDict paper) = Some paper_data ->
      Py.lookup "abstract" paper_data = Some (VStr (Str.join " " tokens)).
Proof.
  intros Hne Hl.
  destruct (index_of_tokens_indexes tokens) as [H1 H2].
  set (inv := index_of_tokens tokens) in *.
  assert (Hwf : well_formed_index inv).
  { split.
    - destruct tokens as [|w tokens]; [congruence|].
      destruct (H2 0%nat w eq_refl) as [ps [Hin _]]. intros Hnil. rewrite Hnil in Hin.
      destruct Hin.
    - apply List.Forall_forall. intros [w ps] Hin. exact (proj1 (H1 w ps Hin)). }
  destruct (reconstruct_abstract_spec paper inv Hl Hwf) as [m [[[e [He Hm]] Hle] Hrun]].
  assert (Hlen : S m = length tokens).
  { destruct e as [w ps]. cbn [snd] in Hm.
    pose proof (proj2 (H1 w ps He) m Hm) as Hlookup.
    apply lookup_lt_Some in Hlookup.
    destruct (tokens !! (length tokens - 1)%nat) as [w'|] eqn:Hlast.
    - destruct (H2 _ w' Hlast) as [ps' [Hin' Hp']].
      pose proof (Hle (w', ps') _ Hin' Hp'). lia.
    - apply lookup_ge_None in Hlast. destruct tokens; [congruence | cbn in Hlast; lia]. }
  assert (Hwords : placed inv (replicate (S m) "") = tokens).
  { apply list_eq. intros p.
    destruct (Nat.lt_ge_cases p (S m)) as [Hlt | Hge].
    - rewrite placed_lookup by (rewrite length_replicate; exact Hlt).
      destruct (tokens !! p) as [w|] eqn:Hp;
        [|apply lookup_ge_None in Hp; lia].
      destruct (H2 p w Hp) as [ps [Hin Hps]].
      assert (Hat : word_at inv p = w).
      { apply (word_at_listed inv w ps p Hin Hps).
        intros w' ps' Hin' Hp'. pose proof (proj2 (H1 w' ps' Hin') p Hp') as Hw.
        congruence. }
      unfold word_at in Hat.
      destruct (find (lists_position p) (rev inv)) as [e'|] eqn:Hf.
      + rewrite Hat. reflexivity.
      + exfalso. pose proof (find_none _ _ Hf (w, ps)) as Hn.
        rewrite <- in_rev in Hn. specialize (Hn Hin).
        unfold lists_position in Hn. cbn [snd] in Hn.
        assert (Ht : existsb (Nat.eqb p) ps = true)
          by (apply existsb_exists; exists p; split; [exact Hps | apply Nat.eqb_refl]).
        congruence.
    - rewrite (proj2 (lookup_ge_None _ _)) by (rewrite placed_length, length_replicate; lia).
      symmetry. apply lookup_ge_None. lia. }
  rewrite Hwords in Hrun. split; [exact Hrun|].
  intros paper_data Hp.
  destruct (parse_paper_abstract paper paper_data Hp) as [abstract [Ha Hf]].
  rewrite Hrun in Ha. injection Ha as <-. exact Hf.
Qed.

Lemma abstract_round_trip_witness :
  reconstruct_abstract [("abstract_inverted_index", index_value (index_of_tokens echo_tokens))]
  = Ok (Str.join " " echo_tokens)
  /\ forall paper_data,
      _parse_paper
        (VDict [("abstract_inverted_index", index_value (index_of_tokens echo_tokens))])
      = Some paper_data ->
      Py.lookup "abstract" paper_data = Some (VStr (Str.join " " echo_tokens)).
Proof.
  apply (abstract_round_trip
           [("abstract_inverted_index", index_value (index_of_tokens echo_tokens))]
           echo_tokens).
  - discriminate.
  - reflexivity.
Defined.

(** ** The material breakdown *)

Lemma lower_app (a b : string) : Str.lower (a +:+ b) = Str.lower a +:+ Str.lower b.
Proof.
  induction a as [|c a IH]; [reflexivity|].
  change (Str.lower (String c a +:+ b))
    with (String (Str.lower_char c) (Str.lower (a +:+ b))).
  rewrite IH. reflexivity.
Qed.

Lemma starts_with_before_blank (w p a : string) :
  Forall (fun c => c <> " "%char) (list_ascii_of_string w) ->
  Str.starts_with w (p +:+ String " " a) = Str.starts_with w p.
Proof.
  revert w. induction p as [|x p IH]; intros w Hw.
  - destruct w as [|c w]; [reflexivity|].
    change (Str.starts_with (String c w) ("" +:+ String " " a))
      with (Ascii.eqb c " " && Str.starts_with w a).
    cbn [list_ascii_of_string] in Hw.
    inversion Hw as [|? ? Hc _]; subst.
    destruct (Ascii.eqb_spec c " ") as [-> | _]; [congruence | reflexivity].
  - destruct w as [|c w]; [reflexivity|].
    change (Str.starts_with (String c w) (String x p +:+ String " " a))
      with (Ascii.eqb c x && Str.starts_with w (p +:+ String " " a)).
    cbn [list_ascii_of_string] in Hw.
    inversion Hw as [|? ? _ Hrest]; subst.
    rewrite (IH w Hrest). reflexivity.
Qed.

Lemma contains_across_blank (w p a : string) :
  one_word w ->
  Str.contains w (p +:+ String " " a) = Str.contains w p || Str.contains w a.
Proof.
  intros [Hne Hw]. induction p as [|x p IH].
  - destruct w as [|c w]; [congruence|].
    change (Str.contains (String c w) ("" +:+ String " " a))
      with (Ascii.eqb c " " && Str.starts_with w a || Str.contains (String c w) a).
    cbn [list_ascii_of_string] in Hw.
    inversion Hw as [|? ? Hc _]; subst.
    destruct (Ascii.eqb_spec c " ") as [-> | _]; [congruence | reflexivity].
  - change (String x p +:+ String " " a) with (String x (p +:+ String " " a)).
    change (Str.contains w (String x (p +:+ String " " a)))
      with (Str.starts_with w (String x (p +:+ String " " a))
            || Str.contains w (p +:+ String " " a)).
    change (Str.contains w (String x p))
      with (Str.starts_with w (String x p) || Str.contains w p).
    rewrite IH.
    change (String x (p +:+ String " " a)) with (String x p +:+ String " " a).
    rewrite (starts_with_before_blank w (String x p) a Hw).
    rewrite orb_assoc. reflexivity.
Qed.

Lemma material_words_one_word (w : string) : In w material_words -> one_word w.
Proof.
  intros H. unfold material_words in H. cbn [In] in H.
  destruct H as [<- | [<- | [<- | [<- | [<- | []]]]]];
    (split; [discriminate | repeat constructor; discriminate]).
Qed.

(** What the f-string renders for a falsy title or abstract holds no
    material word, and a string is scanned as the classifier scans
    it. *)
Lemma scan_piece (o : option value) (s w : string) :
  Py.vlower (Py.or_ (match o with Some v => v | None => VNone end) (VStr "")) = Ok s ->
  In w material_words ->
  Str.contains w (Str.lower (Fmt.str (match o with Some v => v | None => VStr "" end)))
  = Str.contains w s.
Proof.
  intros Hs Hw. unfold material_words in Hw. cbn [In] in Hw.
  destruct o as [[| [|] | z | t | [|x l] | [|x d]]|];
    unfold Py.or_ in Hs; cbn [Py.truthy] in Hs.
  - injection Hs as <-.
    destruct Hw as [<- | [<- | [<- | [<- | [<- | []]]]]]; vm_compute; reflexivity.
  - discriminate Hs.
  - injection Hs as <-.
    destruct Hw as [<- | [<- | [<- | [<- | [<- | []]]]]]; vm_compute; reflexivity.
  - destruct (Z.eqb_spec z 0) as [-> | _]; cbn [negb] in Hs; [|discriminate Hs].
    injection Hs as <-.
    destruct Hw as [<- | [<- | [<- | [<- | [<- | []]]]]]; vm_compute; reflexivity.
  - destruct (String.eqb_spec t "") as [-> | _]; cbn [negb Py.vlower] in Hs;
      injection Hs as <-; reflexivity.
  - injection Hs as <-.
    destruct Hw as [<- | [<- | [<- | [<- | [<- | []]]]]]; vm_compute; reflexivity.
  - discriminate Hs.
  - injection Hs as <-.
    destruct Hw as [<- | [<- | [<- | [<- | [<- | []]]]]]; vm_compute; reflexivity.
  - discriminate Hs.
  - injection Hs as <-. reflexivity.
Qed.

Lemma material_scan (paper : dict) (text w : string) :
  paper_text paper = Ok text ->
  In w material_words ->
  Str.contains w (material_text paper) = Str.contains w text.
Proof.
  intros Ht Hw. unfold paper_text, Py.get in Ht.
  destruct (Py.vlower (Py.or_ match Py.lookup "title" paper with
                              | Some v => v | None => VNone end (VStr "")))
    as [title|] eqn:Htitle; unfold mbind, result_bind, rbind in Ht; cbv beta iota in Ht; [|discriminate Ht].
  destruct (Py.vlower (Py.or_ match Py.lookup "abstract" paper with
                              | Some v => v | None => VNone end (VStr "")))
    as [abstract|] eqn:Habstract; unfold mbind, result_bind, rbind in Ht; cbv beta iota in Ht; [|discriminate Ht].
  injection Ht as <-.
  unfold material_text, Py.get.
  rewrite lower_app.
  change (" " +:+ ?x) with (String " " x).
  change (Str.lower (String " " ?x)) with (String " " (Str.lower x)).
  rewrite !contains_across_blank by (apply material_words_one_word, Hw).
  rewrite (scan_piece _ _ _ Htitle Hw), (scan_piece _ _ _ Habstract Hw).
  reflexivity.
Qed.

Lemma count_paper_materials_four (text : string) (c s t m : nat) :
  count_paper_materials text [("concrete", c); ("steel", s); ("timber", t); ("masonry", m)]
  = [("concrete", (c + count_of (Str.contains "concrete" text))%nat);
     ("steel", (s + count_of (Str.contains "steel" text))%nat);
     ("timber",
      (t + count_of (Str.contains "timber" text || Str.contains "wood" text))%nat);
     ("masonry", (m + count_of (Str.contains "masonry" text))%nat)].
Proof.
  unfold count_paper_materials.
  destruct (Str.contains "concrete" text), (Str.contains "steel" text),
    (Str.contains "timber" text || Str.contains "wood" text),
    (Str.contains "masonry" text);
    cbn [bump map fst snd String.eqb Ascii.eqb Bool.eqb count_of];
    repeat (apply f_equal2; [apply f_equal2; [reflexivity | lia]|]); reflexivity.
Qed.

Lemma papers_mentioning_cons (kws : list string) (paper : dict) (papers : list dict)
      (text : string) :
  paper_text paper = Ok text ->
  papers_mentioning kws (paper :: papers)
  = (count_of (any_in kws text) + papers_mentioning kws papers)%nat.
Proof.
  intros Ht. unfold papers_mentioning. cbn [List.filter]. rewrite Ht.
  destruct (any_in kws text); reflexivity.
Qed.

Lemma count_materials_labelled (papers : list dict) :
  forall c s t m,
    Forall labelled papers ->
    count_materials papers [("concrete", c); ("steel", s); ("timber", t); ("masonry", m)]
    = [("concrete", (c + papers_mentioning ["concrete"] papers)%nat);
       ("steel", (s + papers_mentioning ["steel"] papers)%nat);
       ("timber", (t + papers_mentioning ["timber"; "wood"] papers)%nat);
       ("masonry", (m + papers_mentioning ["masonry"] papers)%nat)].
Proof.
  induction papers as [|paper papers IH]; intros c s t m Hall.
  - cbn [count_materials]. unfold papers_mentioning. cbn [List.filter length].
    rewrite !Nat.add_0_r. reflexivity.
  - inversion Hall as [|? ? [text [Ht _]] Hrest]; subst.
    cbn [count_materials]. rewrite count_paper_materials_four, IH by exact Hrest.
    rewrite !(papers_mentioning_cons _ paper papers text Ht).
    rewrite !(material_scan paper text) by (unfold material_words; cbn [In]; tauto).
    change (any_in ["concrete"] text) with (Str.contains "concrete" text || false).
    change (any_in ["steel"] text) with (Str.contains "steel" text || false).
    change (any_in ["timber"; "wood"] text)
      with (Str.contains "timber" text || (Str.contains "wood" text || false)).
    change (any_in ["masonry"] text) with (Str.contains "masonry" text || false).
    rewrite !orb_false_r.
    repeat (apply f_equal2; [apply f_equal2; [reflexivity | lia]|]); reflexivity.
Qed.

(** X24: the material breakdown of the statistics agrees with the
    text the classifier scanned: after a search, by_material gives the
    number of returned papers whose lower-cased title and abstract hold
    "concrete", "steel", "timber" or "wood" (both counted as timber),
    and "masonry"; a title that is not a string adds nothing. *)
Theorem material_counts_match_texts
    (api : nat -> dict -> response) (self self' : searcher)
    (start_year end_year max_pages : Z) (papers : list dict) :
  search api self start_year end_year max_pages = Ok (papers, self') ->
  by_material self'
  = [("concrete", papers_mentioning ["concrete"] papers);
     ("steel", papers_mentioning ["steel"] papers);
     ("timber", papers_mentioning ["timber"; "wood"] papers);
     ("masonry", papers_mentioning ["masonry"] papers)].
Proof.
  unfold search.
  destruct (search_run api self start_year end_year max_pages) as [st|] eqn:Hrun;
    run_bind; [|discriminate].
  intros H. injection H as <- <-. unfold search_run in Hrun.
  apply search_loop_grows in Hrun. destruct Hrun as [_ Hsound].
  destruct (Hsound (start_sound self)) as [_ Hst].
  unfold by_material. cbn [results with_results].
  apply (count_materials_labelled _ 0 0 0 0)%nat.
  clear -Hst. induction Hst as [|entry m He _ IH]; cbn [map]; constructor.
  - apply stamped_labelled, He.
  - exact IH.
Qed.

Lemma material_counts_match_texts_witness :
  exists papers self',
    search (api_twice geometry_record timber_record) (init None) 2014 2024 1
    = Ok (papers, self')
    /\ by_material self'
       = [("concrete", papers_mentioning ["concrete"] papers);
          ("steel", papers_mentioning ["steel"] papers);
          ("timber", papers_mentioning ["timber"; "wood"] papers);
          ("masonry", papers_mentioning ["masonry"] papers)]
    /\ by_material self'
       = [("concrete", 1%nat); ("steel", 0%nat); ("timber", 1%nat); ("masonry", 0%nat)].
Proof.
  eexists. eexists. split; [vm_compute; reflexivity|].
  split; [|vm_compute; reflexivity].
  apply (material_counts_match_texts (api_twice geometry_record timber_record)
           (init None) _ 2014 2024 1).
  vm_compute. reflexivity.
Defined.
